(** * NOAAWeather: the forecast pipeline, embedded and verified

    A shallow embedding of the Python sources

      - [noaa_client/noaa_utils.py]      (time codec, unit conversions)
      - [noaa_client/grid_forecast.py]   (grid series sampling)
      - [noaa_client/daily_forecast.py]  (period parser)
      - [noaa_client/__init__.py]        (the client and its refresh policy)
      - [noaa_proxy.py]                  (the proxy of the integration)

    Modelling conventions.

    - Python values that come out of a JSON document are the type [value].
      A [dict] is an association list of its items (keys distinct, looked
      up by first match).
    - Strings are sequences of code points below 256.
    - A Python [float] is an IEEE 754 binary64 value: [Fin q] is the
      double of value [q], beside [inf], [-inf] and [nan].  An arithmetic
      operation returns its exact result rounded to the nearest double,
      ties to the even significand, and an infinity on overflow; the
      conversion of an [int] rounds the same way and raises
      [OverflowError] beyond the range.  The sign of a zero is not kept:
      nothing in the program reads it.
    - Exceptions are values of [exn]; a computation that may raise returns
      a [result].  Each exception carries the name of the operation that
      raised it.
    - The standard library's [datetime.fromisoformat] followed by
      [.timestamp()] is a parameter: a partial function from strings to
      POSIX timestamps.  [ZoneInfo(key)] is taken to succeed, and
      [astimezone] does not change the instant a datetime denotes.
    - Names a module uses without importing them ([time] in
      grid_forecast.py) are resolved to the standard library's. *)

From Stdlib Require Import ZArith QArith Qround Qabs Qminmax Qpower String Ascii List Bool Lia Lqa.
From Stdlib Require Import DecimalString DecimalFacts DecimalPos DecimalN.
Import ListNotations.

(* ===================================================================== *)
(** * Python values, exceptions and builtins *)
(* ===================================================================== *)

Module Py.

(** ** Exceptions *)

Inductive exn : Type :=
| ValueError (origin : string)
| TypeError (origin : string)
| AttributeError (origin : string)
| IndexError (origin : string)
| OverflowError (origin : string)
| LookupError (origin : string).

Inductive result (A : Type) : Type :=
| Ok (a : A)
| Raise (e : exn).

Arguments Ok {A} a.
Arguments Raise {A} e.

Definition bind {A B : Type} (m : result A) (k : A -> result B) : result B :=
  match m with
  | Ok a => k a
  | Raise e => Raise e
  end.

Notation "x <- m ;; k" := (bind m (fun x => k))
  (at level 61, m at next level, right associativity).
Notation "' p <- m ;; k" := (bind m (fun x => let 'p := x in k))
  (at level 61, p pattern, m at next level, right associativity).

(** [except (ValueError, TypeError):] *)
Definition is_ValueError_or_TypeError (e : exn) : bool :=
  match e with
  | ValueError _ | TypeError _ => true
  | _ => false
  end.

Definition is_ValueError (e : exn) : bool :=
  match e with
  | ValueError _ => true
  | _ => false
  end.

(** [try: m  except <sel>: h] *)
Definition try_except {A : Type} (m : result A) (sel : exn -> bool)
    (h : result A) : result A :=
  match m with
  | Ok a => Ok a
  | Raise e => if sel e then h else Raise e
  end.

Definition raises {A : Type} (m : result A) : Prop :=
  exists e, m = Raise e.

(** ** Floats *)

Inductive pyfloat : Type :=
| Fin (q : Q)          (* a finite float *)
| Inf (negative : bool)
| NaN.

(** *** Rounding to binary64 *)

(** [2^e] *)
Definition Qpow2 (e : Z) : Q := 2 ^ e.

(** The binary exponent [e] of a positive rational [a]:
    [2^e <= a < 2^(e+1)]. *)
Definition Qlog2 (a : Q) : Z :=
  let e := (Z.log2 (Qnum a) - Z.log2 (Zpos (Qden a)))%Z in
  if Qle_bool (Qpow2 e) a then e else (e - 1)%Z.

(** The nearest integer, a tie going to the even one. *)
Definition round_half_even (m : Q) : Z :=
  let f := Qfloor m in
  match Qcompare (m - inject_Z f) (1 # 2) with
  | Lt => f
  | Gt => (f + 1)%Z
  | Eq => if Z.even f then f else (f + 1)%Z
  end.

(** The spacing of the doubles around a positive rational [a]: 53
    significant bits, and [2^-1074] among the subnormals. *)
Definition ulp (a : Q) : Q := Qpow2 (Z.max (Qlog2 a - 52) (-1074)).

(** The double nearest to [q], a tie going to the even significand; an
    infinity when the rounded magnitude reaches [2^1024]. *)
Definition round_double (q : Q) : pyfloat :=
  if Qeq_bool q 0 then Fin 0
  else
    let a := Qabs q in
    let r := inject_Z (round_half_even (a / ulp a)) * ulp a in
    if Qle_bool (Qpow2 1024) r then Inf (Qle_bool q 0)
    else Fin (Qred (if Qle_bool q 0 then - r else r)).

(** The value of a literal: [2.237] denotes the double nearest to it. *)
Definition double_literal (q : Q) : Q :=
  match round_double q with
  | Fin d => d
  | _ => 0
  end.

(** *** Arithmetic *)

Definition fneg (x : pyfloat) : pyfloat :=
  match x with
  | Fin q => Fin (- q)
  | Inf s => Inf (negb s)
  | NaN => NaN
  end.

(** [x + y] *)
Definition fadd (x y : pyfloat) : pyfloat :=
  match x, y with
  | NaN, _ | _, NaN => NaN
  | Inf s, Inf t => if Bool.eqb s t then Inf s else NaN
  | Inf s, Fin _ | Fin _, Inf s => Inf s
  | Fin a, Fin b => round_double (a + b)
  end.

(** [x - y] *)
Definition fsub (x y : pyfloat) : pyfloat := fadd x (fneg y).

(** [x * y] *)
Definition fmul (x y : pyfloat) : pyfloat :=
  match x, y with
  | NaN, _ | _, NaN => NaN
  | Inf s, Inf t => Inf (xorb s t)
  | Inf s, Fin b | Fin b, Inf s =>
      if Qeq_bool b 0 then NaN else Inf (xorb s (Qle_bool b 0))
  | Fin a, Fin b => round_double (a * b)
  end.

(** [x / d] for a positive double [d]: every division of the program is
    by a positive literal. *)
Definition fdiv (x : pyfloat) (d : Q) : pyfloat :=
  match x with
  | Fin a => round_double (a / d)
  | Inf s => Inf s
  | NaN => NaN
  end.

Definition int_too_large : exn :=
  OverflowError "int too large to convert to float".

(** [float(n)] for an int [n], also the conversion of an int operand of
    a float operation. *)
Definition float_of_int (n : Z) : result pyfloat :=
  match round_double (inject_Z n) with
  | Inf _ => Raise int_too_large
  | x => Ok x
  end.

(** [int(q)] on a finite float: truncation toward zero. *)
Definition Qtrunc (q : Q) : Z := Z.quot (Qnum q) (Zpos (Qden q)).

(** [int(x)] for a float [x]. *)
Definition int_of_float (x : pyfloat) : result Z :=
  match x with
  | Fin q => Ok (Qtrunc q)
  | Inf _ => Raise (OverflowError "int")
  | NaN => Raise (ValueError "int")
  end.

(** ** Values *)

#[local] Unset Elimination Schemes.

Inductive value : Type :=
| VNone
| VBool (b : bool)
| VInt (z : Z)
| VFloat (x : pyfloat)
| VStr (s : string)
| VList (l : list value)
| VDict (items : list (string * value)).

#[local] Set Elimination Schemes.

(** Truth value testing, [bool(v)]. *)
Definition truthy (v : value) : bool :=
  match v with
  | VNone => false
  | VBool b => b
  | VInt z => negb (Z.eqb z 0)
  | VFloat (Fin q) => negb (Qeq_bool q 0)
  | VFloat _ => true
  | VStr s => negb (String.eqb s "")
  | VList l => match l with [] => false | _ => true end
  | VDict m => match m with [] => false | _ => true end
  end.

Fixpoint dict_lookup (m : list (string * value)) (k : string) : option value :=
  match m with
  | [] => None
  | (k', v) :: m' => if String.eqb k' k then Some v else dict_lookup m' k
  end.

(** [d.get(k)] on a dict: [None] for an absent key. *)
Definition item (m : list (string * value)) (k : string) : value :=
  match dict_lookup m k with
  | Some x => x
  | None => VNone
  end.

(** [v.get(k)]: only a dict has the method. *)
Definition get (v : value) (k : string) : result value :=
  match v with
  | VDict m => Ok (item m k)
  | _ => Raise (AttributeError "get")
  end.

(** [v.get(k, default)] *)
Definition get_default (v : value) (k : string) (d : value) : result value :=
  match v with
  | VDict m => Ok (match dict_lookup m k with Some x => x | None => d end)
  | _ => Raise (AttributeError "get")
  end.

(** [for x in v]: the items the loop visits. *)
Definition iter (v : value) : result (list value) :=
  match v with
  | VList l => Ok l
  | VDict m => Ok (map (fun kv => VStr (fst kv)) m)
  | VStr s => Ok (map (fun c => VStr (String c "")) (list_ascii_of_string s))
  | _ => Raise (TypeError "iter")
  end.

(** ** Strings *)

Definition code (c : ascii) : nat := nat_of_ascii c.

Definition is_digit (c : ascii) : bool :=
  (48 <=? code c)%nat && (code c <=? 57)%nat.

Definition digit_val (c : ascii) : Z := Z.of_nat (code c) - 48.

Definition is_underscore (c : ascii) : bool := (code c =? 95)%nat.

(** White space that [int()] and [float()] strip from a [str]. *)
Definition number_space (c : ascii) : bool :=
  ((9 <=? code c)%nat && (code c <=? 13)%nat)
  || (code c =? 32)%nat || (code c =? 133)%nat || (code c =? 160)%nat.

(** White space for [str.split()]. *)
Definition split_space (c : ascii) : bool :=
  number_space c || ((28 <=? code c)%nat && (code c <=? 31)%nat).

Fixpoint lstrip (sp : ascii -> bool) (s : string) : string :=
  match s with
  | EmptyString => EmptyString
  | String c s' => if sp c then lstrip sp s' else s
  end.

Fixpoint rstrip (sp : ascii -> bool) (s : string) : string :=
  match s with
  | EmptyString => EmptyString
  | String c s' =>
      match rstrip sp s' with
      | EmptyString => if sp c then EmptyString else String c EmptyString
      | r => String c r
      end
  end.

Definition strip (sp : ascii -> bool) (s : string) : string :=
  rstrip sp (lstrip sp s).

(** [s.endswith(c)] for a one-character suffix. *)
Fixpoint endswith_char (s : string) (c : ascii) : bool :=
  match s with
  | EmptyString => false
  | String a EmptyString => Ascii.eqb a c
  | String _ s' => endswith_char s' c
  end.

(** [s[:-1]] *)
Fixpoint drop_last (s : string) : string :=
  match s with
  | EmptyString => EmptyString
  | String _ EmptyString => EmptyString
  | String a s' => String a (drop_last s')
  end.

Fixpoint starts_with (p s : string) : bool :=
  match p, s with
  | EmptyString, _ => true
  | String a p', String b s' => Ascii.eqb a b && starts_with p' s'
  | String _ _, EmptyString => false
  end.

(** [needle in hay] for two strings. *)
Fixpoint contains (needle hay : string) : bool :=
  starts_with needle hay
  || match hay with
     | EmptyString => false
     | String _ hay' => contains needle hay'
     end.

(** [s.split(sep)[0]] for a one-character separator. *)
Fixpoint split_first (sep : ascii) (s : string) : string :=
  match s with
  | EmptyString => EmptyString
  | String c s' => if Ascii.eqb c sep then EmptyString
                   else String c (split_first sep s')
  end.

(** [s.split()]: the maximal runs of non-blank characters. *)
Fixpoint split_ws_aux (cur : string) (s : string) : list string :=
  match s with
  | EmptyString => match cur with EmptyString => [] | _ => [cur] end
  | String c s' =>
      if split_space c
      then match cur with
           | EmptyString => split_ws_aux EmptyString s'
           | _ => cur :: split_ws_aux EmptyString s'
           end
      else split_ws_aux (cur ++ String c EmptyString) s'
  end.

Definition split_ws (s : string) : list string := split_ws_aux EmptyString s.

(** [needle in container], for a string [needle]. *)
Definition str_in (needle : string) (container : value) : result bool :=
  match container with
  | VStr s => Ok (contains needle s)
  | VList l =>
      Ok (existsb (fun x => match x with
                            | VStr t => String.eqb t needle
                            | _ => false
                            end) l)
  | VDict m => Ok (existsb (fun kv => String.eqb (fst kv) needle) m)
  | _ => Raise (TypeError "in")
  end.

(** [v.split()]: only a string has the method. *)
Definition split (v : value) : result (list string) :=
  match v with
  | VStr s => Ok (split_ws s)
  | _ => Raise (AttributeError "split")
  end.

(** [items[0]] *)
Definition first_item (items : list string) : result string :=
  match items with
  | x :: _ => Ok x
  | [] => Raise (IndexError "list")
  end.

(** ** [int(str)] *)

(** Digits with single underscores strictly between digits. *)
Fixpoint digits_ok (prev_digit : bool) (s : string) : bool :=
  match s with
  | EmptyString => prev_digit
  | String c s' =>
      if is_digit c then digits_ok true s'
      else if is_underscore c then prev_digit && digits_ok false s'
      else false
  end.

Fixpoint digits_value (acc : Z) (s : string) : Z :=
  match s with
  | EmptyString => acc
  | String c s' =>
      if is_digit c then digits_value (10 * acc + digit_val c) s'
      else digits_value acc s'
  end.

Fixpoint digits_count (s : string) : nat :=
  match s with
  | EmptyString => O
  | String c s' => if is_digit c then S (digits_count s') else digits_count s'
  end.

(** [sys.int_info.default_max_str_digits] *)
Definition max_str_digits : nat := 4300.

Definition int_unsigned (s : string) : result Z :=
  if digits_ok false s
  then if (digits_count s <=? max_str_digits)%nat
       then Ok (digits_value 0 s)
       else Raise (ValueError "int")
  else Raise (ValueError "int").

Definition int_of_str (s : string) : result Z :=
  match strip number_space s with
  | String c r =>
      if Ascii.eqb c "+" then int_unsigned r
      else if Ascii.eqb c "-" then z <- int_unsigned r ;; Ok (- z)%Z
      else int_unsigned (String c r)
  | EmptyString => int_unsigned EmptyString
  end.

(** ** [float(str)] *)

(** Every underscore stands between two digits. *)
Fixpoint float_underscores_ok (prev : ascii) (s : string) : bool :=
  match s with
  | EmptyString => negb (is_underscore prev)
  | String c s' =>
      (if is_underscore c then is_digit prev
       else if is_underscore prev then is_digit c
       else true)
      && float_underscores_ok c s'
  end.

Fixpoint remove_underscores (s : string) : string :=
  match s with
  | EmptyString => EmptyString
  | String c s' => if is_underscore c then remove_underscores s'
                   else String c (remove_underscores s')
  end.

(** The longest prefix of digits, and what follows it. *)
Fixpoint span_digits (s : string) : string * string :=
  match s with
  | EmptyString => (EmptyString, EmptyString)
  | String c s' =>
      if is_digit c
      then let (d, r) := span_digits s' in (String c d, r)
      else (EmptyString, s)
  end.

Definition is_empty (s : string) : bool :=
  match s with EmptyString => true | _ => false end.

Definition lower (c : ascii) : ascii :=
  if (65 <=? code c)%nat && (code c <=? 90)%nat
  then ascii_of_nat (code c + 32)
  else c.

Fixpoint lower_str (s : string) : string :=
  match s with
  | EmptyString => EmptyString
  | String c s' => String (lower c) (lower_str s')
  end.

(** The exponent part: empty, or [e] / [E], an optional sign and digits. *)
Definition parse_exponent (s : string) : option Z :=
  match s with
  | EmptyString => Some 0%Z
  | String c r =>
      if Ascii.eqb (lower c) "e"
      then let (sgn, r') :=
             match r with
             | String "+" t => (1%Z, t)
             | String "-" t => ((-1)%Z, t)
             | _ => (1%Z, r)
             end in
           let (ds, rest) := span_digits r' in
           if negb (is_empty ds) && is_empty rest
           then Some (sgn * digits_value 0 ds)%Z
           else None
      else None
  end.

(** [m * 10^e] *)
Definition scale10 (m e : Z) : Q :=
  if (0 <=? e)%Z then inject_Z (m * 10 ^ e)
  else (inject_Z m / inject_Z (10 ^ (- e)))%Q.

(** A decimal literal without sign: digits, an optional point and
    digits, an optional exponent; at least one digit in the mantissa. *)
Definition float_decimal (s : string) : option Q :=
  let (ip, r1) := span_digits s in
  let (fp, r2) :=
    match r1 with
    | String "." r => span_digits r
    | _ => (EmptyString, r1)
    end in
  if is_empty ip && is_empty fp then None
  else match parse_exponent r2 with
       | Some e => Some (scale10 (digits_value 0 (ip ++ fp))
                                 (e - Z.of_nat (String.length fp)))
       | None => None
       end.

Definition float_unsigned (s : string) : result pyfloat :=
  match float_decimal s with
  | Some q => Ok (round_double q)
  | None =>
      let l := lower_str s in
      if String.eqb l "inf" || String.eqb l "infinity" then Ok (Inf false)
      else if String.eqb l "nan" then Ok NaN
      else Raise (ValueError "float")
  end.

Definition float_of_str (s : string) : result pyfloat :=
  let t := strip number_space s in
  if float_underscores_ok Ascii.zero t
  then match remove_underscores t with
       | String c r =>
           if Ascii.eqb c "+" then float_unsigned r
           else if Ascii.eqb c "-" then x <- float_unsigned r ;; Ok (fneg x)
           else float_unsigned (String c r)
       | EmptyString => float_unsigned EmptyString
       end
  else Raise (ValueError "float").

(** ** [int(v)], [float(v)] *)

Definition py_int (v : value) : result Z :=
  match v with
  | VBool b => Ok (if b then 1 else 0)%Z
  | VInt z => Ok z
  | VFloat x => int_of_float x
  | VStr s => int_of_str s
  | VNone | VList _ | VDict _ => Raise (TypeError "int")
  end.

Definition py_float (v : value) : result pyfloat :=
  match v with
  | VBool b => Ok (Fin (if b then 1 else 0))
  | VInt z => float_of_int z
  | VFloat x => Ok x
  | VStr s => float_of_str s
  | VNone | VList _ | VDict _ => Raise (TypeError "float")
  end.

End Py.

Import Py.

(* ===================================================================== *)
(** * noaa_utils.py *)
(* ===================================================================== *)

Module noaa_utils.

Section TimeCodec.

(** [datetime.fromisoformat(s).timestamp()]; [None] is the [ValueError]
    of a string that is not an ISO-8601 date. *)
Variable fromisoformat : string -> option Q.

Definition iso_timestamp (s : string) : result Q :=
  match fromisoformat s with
  | Some t => Ok t
  | None => Raise (ValueError "fromisoformat")
  end.

(** [iso_to_float_time(iso_time, timezone)] *)
Definition iso_to_float_time (iso_time timezone : value) : result Q :=
  if negb (truthy iso_time) then Ok 0%Q
  else match iso_time with
       | VStr s => iso_timestamp s
       | _ => Raise (TypeError "fromisoformat")
       end.

(** *** [re.match(r"^(.+)/PT(.+)$", s)] *)

Definition newline : ascii := ascii_of_nat 10.

Fixpoint no_newline (s : string) : bool :=
  match s with
  | EmptyString => true
  | String c s' => negb (Ascii.eqb c newline) && no_newline s'
  end.

(** [$] matches at the end of the subject, or before its last character
    when that is a newline. *)
Definition re_body (s : string) : string :=
  if endswith_char s newline then drop_last s else s.

Fixpoint drop (n : nat) (s : string) : string :=
  match n, s with
  | O, _ => s
  | S n', String _ s' => drop n' s'
  | S _, EmptyString => EmptyString
  end.

(** The two groups of the greedy match: the split at the last [/PT] that
    has text on both sides. *)
Fixpoint re_split_PT (s : string) : option (string * string) :=
  match s with
  | EmptyString => None
  | String c s' =>
      match re_split_PT s' with
      | Some (a, b) => Some (String c a, b)
      | None =>
          if starts_with "/PT" s' && (3 <? String.length s')%nat
          then Some (String c EmptyString, drop 3 s')
          else None
      end
  end.

Definition re_match_PT (s : string) : option (string * string) :=
  let b := re_body s in
  if no_newline b then re_split_PT b else None.

(** *** [timedelta] *)

Definition timedelta_max_days : Z := 999999999.

(** [timedelta(seconds=n)], as its number of seconds: the constructor
    refuses a magnitude of more than 999999999 days. *)
Definition timedelta (seconds : Z) : result Z :=
  let days := (seconds / 86400)%Z in
  if ((- timedelta_max_days <=? days) && (days <=? timedelta_max_days))%Z
  then Ok seconds
  else Raise (OverflowError "timedelta").

(** [iso_to_float_time_and_delta(iso_time, timezone)] *)
Definition iso_to_float_time_and_delta (iso_time timezone : value)
  : result (Q * Q) :=
  match iso_time with
  | VStr s =>
      let '(iso, period_str) :=
        match re_match_PT s with
        | Some (a, b) => (a, Some b)
        | None => (split_first "/" s, None)
        end in
      dt <- iso_timestamp iso ;;
      time_period <-
        match period_str with
        | Some p =>
            if is_empty p then timedelta 0
            else if endswith_char p "H" then
              hours <- int_of_str (drop_last p) ;; timedelta (hours * 3600)
            else if endswith_char p "M" then
              minutes <- int_of_str (drop_last p) ;; timedelta (minutes * 60)
            else if endswith_char p "S" then
              seconds <- int_of_str (drop_last p) ;; timedelta seconds
            else timedelta 0
        | None => timedelta 0
        end ;;
      Ok (dt, inject_Z time_period)
  | _ => Raise (TypeError "re.match")
  end.

End TimeCodec.

(** ** Temperature conversions *)

(** [((temperature - 32) * 5/9) * 100.0], evaluated from left to right. *)
Definition scaled_F_to_C (temperature : pyfloat) : pyfloat :=
  fmul (fdiv (fmul (fsub temperature (Fin 32)) (Fin 5)) 9) (Fin 100).

(** [int(...) / 100.0] *)
Definition convert_F_to_C (temperature : pyfloat) : result pyfloat :=
  n <- int_of_float (scaled_F_to_C temperature) ;;
  x <- float_of_int n ;;
  Ok (fdiv x 100).

(** [((temperature * 9.0/5.0) + 32) * 100], evaluated from left to right. *)
Definition scaled_C_to_F (temperature : pyfloat) : pyfloat :=
  fmul (fadd (fdiv (fmul temperature (Fin 9)) 5) (Fin 32)) (Fin 100).

(** [int(...) / 100.0] *)
Definition convert_C_to_F (temperature : pyfloat) : result pyfloat :=
  n <- int_of_float (scaled_C_to_F temperature) ;;
  x <- float_of_int n ;;
  Ok (fdiv x 100).

(** ** Speed conversions *)

(** The literal [2.237]. *)
Definition mph_per_mps : Q := double_literal 2.237.

Definition speed_miph_to_mps (speed : value) : result pyfloat :=
  if negb (truthy speed) then Ok (Fin 0)
  else
    speed <- match speed with
             | VStr s =>
                 try_except (x <- float_of_str s ;; Ok (VFloat x))
                            is_ValueError (Ok (VInt 0))
             | _ => Ok speed
             end ;;
    match speed with
    | VBool b =>
        x <- float_of_int (if b then 1 else 0) ;; Ok (fdiv x mph_per_mps)
    | VInt z => x <- float_of_int z ;; Ok (fdiv x mph_per_mps)
    | VFloat x => Ok (fdiv x mph_per_mps)
    | _ => Ok (Fin 0)
    end.

Definition speed_mps_to_miph (speed : value) : result pyfloat :=
  if negb (truthy speed) then Ok (Fin 0)
  else
    speed <- match speed with
             | VStr s =>
                 try_except (x <- float_of_str s ;; Ok (VFloat x))
                            is_ValueError (Ok (VInt 0))
             | _ => Ok speed
             end ;;
    match speed with
    | VBool b =>
        x <- float_of_int (if b then 1 else 0) ;;
        Ok (fmul x (Fin mph_per_mps))
    | VInt z => x <- float_of_int z ;; Ok (fmul x (Fin mph_per_mps))
    | VFloat x => Ok (fmul x (Fin mph_per_mps))
    | _ => Ok (Fin 0)
    end.

End noaa_utils.

(* ===================================================================== *)
(** * grid_forecast.py *)
(* ===================================================================== *)

Module grid_forecast.

Import noaa_utils.

Definition META_PROPERTIES : string := "properties".
Definition META_VALUES : string := "values".
Definition META_TIME : string := "validTime".
Definition META_VALUE : string := "value".
Definition META_TIME_ZONE : string := "UTC".

Section GridWeather.

Variable fromisoformat : string -> option Q.

(** [time.time()] *)
Variable now : Q.

(** The loop of [_find_in_gridpoints]: [result] is the value kept so far. *)
Fixpoint find_loop (values : list value) (when : Q) (result : value)
  : Py.result value :=
  match values with
  | [] => Ok result
  | value :: rest =>
      time_str <- get value META_TIME ;;
      ' (interval_start, dt) <-
         iso_to_float_time_and_delta fromisoformat time_str
                                     (VStr META_TIME_ZONE) ;;
      if Qle_bool when interval_start
         || negb (Qle_bool (interval_start + dt) when)
      then Ok result
      else (result <- get value META_VALUE ;; find_loop rest when result)
  end.

(** [GridWeather._find_in_gridpoints(what, when)]; [self] is the grid
    payload the object holds. *)
Definition _find_in_gridpoints (self : value) (what : string)
    (when : option Q) : Py.result value :=
  let when := match when with
              | Some t => if Qeq_bool t 0 then now else t
              | None => now
              end in
  props <- get self META_PROPERTIES ;;
  quantity <- get props what ;;
  values <- get quantity META_VALUES ;;
  items <- iter values ;;
  find_loop items when VNone.

End GridWeather.

End grid_forecast.

(* ===================================================================== *)
(** * daily_forecast.py *)
(* ===================================================================== *)

Module daily_forecast.

Import noaa_utils.

Definition NOAA_UNIT_TEMP_F : string := "F".
Definition NOAA_UNIT_MPH : string := "mph".
(** The three code points of the constant [CELSIUS]. *)
Definition CELSIUS : string :=
  String (ascii_of_nat 194) (String (ascii_of_nat 176) "C").

(** The keys [_parse_period] sets, in the order it sets them. *)
Record Forecast : Type := {
  datetime : value;
  number : value;
  is_daytime : value;
  last_api_update : Q;
  timestamp : Q;
  start_time : value;
  end_time : value;
  name : value;
  condition : value;
  humidity : value;
  native_temperature : value;
  native_temperature_unit : string;
  precipitation_probability : value;
  native_wind_speed : value;
  wind_bearing : value;
  icon : value
}.

Record DailyForecast : Type := {
  _forecast : value;
  _forecast_at : Q;
  _data : list Forecast
}.

Section Parser.

Variable fromisoformat : string -> option Q.

(** The [try] block that fills [native_temperature]. *)
Definition parse_temperature (period : value) : result value :=
  try_except
    (raw <- get period "temperature" ;;
     value <- py_float raw ;;
     unit <- get period "temperatureUnit" ;;
     is_F <- str_in NOAA_UNIT_TEMP_F unit ;;
     value <- (if is_F : bool then convert_F_to_C value else Ok value) ;;
     Ok (VFloat value))
    is_ValueError_or_TypeError
    (Ok VNone).

(** The [try] block that fills [precipitation_probability]. *)
Definition parse_precipitation_probability (period : value) : result value :=
  try_except
    (pop <- get period "probabilityOfPrecipitation" ;;
     raw <- get pop "value" ;;
     n <- py_int raw ;;
     Ok (VInt n))
    is_ValueError_or_TypeError
    (Ok (VInt 0)).

(** The [try] block that fills [native_wind_speed]. *)
Definition parse_wind_speed (period : value) : result value :=
  try_except
    (value <- get period "windSpeed" ;;
     items <- split value ;;
     head <- first_item items ;;
     value <- float_of_str head ;;
     value <- (if existsb (String.eqb NOAA_UNIT_MPH) items
               then speed_miph_to_mps (VFloat value)
               else Ok value) ;;
     Ok (VFloat value))
    is_ValueError_or_TypeError
    (Ok VNone).

(** [DailyForecast._parse_period(period)], for an object whose
    [_forecast_at] is [forecast_at]. *)
Definition _parse_period (forecast_at : Q) (period : value)
  : result Forecast :=
  f_datetime <- get period "startTime" ;;
  f_number <- get period "number" ;;
  f_is_daytime <- get period "isDaytime" ;;
  start <- get period "startTime" ;;
  f_timestamp <- iso_to_float_time fromisoformat start VNone ;;
  f_start_time <- get period "startTime" ;;
  f_end_time <- get period "endTime" ;;
  f_name <- get period "name" ;;
  f_condition <- get period "shortForecast" ;;
  f_temperature <- parse_temperature period ;;
  f_precipitation <- parse_precipitation_probability period ;;
  f_wind_speed <- parse_wind_speed period ;;
  f_wind_bearing <- get period "windDirection" ;;
  f_icon <- get period "icon" ;;
  Ok {| datetime := f_datetime;
        number := f_number;
        is_daytime := f_is_daytime;
        last_api_update := forecast_at;
        timestamp := f_timestamp;
        start_time := f_start_time;
        end_time := f_end_time;
        name := f_name;
        condition := f_condition;
        humidity := VNone;
        native_temperature := f_temperature;
        native_temperature_unit := CELSIUS;
        precipitation_probability := f_precipitation;
        native_wind_speed := f_wind_speed;
        wind_bearing := f_wind_bearing;
        icon := f_icon |}.

(** The loop of [_parse]: an exception ends it and keeps [data]. *)
Fixpoint parse_loop (forecast_at : Q) (periods : list value)
    (data : list Forecast) : list Forecast :=
  match periods with
  | [] => data
  | period :: rest =>
      match _parse_period forecast_at period with
      | Ok forecast => parse_loop forecast_at rest (data ++ [forecast])
      | Raise _ => data
      end
  end.

(** [DailyForecast._parse()] *)
Definition _parse (self : DailyForecast) : DailyForecast :=
  if negb (truthy (_forecast self)) then self
  else
    let periods := (props <- get (_forecast self) "properties" ;;
                    periods <- get props "periods" ;;
                    iter periods) in
    {| _forecast := _forecast self;
       _forecast_at := _forecast_at self;
       _data := match periods with
                | Ok l => parse_loop (_forecast_at self) l []
                | Raise _ => []
                end |}.

(** [DailyForecast(daily_forecast, timestamp)] *)
Definition new (daily_forecast : value) (timestamp : Q) : DailyForecast :=
  _parse {| _forecast := daily_forecast;
            _forecast_at := timestamp;
            _data := [] |}.

Definition get_forecast (self : DailyForecast) : list Forecast := _data self.

End Parser.

End daily_forecast.

(* ===================================================================== *)
(** * hourly_forecast.py *)
(* ===================================================================== *)

Module hourly_forecast.

(** Modelled from the spec: the module [hourly_forecast.py] that the
    client imports is not among the sources.  The spec describes one
    period parser, applied to the daily and to the hourly payload alike,
    so [HourlyForecast] is the parser of [daily_forecast.py]. *)
Definition HourlyForecast : Type := daily_forecast.DailyForecast.

Definition new (fromisoformat : string -> option Q)
    (hourly_forecast : value) (timestamp : Q) : HourlyForecast :=
  daily_forecast.new fromisoformat hourly_forecast timestamp.

Definition get_forecast (self : HourlyForecast)
  : list daily_forecast.Forecast :=
  daily_forecast.get_forecast self.

End hourly_forecast.

(* ===================================================================== *)
(** * noaa_client/__init__.py *)
(* ===================================================================== *)

Module noaa_client.

Definition MIN_REFRESH_INTERVAL : Q := 1800.
Definition DEFAULT_REFRESH_INTERVAL : Q := 3600 * 12.
Definition META_PROPERTIES : string := "properties".
Definition META_FORECAST : string := "forecast".
Definition META_FORECAST_HOURLY : string := "forecastHourly".
Definition META_FORECAST_GRID_DATA : string := "forecastGridData".

(** ** The object *)

Record NOAAApiForHA : Type := {
  _lat : Q;
  _lon : Q;
  _url : string;
  _refresh_interval : Q;
  _metadata : value;
  _metadata_at : Q;
  _forecast : value;
  _forecast_at : Q;
  _daily : option daily_forecast.DailyForecast;
  _forecast_hourly : value;
  _forecast_hourly_at : Q;
  _hourly : option hourly_forecast.HourlyForecast;
  _forecast_grid_data : value;
  _forecast_grid_data_at : Q;
  _all_data_ok : bool;
  _all_data_ok_at : Q
}.

(** [NOAAApiForHA(session, logger, lat, lon, url)], [url] already
    defaulted. *)
Definition new (lat lon : Q) (url : string) : NOAAApiForHA :=
  {| _lat := lat; _lon := lon; _url := url;
     _refresh_interval := DEFAULT_REFRESH_INTERVAL;
     _metadata := VNone; _metadata_at := 0;
     _forecast := VNone; _forecast_at := 0; _daily := None;
     _forecast_hourly := VNone; _forecast_hourly_at := 0; _hourly := None;
     _forecast_grid_data := VNone; _forecast_grid_data_at := 0;
     _all_data_ok := false; _all_data_ok_at := 0 |}.

(** Attribute assignments. *)

Definition with_location (lat lon : Q) (o : NOAAApiForHA) : NOAAApiForHA :=
  {| _lat := lat; _lon := lon; _url := _url o;
     _refresh_interval := _refresh_interval o;
     _metadata := _metadata o; _metadata_at := _metadata_at o;
     _forecast := _forecast o; _forecast_at := _forecast_at o;
     _daily := _daily o;
     _forecast_hourly := _forecast_hourly o;
     _forecast_hourly_at := _forecast_hourly_at o; _hourly := _hourly o;
     _forecast_grid_data := _forecast_grid_data o;
     _forecast_grid_data_at := _forecast_grid_data_at o;
     _all_data_ok := _all_data_ok o; _all_data_ok_at := _all_data_ok_at o |}.

Definition with_refresh_interval (v : Q) (o : NOAAApiForHA) : NOAAApiForHA :=
  {| _lat := _lat o; _lon := _lon o; _url := _url o;
     _refresh_interval := v;
     _metadata := _metadata o; _metadata_at := _metadata_at o;
     _forecast := _forecast o; _forecast_at := _forecast_at o;
     _daily := _daily o;
     _forecast_hourly := _forecast_hourly o;
     _forecast_hourly_at := _forecast_hourly_at o; _hourly := _hourly o;
     _forecast_grid_data := _forecast_grid_data o;
     _forecast_grid_data_at := _forecast_grid_data_at o;
     _all_data_ok := _all_data_ok o; _all_data_ok_at := _all_data_ok_at o |}.

Definition with_metadata (v : value) (o : NOAAApiForHA) : NOAAApiForHA :=
  {| _lat := _lat o; _lon := _lon o; _url := _url o;
     _refresh_interval := _refresh_interval o;
     _metadata := v; _metadata_at := _metadata_at o;
     _forecast := _forecast o; _forecast_at := _forecast_at o;
     _daily := _daily o;
     _forecast_hourly := _forecast_hourly o;
     _forecast_hourly_at := _forecast_hourly_at o; _hourly := _hourly o;
     _forecast_grid_data := _forecast_grid_data o;
     _forecast_grid_data_at := _forecast_grid_data_at o;
     _all_data_ok := _all_data_ok o; _all_data_ok_at := _all_data_ok_at o |}.

Definition with_metadata_at (t : Q) (o : NOAAApiForHA) : NOAAApiForHA :=
  {| _lat := _lat o; _lon := _lon o; _url := _url o;
     _refresh_interval := _refresh_interval o;
     _metadata := _metadata o; _metadata_at := t;
     _forecast := _forecast o; _forecast_at := _forecast_at o;
     _daily := _daily o;
     _forecast_hourly := _forecast_hourly o;
     _forecast_hourly_at := _forecast_hourly_at o; _hourly := _hourly o;
     _forecast_grid_data := _forecast_grid_data o;
     _forecast_grid_data_at := _forecast_grid_data_at o;
     _all_data_ok := _all_data_ok o; _all_data_ok_at := _all_data_ok_at o |}.

Definition with_forecast (v : value) (o : NOAAApiForHA) : NOAAApiForHA :=
  {| _lat := _lat o; _lon := _lon o; _url := _url o;
     _refresh_interval := _refresh_interval o;
     _metadata := _metadata o; _metadata_at := _metadata_at o;
     _forecast := v; _forecast_at := _forecast_at o;
     _daily := _daily o;
     _forecast_hourly := _forecast_hourly o;
     _forecast_hourly_at := _forecast_hourly_at o; _hourly := _hourly o;
     _forecast_grid_data := _forecast_grid_data o;
     _forecast_grid_data_at := _forecast_grid_data_at o;
     _all_data_ok := _all_data_ok o; _all_data_ok_at := _all_data_ok_at o |}.

Definition with_forecast_at (t : Q) (o : NOAAApiForHA) : NOAAApiForHA :=
  {| _lat := _lat o; _lon := _lon o; _url := _url o;
     _refresh_interval := _refresh_interval o;
     _metadata := _metadata o; _metadata_at := _metadata_at o;
     _forecast := _forecast o; _forecast_at := t;
     _daily := _daily o;
     _forecast_hourly := _forecast_hourly o;
     _forecast_hourly_at := _forecast_hourly_at o; _hourly := _hourly o;
     _forecast_grid_data := _forecast_grid_data o;
     _forecast_grid_data_at := _forecast_grid_data_at o;
     _all_data_ok := _all_data_ok o; _all_data_ok_at := _all_data_ok_at o |}.

Definition with_daily (d : daily_forecast.DailyForecast) (o : NOAAApiForHA)
  : NOAAApiForHA :=
  {| _lat := _lat o; _lon := _lon o; _url := _url o;
     _refresh_interval := _refresh_interval o;
     _metadata := _metadata o; _metadata_at := _metadata_at o;
     _forecast := _forecast o; _forecast_at := _forecast_at o;
     _daily := Some d;
     _forecast_hourly := _forecast_hourly o;
     _forecast_hourly_at := _forecast_hourly_at o; _hourly := _hourly o;
     _forecast_grid_data := _forecast_grid_data o;
     _forecast_grid_data_at := _forecast_grid_data_at o;
     _all_data_ok := _all_data_ok o; _all_data_ok_at := _all_data_ok_at o |}.

Definition with_forecast_hourly (v : value) (o : NOAAApiForHA)
  : NOAAApiForHA :=
  {| _lat := _lat o; _lon := _lon o; _url := _url o;
     _refresh_interval := _refresh_interval o;
     _metadata := _metadata o; _metadata_at := _metadata_at o;
     _forecast := _forecast o; _forecast_at := _forecast_at o;
     _daily := _daily o;
     _forecast_hourly := v;
     _forecast_hourly_at := _forecast_hourly_at o; _hourly := _hourly o;
     _forecast_grid_data := _forecast_grid_data o;
     _forecast_grid_data_at := _forecast_grid_data_at o;
     _all_data_ok := _all_data_ok o; _all_data_ok_at := _all_data_ok_at o |}.

Definition with_forecast_hourly_at (t : Q) (o : NOAAApiForHA)
  : NOAAApiForHA :=
  {| _lat := _lat o; _lon := _lon o; _url := _url o;
     _refresh_interval := _refresh_interval o;
     _metadata := _metadata o; _metadata_at := _metadata_at o;
     _forecast := _forecast o; _forecast_at := _forecast_at o;
     _daily := _daily o;
     _forecast_hourly := _forecast_hourly o;
     _forecast_hourly_at := t; _hourly := _hourly o;
     _forecast_grid_data := _forecast_grid_data o;
     _forecast_grid_data_at := _forecast_grid_data_at o;
     _all_data_ok := _all_data_ok o; _all_data_ok_at := _all_data_ok_at o |}.

Definition with_hourly (h : hourly_forecast.HourlyForecast)
    (o : NOAAApiForHA) : NOAAApiForHA :=
  {| _lat := _lat o; _lon := _lon o; _url := _url o;
     _refresh_interval := _refresh_interval o;
     _metadata := _metadata o; _metadata_at := _metadata_at o;
     _forecast := _forecast o; _forecast_at := _forecast_at o;
     _daily := _daily o;
     _forecast_hourly := _forecast_hourly o;
     _forecast_hourly_at := _forecast_hourly_at o; _hourly := Some h;
     _forecast_grid_data := _forecast_grid_data o;
     _forecast_grid_data_at := _forecast_grid_data_at o;
     _all_data_ok := _all_data_ok o; _all_data_ok_at := _all_data_ok_at o |}.

Definition with_forecast_grid_data (v : value) (o : NOAAApiForHA)
  : NOAAApiForHA :=
  {| _lat := _lat o; _lon := _lon o; _url := _url o;
     _refresh_interval := _refresh_interval o;
     _metadata := _metadata o; _metadata_at := _metadata_at o;
     _forecast := _forecast o; _forecast_at := _forecast_at o;
     _daily := _daily o;
     _forecast_hourly := _forecast_hourly o;
     _forecast_hourly_at := _forecast_hourly_at o; _hourly := _hourly o;
     _forecast_grid_data := v;
     _forecast_grid_data_at := _forecast_grid_data_at o;
     _all_data_ok := _all_data_ok o; _all_data_ok_at := _all_data_ok_at o |}.

Definition with_forecast_grid_data_at (t : Q) (o : NOAAApiForHA)
  : NOAAApiForHA :=
  {| _lat := _lat o; _lon := _lon o; _url := _url o;
     _refresh_interval := _refresh_interval o;
     _metadata := _metadata o; _metadata_at := _metadata_at o;
     _forecast := _forecast o; _forecast_at := _forecast_at o;
     _daily := _daily o;
     _forecast_hourly := _forecast_hourly o;
     _forecast_hourly_at := _forecast_hourly_at o; _hourly := _hourly o;
     _forecast_grid_data := _forecast_grid_data o;
     _forecast_grid_data_at := t;
     _all_data_ok := _all_data_ok o; _all_data_ok_at := _all_data_ok_at o |}.

Definition with_all_data_ok (b : bool) (o : NOAAApiForHA) : NOAAApiForHA :=
  {| _lat := _lat o; _lon := _lon o; _url := _url o;
     _refresh_interval := _refresh_interval o;
     _metadata := _metadata o; _metadata_at := _metadata_at o;
     _forecast := _forecast o; _forecast_at := _forecast_at o;
     _daily := _daily o;
     _forecast_hourly := _forecast_hourly o;
     _forecast_hourly_at := _forecast_hourly_at o; _hourly := _hourly o;
     _forecast_grid_data := _forecast_grid_data o;
     _forecast_grid_data_at := _forecast_grid_data_at o;
     _all_data_ok := b; _all_data_ok_at := _all_data_ok_at o |}.

Definition with_all_data_ok_at (t : Q) (o : NOAAApiForHA) : NOAAApiForHA :=
  {| _lat := _lat o; _lon := _lon o; _url := _url o;
     _refresh_interval := _refresh_interval o;
     _metadata := _metadata o; _metadata_at := _metadata_at o;
     _forecast := _forecast o; _forecast_at := _forecast_at o;
     _daily := _daily o;
     _forecast_hourly := _forecast_hourly o;
     _forecast_hourly_at := _forecast_hourly_at o; _hourly := _hourly o;
     _forecast_grid_data := _forecast_grid_data o;
     _forecast_grid_data_at := _forecast_grid_data_at o;
     _all_data_ok := _all_data_ok o; _all_data_ok_at := t |}.

(** [set_refresh_interval(refresh_interval)]; [max(a, b)] is [b] when
    [b > a], else [a]. *)
Definition py_max (a b : Q) : Q := if Qle_bool b a then a else b.

Definition set_refresh_interval (refresh_interval : Q) (self : NOAAApiForHA)
  : NOAAApiForHA :=
  let self := with_refresh_interval refresh_interval self in
  with_refresh_interval
    (py_max (_refresh_interval self) MIN_REFRESH_INTERVAL) self.

(** ** The world: the clock and the network *)

(** [pending] scripts the network: each request takes the next entry, the
    time the exchange lasts and its outcome ([Some j]: status 200 with
    body [j]; [None]: any other status, or an error).  [requests] logs
    the URLs requested so far, the latest first. *)
Record World : Type := {
  clock : Q;
  pending : list (Q * option value);
  requests : list string
}.

Definition State : Type := (NOAAApiForHA * World)%type.

(** Computations on the object and the world that may raise.  The state
    an exception leaves behind is kept: assignments are not undone. *)
Definition M (A : Type) : Type := State -> result A * State.

Definition ret {A : Type} (a : A) : M A := fun s => (Ok a, s).

Definition mbind {A B : Type} (m : M A) (k : A -> M B) : M B :=
  fun s => match m s with
           | (Ok a, s') => k a s'
           | (Raise e, s') => (Raise e, s')
           end.

Notation "x <~ m ;; k" := (mbind m (fun x => k))
  (at level 61, m at next level, right associativity).
Notation "m ;;; k" := (mbind m (fun _ => k))
  (at level 61, right associativity).

Definition lift {A : Type} (r : result A) : M A := fun s => (r, s).

Definition self_get {A : Type} (f : NOAAApiForHA -> A) : M A :=
  fun s => (Ok (f (fst s)), s).

Definition self_set (f : NOAAApiForHA -> NOAAApiForHA) : M unit :=
  fun s => (Ok tt, (f (fst s), snd s)).

(** [time.time()] *)
Definition time_time : M Q := fun s => (Ok (clock (snd s)), s).

(** [try: m  except Exception: h] *)
Definition try_except_all {A : Type} (m : M A) (h : M A) : M A :=
  fun s => match m s with
           | (Ok a, s') => (Ok a, s')
           | (Raise _, s') => h s'
           end.

(** One HTTP GET, as [session.get(url)] and [response.json()] see it. *)
Definition http_get (url : string) (w : World) : option value * World :=
  match pending w with
  | [] => (None, {| clock := clock w; pending := [];
                    requests := url :: requests w |})
  | (latency, outcome) :: rest =>
      (outcome, {| clock := clock w + latency; pending := rest;
                   requests := url :: requests w |})
  end.

(** What [await _async_get_url(url)] returns in a world, and the world
    after it: a falsy [url] is not requested; every failure is logged and
    becomes [None]. *)
Definition url_response (url : value) (w : World) : value * World :=
  if negb (truthy url) then (VNone, w)
  else match url with
       | VStr u =>
           let (r, w') := http_get u w in
           (match r with Some j => j | None => VNone end, w')
       | _ => (VNone, w)
       end.

(** [_async_get_url(url)] *)
Definition _async_get_url (url : value) : M value :=
  fun s => let (r, w) := url_response url (snd s) in (Ok r, (fst s, w)).

Section Client.

Variable fromisoformat : string -> option Q.

(** [self._url.format(lat=("%9.4f" % lat).strip(),
                      lon=("%9.4f" % lon).strip())];
    [None] when the template names another field. *)
Variable format_url : string -> Q -> Q -> option string.

(** [self._metadata.get(META_PROPERTIES, {}).get(key)] *)
Definition metadata_link (key : string) : M value :=
  metadata <~ self_get _metadata ;;
  lift (props <- get_default metadata META_PROPERTIES (VDict []) ;;
        get props key).

(** [_async_get_forecasts()] *)
Definition _async_get_forecasts : M bool :=
  metadata <~ self_get _metadata ;;
  if negb (truthy metadata) then ret false
  else
    url <~ metadata_link META_FORECAST ;;
    response <~ _async_get_url url ;;
    result <~ (if truthy response
               then self_set (with_forecast response) ;;;
                    (t <~ time_time ;; self_set (with_forecast_at t)) ;;;
                    (t <~ time_time ;;
                     self_set (with_daily
                                 (daily_forecast.new fromisoformat response t))) ;;;
                    ret true
               else ret false) ;;
    url <~ metadata_link META_FORECAST_HOURLY ;;
    response <~ _async_get_url url ;;
    result <~ (if truthy response
               then self_set (with_forecast_hourly response) ;;;
                    (t <~ time_time ;; self_set (with_forecast_hourly_at t)) ;;;
                    (t <~ time_time ;;
                     self_set (with_hourly
                                 (hourly_forecast.new fromisoformat response t))) ;;;
                    ret result
               else ret false) ;;
    url <~ metadata_link META_FORECAST_GRID_DATA ;;
    response <~ _async_get_url url ;;
    result <~ (if truthy response
               then self_set (with_forecast_grid_data response) ;;;
                    (t <~ time_time ;;
                     self_set (with_forecast_grid_data_at t)) ;;;
                    ret result
               else ret false) ;;
    ret result.

(** [not lat] for an optional float argument. *)
Definition or_default (arg : option Q) (d : Q) : Q :=
  match arg with
  | Some x => if Qeq_bool x 0 then d else x
  | None => d
  end.

(** [async_get_for_location(lat, lon)] *)
Definition async_get_for_location (lat lon : option Q) : M bool :=
  try_except_all
    (self_lat <~ self_get _lat ;;
     self_lon <~ self_get _lon ;;
     let lat := or_default lat self_lat in
     let lon := or_default lon self_lon in
     template <~ self_get _url ;;
     url <~ lift (match format_url template lat lon with
                  | Some u => Ok u
                  | None => Raise (LookupError "format")
                  end) ;;
     response <~ _async_get_url (VStr url) ;;
     if truthy response
     then self_set (with_metadata response) ;;;
          (t <~ time_time ;; self_set (with_metadata_at t)) ;;;
          self_set (with_location lat lon) ;;;
          (ok <~ _async_get_forecasts ;; self_set (with_all_data_ok ok)) ;;;
          (ok <~ self_get _all_data_ok ;;
           if ok : bool
           then t <~ time_time ;; self_set (with_all_data_ok_at t)
           else ret tt) ;;;
          self_get _all_data_ok
     else ret false)
    (ret false).

(** [async_refresh()] *)
Definition async_refresh : M bool :=
  ok <~ self_get _all_data_ok ;;
  now <~ time_time ;;
  at_ <~ self_get _all_data_ok_at ;;
  interval <~ self_get _refresh_interval ;;
  if ok && negb (Qle_bool interval (now - at_))
  then ret true
  else async_get_for_location None None.

(** [async_get_daily_forecasts()] *)
Definition async_get_daily_forecasts : M (list daily_forecast.Forecast) :=
  async_refresh ;;;
  (daily <~ self_get _daily ;;
   match daily with
   | Some d => ret (daily_forecast.get_forecast d)
   | None => ret []
   end).

(** [async_get_hourly_forecasts()] *)
Definition async_get_hourly_forecasts : M (list daily_forecast.Forecast) :=
  async_refresh ;;;
  (hourly <~ self_get _hourly ;;
   match hourly with
   | Some h => ret (hourly_forecast.get_forecast h)
   | None => ret []
   end).

End Client.

End noaa_client.

(* ===================================================================== *)
(** * noaa_proxy.py *)
(* ===================================================================== *)

Module noaa_proxy.

Import noaa_client.

Definition DEFAULT_NOAA_METADATA_URL : string :=
  "https://api.weather.gov/points/{lat},{lon}".

(** [NOAAApiForHA(session, logger, lat, lon, url, api_key)] as
    [NOAAProxy.__init__] calls it: a [url] of [None] is replaced by the
    default template.  The class is the one of [noaa_client/__init__.py],
    the module [noaa_client] above. *)
Definition new (lat lon : Q) (url : option string) : NOAAApiForHA :=
  noaa_client.new lat lon
    (match url with
     | Some u => u
     | None => DEFAULT_NOAA_METADATA_URL
     end).

Section Proxy.

Variable fromisoformat : string -> option Q.
Variable format_url : string -> Q -> Q -> option string.

(** [async_get_current_conditions()]: the first hourly record; [None]
    stands for the empty dict returned when there is none. *)
Definition async_get_current_conditions
  : M (option daily_forecast.Forecast) :=
  hourly_forecasts <~ async_get_hourly_forecasts fromisoformat format_url ;;
  match hourly_forecasts with
  | first :: _ => ret (Some first)
  | [] => ret None
  end.

(** [async_get_hourly_forecast()] *)
Definition async_get_hourly_forecast : M (list daily_forecast.Forecast) :=
  hourly_forecasts <~ async_get_hourly_forecasts fromisoformat format_url ;;
  ret hourly_forecasts.

(** [async_get_daily_forecast()] *)
Definition async_get_daily_forecast : M (list daily_forecast.Forecast) :=
  daily_forecasts <~ async_get_daily_forecasts fromisoformat format_url ;;
  ret daily_forecasts.

End Proxy.

End noaa_proxy.

(* ===================================================================== *)
(** * Vocabulary of the properties *)
(* ===================================================================== *)

Import noaa_utils.
Import noaa_client.

Local Open Scope string_scope.

(** ** Strings and numerals *)

Fixpoint has_char (c : ascii) (s : string) : bool :=
  match s with
  | EmptyString => false
  | String a s' => Ascii.eqb a c || has_char c s'
  end.

Fixpoint all_chars (P : ascii -> bool) (s : string) : bool :=
  match s with
  | EmptyString => true
  | String a s' => P a && all_chars P s'
  end.

(** The decimal numeral of a natural number, without leading zeros. *)
Definition decimal (n : N) : string := NilEmpty.string_of_uint (N.to_uint n).

Definition head_nonzero (u : Decimal.uint) : bool :=
  match u with
  | Decimal.Nil | Decimal.D0 _ => false
  | _ => true
  end.

(** ** Rounding to two decimal places *)

(** The rounding the specification words: [floor(x*100)/100]. *)
Definition floor_2dp (x : Q) : Q := inject_Z (Qfloor (x * 100)) / 100.

(** Rounding toward zero: the floor of a value that is not negative, the
    ceiling of a negative one. *)
Definition toward_zero (x : Q) : Z :=
  if Qle_bool 0 x then Qfloor x else Qceiling x.

(** ** Intervals *)

(** The specification's name for [iso_to_float_time_and_delta]. *)
Definition to_epoch_with_duration (fromisoformat : string -> option Q)
  : value -> value -> result (Q * Q) :=
  iso_to_float_time_and_delta fromisoformat.

Definition is_unit (c : ascii) : bool :=
  Ascii.eqb c "H" || Ascii.eqb c "M" || Ascii.eqb c "S".

Definition digit_or_unit (c : ascii) : bool := is_digit c || is_unit c.

(** A grid payload whose [temperature] series has two one-hour intervals,
    starting at the instants written [s0] and [s1], with the values
    ["5"] and ["7"]. *)
Definition two_hour_grid (s0 s1 : string) : value :=
  VDict
    [("properties",
      VDict
        [("temperature",
          VDict
            [("uom", VStr "wmoUnit:degC");
             ("values",
              VList
                [VDict [("validTime", VStr (s0 ++ "/PT1H"));
                        ("value", VStr "5")];
                 VDict [("validTime", VStr (s1 ++ "/PT1H"));
                        ("value", VStr "7")]])])])].

(** ** Well-formed periods *)

Section PeriodShapes.

Variable fromisoformat : string -> option Q.

(** [startTime] is absent or empty, or a string the calendar reads. *)
Definition start_time_ok (v : value) : bool :=
  negb (truthy v)
  || match v with
     | VStr s => match fromisoformat s with Some _ => true | None => false end
     | _ => false
     end.

(** The temperature is a number within the range of the doubles, or
    something [float()] refuses; when the unit asks for the conversion
    from Fahrenheit, the conversion does not overflow. *)
Definition temperature_ok (raw unit : value) : bool :=
  match py_float raw with
  | Raise e => is_ValueError_or_TypeError e
  | Ok x =>
      match str_in daily_forecast.NOAA_UNIT_TEMP_F unit with
      | Ok true =>
          match convert_F_to_C x with
          | Ok _ => true
          | Raise e => is_ValueError_or_TypeError e
          end
      | _ => true
      end
  end.

(** [probabilityOfPrecipitation] is an object, its value no infinity. *)
Definition precipitation_ok (v : value) : bool :=
  match v with
  | VDict pm => match item pm "value" with
                | VFloat (Inf _) => false
                | _ => true
                end
  | _ => false
  end.

(** [windSpeed] is a string that is not blank. *)
Definition wind_speed_ok (v : value) : bool :=
  match v with
  | VStr s => match split_ws s with [] => false | _ :: _ => true end
  | _ => false
  end.

(** A structurally well-formed period: an object whose fields have the
    shapes [_parse_period] relies on. *)
Definition well_formed_period (p : value) : bool :=
  match p with
  | VDict m =>
      start_time_ok (item m "startTime")
      && temperature_ok (item m "temperature") (item m "temperatureUnit")
      && precipitation_ok (item m "probabilityOfPrecipitation")
      && wind_speed_ok (item m "windSpeed")
  | _ => false
  end.

End PeriodShapes.

(** ** Runs of the client *)

(** The clock does not run backwards while a request is under way. *)
Definition nonneg_latencies (w : World) : Prop :=
  Forall (fun entry => 0 <= fst entry) (pending w).

Definition step_ok {A : Type} (R : State -> State -> Prop) (m : M A) : Prop :=
  forall s, R s (snd (m s)).

(** What a run of [_async_get_forecasts] leaves alone, and how the
    clock moves. *)
Definition forecasts_frame (s s' : State) : Prop :=
  _refresh_interval (fst s') = _refresh_interval (fst s)
  /\ _all_data_ok (fst s') = _all_data_ok (fst s)
  /\ _all_data_ok_at (fst s') = _all_data_ok_at (fst s)
  /\ _metadata (fst s') = _metadata (fst s)
  /\ _metadata_at (fst s') = _metadata_at (fst s)
  /\ (exists later, requests (snd s') = (later ++ requests (snd s))%list)
  /\ (nonneg_latencies (snd s) ->
      nonneg_latencies (snd s') /\ clock (snd s) <= clock (snd s')).

Section Stores.

Variable fromisoformat : string -> option Q.
Variable format_url : string -> Q -> Q -> option string.

(** The object after the daily, the hourly and the grid payload have
    been fetched with the responses [r1], [r2], [r3], received at the
    instants [t1], [t2], [t3]: a falsy response changes nothing. *)
Definition store_daily (r : value) (t : Q) (o : NOAAApiForHA) : NOAAApiForHA :=
  if truthy r
  then with_daily (daily_forecast.new fromisoformat r t)
         (with_forecast_at t (with_forecast r o))
  else o.

Definition store_hourly (r : value) (t : Q) (o : NOAAApiForHA) : NOAAApiForHA :=
  if truthy r
  then with_hourly (hourly_forecast.new fromisoformat r t)
         (with_forecast_hourly_at t (with_forecast_hourly r o))
  else o.

Definition store_grid (r : value) (t : Q) (o : NOAAApiForHA) : NOAAApiForHA :=
  if truthy r
  then with_forecast_grid_data_at t (with_forecast_grid_data r o)
  else o.

(** The metadata lookup: the response to the request for the location's
    URL, and the world after it.  A template that does not format is a
    failed lookup. *)
Definition discover_response (o : NOAAApiForHA) (w : World) : value * World :=
  match format_url (_url o) (_lat o) (_lon o) with
  | Some u => url_response (VStr u) w
  | None => (VNone, w)
  end.

Definition store_metadata (meta : value) (t : Q) (o : NOAAApiForHA)
  : NOAAApiForHA :=
  with_location (_lat o) (_lon o) (with_metadata_at t (with_metadata meta o)).

(** [refresh()] has to fetch: the data are not all there, or the
    interval has elapsed. *)
Definition stale (o : NOAAApiForHA) (w : World) : Prop :=
  _all_data_ok o = false
  \/ _refresh_interval o <= clock w - _all_data_ok_at o.

Definition cached_daily (o : NOAAApiForHA) : list daily_forecast.Forecast :=
  match _daily o with
  | Some d => daily_forecast.get_forecast d
  | None => []
  end.

End Stores.

(** ** Worked examples *)

(** A calendar for worked examples: two instants of 2024-01-01 (UTC) and
    their POSIX timestamps. *)
Definition sample_fromisoformat (s : string) : option Q :=
  if String.eqb s "2024-01-01T00:00:00+00:00" then Some 1704067200
  else if String.eqb s "2024-01-01T01:00:00+00:00" then Some 1704070800
  else None.

(** An hourly period as the provider sends it. *)
Definition sample_period : list (string * value) :=
  [("number", VInt 1);
   ("startTime", VStr "2024-01-01T00:00:00+00:00");
   ("endTime", VStr "2024-01-01T01:00:00+00:00");
   ("isDaytime", VBool false);
   ("temperature", VInt 50);
   ("temperatureUnit", VStr "F");
   ("probabilityOfPrecipitation",
    VDict [("unitCode", VStr "wmoUnit:percent"); ("value", VInt 30)]);
   ("windSpeed", VStr "10 mph");
   ("windDirection", VStr "NW");
   ("shortForecast", VStr "Clear")].

(** The same period without [probabilityOfPrecipitation]. *)
Definition period_without_precipitation : list (string * value) :=
  [("number", VInt 1);
   ("startTime", VStr "2024-01-01T00:00:00+00:00");
   ("endTime", VStr "2024-01-01T01:00:00+00:00");
   ("isDaytime", VBool false);
   ("temperature", VInt 50);
   ("temperatureUnit", VStr "F");
   ("windSpeed", VStr "10 mph");
   ("windDirection", VStr "NW");
   ("shortForecast", VStr "Clear")].

(** A period of 20 degrees without [temperatureUnit]. *)
Definition period_without_unit : list (string * value) :=
  [("number", VInt 1);
   ("startTime", VStr "2024-01-01T00:00:00+00:00");
   ("endTime", VStr "2024-01-01T01:00:00+00:00");
   ("isDaytime", VBool false);
   ("temperature", VInt 20);
   ("probabilityOfPrecipitation",
    VDict [("unitCode", VStr "wmoUnit:percent"); ("value", VInt 30)]);
   ("windSpeed", VStr "10 mph");
   ("windDirection", VStr "NW");
   ("shortForecast", VStr "Clear")].

Definition sample_payload : value :=
  VDict [("properties",
          VDict [("periods", VList [VDict sample_period;
                                    VDict period_without_unit])])].

Definition sample_url : string :=
  "https://api.weather.gov/points/37.3611,-121.9278".

(** The default template, formatted for the default location. *)
Definition sample_format_url (template : string) (lat lon : Q)
  : option string :=
  Some sample_url.

Definition sample_client : NOAAApiForHA :=
  noaa_client.new 37.3611 (-121.9278)
    "https://api.weather.gov/points/{lat},{lon}".

(** A world in which every request fails. *)
Definition offline (t : Q) (log : list string) : World :=
  {| clock := t; pending := []; requests := log |}.

Definition sample_metadata : value :=
  VDict [("properties",
          VDict [("forecast", VStr "https://api.weather.gov/gridpoints/MTR/97,82/forecast");
                 ("forecastHourly", VStr "https://api.weather.gov/gridpoints/MTR/97,82/forecast/hourly");
                 ("forecastGridData", VStr "https://api.weather.gov/gridpoints/MTR/97,82")])].


(** ** Further vocabulary *)

(** The conversions on real numbers, before any rounding. *)
Definition exact_F_to_C (f : Q) : Q := (f - 32) * 5 / 9.

Definition exact_C_to_F (c : Q) : Q := c * 9 / 5 + 32.

(** The multiple of the spacing nearest to a positive rational: the
    magnitude [round_double] gives it. *)
Definition nearest (a : Q) : Q :=
  inject_Z (round_half_even (a / ulp a)) * ulp a.

(** The order of the floats; [nan] compares with nothing. *)
Definition fle (x y : pyfloat) : Prop :=
  match x, y with
  | Fin a, Fin b => a <= b
  | Inf true, Fin _ | Inf true, Inf _ => True
  | Fin _, Inf false | Inf false, Inf false => True
  | _, _ => False
  end.

(** A grid entry and the interval [(start, duration, value)] it decodes
    to. *)
Definition grid_entry_decodes (fromisoformat : string -> option Q)
    (entry : value) (e : Q * Q * value) : Prop :=
  exists time_str,
    get entry grid_forecast.META_TIME = Ok time_str
    /\ iso_to_float_time_and_delta fromisoformat time_str
         (VStr grid_forecast.META_TIME_ZONE)
       = Ok (fst (fst e), snd (fst e))
    /\ get entry grid_forecast.META_VALUE = Ok (snd e).

(** The series of a quantity in a grid payload. *)
Definition grid_values (self : value) (what : string) : result value :=
  props <- get self grid_forecast.META_PROPERTIES ;;
  quantity <- get props what ;;
  get quantity grid_forecast.META_VALUES.

(** [properties.periods] of a forecast payload. *)
Definition payload_periods (payload : value) : result (list value) :=
  props <- get payload "properties" ;;
  periods <- get props "periods" ;;
  iter periods.

(** Intervals of positive length in time order, none starting before the
    previous one ends. *)
Fixpoint chronological (series : list (Q * Q * value)) : Prop :=
  match series with
  | [] => True
  | (s, d, _) :: rest =>
      0 < d
      /\ match rest with
         | [] => True
         | (s', _, _) :: _ => s + d <= s'
         end
      /\ chronological rest
  end.

(** A grid payload holding [values] as the series of [what]. *)
Definition grid_of (what : string) (values : value) : value :=
  VDict [("properties", VDict [(what, VDict [("values", values)])])].

(** A grid entry. *)
Definition grid_entry (valid_time : string) (v : value) : value :=
  VDict [("validTime", VStr valid_time); ("value", v)].

(** Null or a float. *)
Definition none_or_float (v : value) : Prop :=
  v = VNone \/ exists x, v = VFloat x.

(** The types the three parsed fields of a record have. *)
Definition record_typed (r : daily_forecast.Forecast) : Prop :=
  (exists n, daily_forecast.precipitation_probability r = VInt n)
  /\ none_or_float (daily_forecast.native_temperature r)
  /\ none_or_float (daily_forecast.native_wind_speed r)
  /\ daily_forecast.native_temperature_unit r = daily_forecast.CELSIUS
  /\ daily_forecast.humidity r = VNone.

(** A payload holding [periods]. *)
Definition payload_of (periods : value) : value :=
  VDict [("properties", VDict [("periods", periods)])].

(** What the object serves as the hourly forecast. *)
Definition cached_hourly (o : NOAAApiForHA) : list daily_forecast.Forecast :=
  match _hourly o with
  | Some h => hourly_forecast.get_forecast h
  | None => []
  end.

(** The settings and the location of the object are the same in both
    states. *)
Definition location_frame (s s' : State) : Prop :=
  _lat (fst s') = _lat (fst s)
  /\ _lon (fst s') = _lon (fst s)
  /\ _url (fst s') = _url (fst s)
  /\ _refresh_interval (fst s') = _refresh_interval (fst s).

(** The settings of the object are the same in both states. *)
Definition config_frame (s s' : State) : Prop :=
  _url (fst s') = _url (fst s)
  /\ _refresh_interval (fst s') = _refresh_interval (fst s).

(** Metadata whose [properties] is not an object. *)
Definition malformed_metadata (meta : value) : Prop :=
  truthy meta = true
  /\ forall pm, get_default meta META_PROPERTIES (VDict []) <> Ok (VDict pm).

(** The request [async_get_for_location(lat, lon)] makes, and the world
    after it; a template that does not format makes no request. *)
Definition location_response (format_url : string -> Q -> Q -> option string)
    (lat lon : Q) (o : NOAAApiForHA) (w : World) : value * World :=
  match format_url (_url o) lat lon with
  | Some u => url_response (VStr u) w
  | None => (VNone, w)
  end.

(** A world that answers the metadata lookup and the three forecast
    requests, each after one second. *)
Definition all_up : World :=
  {| clock := 1704067200;
     pending := [(1, Some sample_metadata);
                 (1, Some sample_payload);
                 (1, Some sample_payload);
                 (1, Some (two_hour_grid "2024-01-01T00:00:00+00:00"
                                         "2024-01-01T01:00:00+00:00"))];
     requests := [] |}.

(** A world whose next answer is a text, not an object. *)
Definition garbled : World :=
  {| clock := 1704067200;
     pending := [(1, Some (VStr "Service Unavailable"))];
     requests := [] |}.

(* ===================================================================== *)
(** * Properties *)
(* ===================================================================== *)


(** ** Strings *)

Lemma all_chars_app P a b :
  all_chars P (a ++ b) = all_chars P a && all_chars P b.
Proof.
  induction a as [|c a IH]; simpl; [reflexivity|].
  rewrite IH. now rewrite andb_assoc.
Qed.

Lemma all_chars_weaken (P R : ascii -> bool) s :
  (forall c, P c = true -> R c = true) ->
  all_chars P s = true -> all_chars R s = true.
Proof.
  intros HPR. induction s as [|c s IH]; simpl; auto.
  intros H. apply andb_true_iff in H as [Hc Hs].
  rewrite (HPR _ Hc). simpl. auto.
Qed.

Lemma has_char_all_chars c s :
  all_chars (fun a => negb (Ascii.eqb a c)) s = true -> has_char c s = false.
Proof.
  induction s as [|a s IH]; simpl; auto.
  intros H. apply andb_true_iff in H as [Ha Hs].
  apply negb_true_iff in Ha. rewrite Ha. simpl. auto.
Qed.

Lemma no_newline_all_chars s :
  no_newline s = all_chars (fun a => negb (Ascii.eqb a newline)) s.
Proof. induction s as [|a s IH]; simpl; congruence. Qed.

Lemma no_newline_app a b : no_newline (a ++ b) = no_newline a && no_newline b.
Proof. rewrite !no_newline_all_chars. apply all_chars_app. Qed.

Lemma endswith_char_absent s c : has_char c s = false -> endswith_char s c = false.
Proof.
  induction s as [|a s IH]; simpl; auto.
  intros H. apply orb_false_iff in H as [Ha Hs].
  destruct s; auto.
Qed.

Lemma no_newline_has_char s : no_newline s = true -> has_char newline s = false.
Proof. rewrite no_newline_all_chars. apply has_char_all_chars. Qed.

Lemma re_body_no_newline s : no_newline s = true -> re_body s = s.
Proof.
  intros H. unfold re_body.
  now rewrite (endswith_char_absent _ _ (no_newline_has_char _ H)).
Qed.

Lemma starts_with_slash_absent p s :
  has_char "/" s = false -> starts_with (String "/" p) s = false.
Proof.
  destruct s as [|a s]; cbn [starts_with has_char]; auto.
  intros H. apply orb_false_iff in H as [Ha _].
  rewrite Ascii.eqb_sym, Ha. reflexivity.
Qed.

Lemma re_split_PT_no_slash s : has_char "/" s = false -> re_split_PT s = None.
Proof.
  induction s as [|a s IH]; cbn [re_split_PT has_char]; auto.
  intros H. apply orb_false_iff in H as [_ Hs].
  rewrite (IH Hs).
  now rewrite (starts_with_slash_absent "PT" _ Hs).
Qed.

Lemma length_append a b : String.length (a ++ b) = (String.length a + String.length b)%nat.
Proof. induction a; simpl; auto. Qed.

Lemma re_split_PT_cons c s :
  re_split_PT (String c s) =
  match re_split_PT s with
  | Some (a, b) => Some (String c a, b)
  | None =>
      if starts_with "/PT" s && (3 <? String.length s)%nat
      then Some (String c EmptyString, drop 3 s)
      else None
  end.
Proof. reflexivity. Qed.

(** The regular expression splits [t ++ "/PT" ++ p] at its last [/PT]. *)
Lemma re_split_PT_app t p :
  t <> "" -> p <> "" -> has_char "/" p = false ->
  re_split_PT (t ++ "/PT" ++ p) = Some (t, p).
Proof.
  intros Ht Hp Hs. induction t as [|c t IH]; [congruence|].
  change (String c t ++ "/PT" ++ p) with (String c (t ++ "/PT" ++ p)).
  rewrite re_split_PT_cons.
  destruct t as [|c' t'].
  - change ("" ++ "/PT" ++ p) with (String "/" (String "P" (String "T" p))).
    rewrite re_split_PT_cons.
    rewrite (re_split_PT_no_slash (String "P" (String "T" p))) by exact Hs.
    destruct p as [|b p]; [congruence|]. reflexivity.
  - rewrite IH by discriminate. reflexivity.
Qed.

Lemma re_match_PT_app t p :
  t <> "" -> no_newline t = true ->
  p <> "" -> no_newline p = true -> has_char "/" p = false ->
  re_match_PT (t ++ "/PT" ++ p) = Some (t, p).
Proof.
  intros Ht Hnt Hp Hnp Hs. unfold re_match_PT.
  assert (Hn : no_newline (t ++ "/PT" ++ p) = true).
  { rewrite !no_newline_app, Hnt, Hnp. reflexivity. }
  rewrite (re_body_no_newline _ Hn), Hn.
  now apply re_split_PT_app.
Qed.

Lemma split_first_app t r :
  has_char "/" t = false -> split_first "/" (t ++ String "/" r) = t.
Proof.
  induction t as [|c t IH]; simpl; auto.
  intros H. apply orb_false_iff in H as [Hc Ht].
  rewrite Hc, (IH Ht). reflexivity.
Qed.

Lemma endswith_char_app_last s c d : endswith_char (s ++ String c "") d = Ascii.eqb c d.
Proof.
  induction s as [|a s IH]; simpl; auto.
  rewrite IH. destruct s; reflexivity.
Qed.

Lemma drop_last_app_last s c : drop_last (s ++ String c "") = s.
Proof.
  induction s as [|a s IH]; simpl; auto.
  rewrite IH. destruct s; reflexivity.
Qed.

Lemma is_empty_app_last s c : is_empty (s ++ String c "") = false.
Proof. destruct s; reflexivity. Qed.

(** ** [int(str)] on digit strings *)

Lemma digit_not_space c : is_digit c = true -> number_space c = false.
Proof.
  unfold is_digit, number_space. intros H.
  apply andb_true_iff in H as [H1 H2].
  apply Nat.leb_le in H1. apply Nat.leb_le in H2.
  repeat match goal with
         | |- context [(?a <=? ?b)%nat] => destruct (Nat.leb_spec a b)
         | |- context [(?a =? ?b)%nat] => destruct (Nat.eqb_spec a b)
         end; simpl; auto; lia.
Qed.

Lemma digit_not_sign c :
  is_digit c = true -> Ascii.eqb c "+" = false /\ Ascii.eqb c "-" = false.
Proof.
  intros H. split.
  - destruct (Ascii.eqb_spec c "+"); auto. subst. discriminate.
  - destruct (Ascii.eqb_spec c "-"); auto. subst. discriminate.
Qed.

Lemma digit_not_underscore c : is_digit c = true -> is_underscore c = false.
Proof.
  unfold is_digit, is_underscore. intros H.
  apply andb_true_iff in H as [H1 H2].
  apply Nat.leb_le in H1. apply Nat.leb_le in H2.
  apply Nat.eqb_neq. lia.
Qed.

Lemma rstrip_no_space sp s :
  all_chars (fun c => negb (sp c)) s = true -> rstrip sp s = s.
Proof.
  induction s as [|c s IH]; simpl; auto.
  intros H. apply andb_true_iff in H as [Hc Hs].
  apply negb_true_iff in Hc. rewrite (IH Hs), Hc.
  destruct s; reflexivity.
Qed.

Lemma lstrip_no_space sp s :
  all_chars (fun c => negb (sp c)) s = true -> lstrip sp s = s.
Proof.
  destruct s as [|c s]; simpl; auto.
  intros H. apply andb_true_iff in H as [Hc _].
  apply negb_true_iff in Hc. now rewrite Hc.
Qed.

Lemma strip_digits s : all_chars is_digit s = true -> strip number_space s = s.
Proof.
  intros H. unfold strip.
  assert (H' : all_chars (fun c => negb (number_space c)) s = true).
  { apply (all_chars_weaken is_digit); auto.
    intros c Hc. now rewrite (digit_not_space _ Hc). }
  now rewrite (lstrip_no_space _ _ H'), (rstrip_no_space _ _ H').
Qed.

Lemma digits_ok_digits b s :
  all_chars is_digit s = true -> digits_ok b s = (negb (is_empty s) || b).
Proof.
  revert b. induction s as [|c s IH]; intros b H; simpl in *.
  - reflexivity.
  - apply andb_true_iff in H as [Hc Hs]. rewrite Hc, (IH true Hs).
    apply orb_true_r.
Qed.

Lemma digits_count_digits s :
  all_chars is_digit s = true -> digits_count s = String.length s.
Proof.
  induction s as [|c s IH]; simpl; auto.
  intros H. apply andb_true_iff in H as [Hc Hs]. now rewrite Hc, (IH Hs).
Qed.

Lemma int_of_str_digits s :
  all_chars is_digit s = true -> s <> "" ->
  (String.length s <= max_str_digits)%nat ->
  int_of_str s = Ok (digits_value 0 s).
Proof.
  intros Hd Hne Hlen. unfold int_of_str. rewrite (strip_digits _ Hd).
  destruct s as [|c r]; [congruence|].
  assert (Hc : is_digit c = true) by (simpl in Hd; now apply andb_true_iff in Hd).
  destruct (digit_not_sign _ Hc) as [-> ->].
  unfold int_unsigned.
  rewrite (digits_ok_digits _ _ Hd), (digits_count_digits _ Hd). simpl negb.
  simpl orb. apply Nat.leb_le in Hlen. now rewrite Hlen.
Qed.

(** ** Decimal numerals *)


Lemma string_of_uint_digits u :
  all_chars is_digit (NilEmpty.string_of_uint u) = true.
Proof. induction u; simpl; auto. Qed.

Lemma digits_value_digit c acc s :
  is_digit c = true ->
  digits_value acc (String c s) = digits_value (10 * acc + digit_val c) s.
Proof. intros H. cbn [digits_value]. now rewrite H. Qed.

Lemma digits_value_of_uint_acc u : forall acc,
  digits_value (Z.pos acc) (NilEmpty.string_of_uint u)
  = Z.pos (Pos.of_uint_acc u acc).
Proof.
  induction u; intros acc; cbn [NilEmpty.string_of_uint Pos.of_uint_acc];
    try reflexivity;
    rewrite digits_value_digit by reflexivity;
    rewrite <- IHu; f_equal; vm_compute digit_val; lia.
Qed.

Lemma digits_value_of_uint u :
  digits_value 0 (NilEmpty.string_of_uint u) = Z.of_N (Pos.of_uint u).
Proof.
  induction u; cbn [NilEmpty.string_of_uint Pos.of_uint];
    try reflexivity;
    rewrite digits_value_digit by reflexivity;
    vm_compute digit_val; cbn [Z.mul Z.add Z.sub Z.of_N];
    try exact IHu; apply digits_value_of_uint_acc.
Qed.

Lemma decimal_digits n : all_chars is_digit (decimal n) = true.
Proof. apply string_of_uint_digits. Qed.

Lemma decimal_value n : digits_value 0 (decimal n) = Z.of_N n.
Proof.
  unfold decimal. rewrite digits_value_of_uint.
  change (Pos.of_uint (N.to_uint n)) with (N.of_uint (N.to_uint n)).
  now rewrite DecimalN.Unsigned.of_to.
Qed.

Lemma decimal_nonempty n : decimal n <> "".
Proof.
  unfold decimal. destruct n as [|p]; [discriminate|].
  cbn [N.to_uint].
  pose proof (DecimalPos.Unsigned.to_uint_nonnil p) as H.
  destruct (Pos.to_uint p); try discriminate. congruence.
Qed.

Lemma digits_value_lower s : forall acc,
  (0 <= acc)%Z -> all_chars is_digit s = true ->
  (acc * 10 ^ Z.of_nat (String.length s) <= digits_value acc s)%Z.
Proof.
  induction s as [|c s IH]; intros acc Hacc H.
  - simpl. lia.
  - cbn [all_chars] in H. apply andb_true_iff in H as [Hc Hs].
    cbn [digits_value String.length]. rewrite Hc.
    assert (Hv : (0 <= digit_val c)%Z).
    { unfold is_digit in Hc. apply andb_true_iff in Hc as [H1 _].
      apply Nat.leb_le in H1. unfold digit_val. lia. }
    specialize (IH (10 * acc + digit_val c)%Z ltac:(lia) Hs).
    rewrite Nat2Z.inj_succ, Z.pow_succ_r by lia.
    assert (Hp : (0 <= 10 ^ Z.of_nat (String.length s))%Z) by (apply Z.pow_nonneg; lia).
    nia.
Qed.

Lemma nzhead_head u :
  Decimal.nzhead u = Decimal.Nil \/ head_nonzero (Decimal.nzhead u) = true.
Proof. induction u; simpl; auto. Qed.

Lemma unorm_head u :
  Decimal.unorm u = Decimal.zero \/ head_nonzero (Decimal.unorm u) = true.
Proof.
  unfold Decimal.unorm. destruct (nzhead_head u) as [-> | H]; auto.
  destruct (Decimal.nzhead u); auto; discriminate.
Qed.

Lemma head_nonzero_lower u :
  head_nonzero u = true ->
  (10 ^ Z.of_nat (pred (String.length (NilEmpty.string_of_uint u)))
   <= digits_value 0 (NilEmpty.string_of_uint u))%Z.
Proof.
  destruct u; try discriminate; intros _;
    cbn [NilEmpty.string_of_uint String.length pred digits_value];
    cbv [is_digit digit_val code]; simpl;
    match goal with
    | |- (_ <= digits_value ?a ?s)%Z =>
        pose proof (digits_value_lower s a ltac:(lia) (string_of_uint_digits _))
    end;
    match goal with
    | |- (?p <= _)%Z => assert (0 <= p)%Z by (apply Z.pow_nonneg; lia)
    end; nia.
Qed.

Lemma decimal_length n :
  (Z.of_N n < 10 ^ Z.of_nat max_str_digits)%Z ->
  (String.length (decimal n) <= max_str_digits)%nat.
Proof.
  intros Hn.
  assert (Hu : N.to_uint n = Decimal.unorm (N.to_uint n)).
  { rewrite <- (DecimalN.Unsigned.to_of (N.to_uint n)).
    now rewrite DecimalN.Unsigned.of_to. }
  destruct (unorm_head (N.to_uint n)) as [Hz | Hh]; rewrite <- Hu in *.
  - unfold decimal. rewrite Hz. cbv. lia.
  - pose proof (head_nonzero_lower _ Hh) as Hl.
    fold (decimal n) in Hl. rewrite decimal_value in Hl.
    destruct (Nat.le_gt_cases (String.length (decimal n)) max_str_digits) as [|Hgt]; auto.
    exfalso.
    assert (10 ^ Z.of_nat max_str_digits
            <= 10 ^ Z.of_nat (pred (String.length (decimal n))))%Z.
    { apply Z.pow_le_mono_r; lia. }
    lia.
Qed.

Lemma int_of_str_decimal n :
  (Z.of_N n < 10 ^ Z.of_nat max_str_digits)%Z ->
  int_of_str (decimal n) = Ok (Z.of_N n).
Proof.
  intros Hn. rewrite int_of_str_digits.
  - now rewrite decimal_value.
  - apply decimal_digits.
  - apply decimal_nonempty.
  - now apply decimal_length.
Qed.

(* ===================================================================== *)
(** * UnitConverter: temperature *)
(* ===================================================================== *)

Lemma Qtrunc_floor q : 0 <= q -> Qtrunc q = Qfloor q.
Proof.
  destruct q as [n d]. unfold Qle, Qtrunc, Qfloor. simpl. intros H.
  apply Z.quot_div_nonneg; lia.
Qed.

Lemma Qtrunc_ceiling q : q <= 0 -> Qtrunc q = Qceiling q.
Proof.
  destruct q as [n d]. unfold Qle, Qtrunc, Qceiling, Qfloor. simpl. intros H.
  rewrite <- (Z.opp_involutive n) at 1.
  rewrite Z.quot_opp_l by lia. f_equal.
  apply Z.quot_div_nonneg; lia.
Qed.

(** ** Rounding to binary64 *)

Lemma Qpow2_pos e : 0 < Qpow2 e.
Proof. apply Qpower_0_lt. reflexivity. Qed.

Lemma Qpow2_add a b : Qpow2 (a + b) == Qpow2 a * Qpow2 b.
Proof. apply Qpower_plus. discriminate. Qed.

Lemma Qpow2_le a b : (a <= b)%Z -> Qpow2 a <= Qpow2 b.
Proof. intros H. apply Qpower_le_compat_l; [exact H | discriminate]. Qed.

Lemma Qpow2_lt a b : (a < b)%Z -> Qpow2 a < Qpow2 b.
Proof. intros H. apply Qpower_lt_compat_l; [exact H | reflexivity]. Qed.

Lemma Qpow2_lt_inv a b : Qpow2 a < Qpow2 b -> (a < b)%Z.
Proof.
  intros H. destruct (Z.lt_ge_cases a b) as [L|G]; [exact L|].
  apply Qpow2_le in G. lra.
Qed.

Lemma Qpow2_inject z : (0 <= z)%Z -> Qpow2 z == inject_Z (2 ^ z).
Proof. intros H. unfold Qpow2. now rewrite Zpower_Qpower. Qed.

Lemma Qpow2_sub a b : Qpow2 (a - b) == Qpow2 a / Qpow2 b.
Proof.
  unfold Qdiv. rewrite <- (Qmult_1_r (Qpow2 (a - b))).
  rewrite <- (Qmult_inv_r (Qpow2 b)) by (pose proof (Qpow2_pos b); lra).
  rewrite Qmult_assoc, <- Qpow2_add.
  replace (a - b + b)%Z with a by lia. reflexivity.
Qed.

Lemma Q_as_fraction a :
  a * inject_Z (Zpos (Qden a)) == inject_Z (Qnum a).
Proof.
  destruct a as [n d]. unfold Qeq, Qmult, inject_Z. simpl. lia.
Qed.

Lemma Qlog2_spec a :
  0 < a -> Qpow2 (Qlog2 a) <= a /\ a < Qpow2 (Qlog2 a + 1).
Proof.
  intros Ha.
  assert (Hn : (0 < Qnum a)%Z).
  { destruct a as [n d]. unfold Qlt in Ha. simpl in *. lia. }
  pose proof (Z.log2_spec (Qnum a) Hn) as [N1 N2].
  pose proof (Z.log2_spec (Zpos (Qden a)) (Pos2Z.is_pos _)) as [D1 D2].
  pose proof (Z.log2_nonneg (Qnum a)) as Ln.
  pose proof (Z.log2_nonneg (Zpos (Qden a))) as Ld.
  set (ln := Z.log2 (Qnum a)) in *. set (ld := Z.log2 (Zpos (Qden a))) in *.
  pose proof (Q_as_fraction a) as F.
  assert (Dpos : 0 < inject_Z (Zpos (Qden a))) by reflexivity.
  set (d := inject_Z (Zpos (Qden a))) in *.
  assert (QN1 : Qpow2 ln <= inject_Z (Qnum a)).
  { rewrite Qpow2_inject by lia. now rewrite <- Zle_Qle. }
  assert (QN2 : inject_Z (Qnum a) < Qpow2 (ln + 1)).
  { rewrite Qpow2_inject by lia. rewrite <- Zlt_Qlt. unfold Z.succ in N2. exact N2. }
  assert (QD1 : Qpow2 ld <= d).
  { rewrite Qpow2_inject by lia. unfold d. now rewrite <- Zle_Qle. }
  assert (QD2 : d < Qpow2 (ld + 1)).
  { rewrite Qpow2_inject by lia. unfold d. rewrite <- Zlt_Qlt. exact D2. }
  assert (Up : a < Qpow2 (ln - ld + 1)).
  { apply (Qmult_lt_r _ _ d Dpos). rewrite F.
    eapply Qlt_le_trans; [exact QN2|].
    replace (ln + 1)%Z with ((ln - ld + 1) + ld)%Z by lia.
    rewrite Qpow2_add. apply Qmult_le_l; [apply Qpow2_pos | exact QD1]. }
  assert (Lo : Qpow2 (ln - ld - 1) <= a).
  { apply (Qmult_le_r _ _ d Dpos). rewrite F.
    eapply Qle_trans; [|exact QN1].
    replace ln with ((ln - ld - 1) + (ld + 1))%Z at 2 by lia.
    rewrite Qpow2_add. apply Qmult_le_l; [apply Qpow2_pos |].
    apply Qlt_le_weak. exact QD2. }
  unfold Qlog2. fold ln ld.
  destruct (Qle_bool (Qpow2 (ln - ld)) a) eqn:E.
  - apply Qle_bool_iff in E. split; assumption.
  - assert (H : a < Qpow2 (ln - ld)).
    { destruct (Qlt_le_dec a (Qpow2 (ln - ld))) as [L|G]; [exact L|].
      apply Qle_bool_iff in G. congruence. }
    split; [exact Lo|].
    replace (ln - ld - 1 + 1)%Z with (ln - ld)%Z by lia. exact H.
Qed.

Lemma round_half_even_floor m :
  (Qfloor m <= round_half_even m <= Qfloor m + 1)%Z.
Proof.
  unfold round_half_even.
  destruct (Qcompare _ _); [destruct (Z.even _)| |]; lia.
Qed.

Lemma round_half_even_le m k : m <= inject_Z k -> (round_half_even m <= k)%Z.
Proof.
  intros H.
  assert (F : (Qfloor m <= k)%Z).
  { rewrite <- (Qfloor_Z k). now apply Qfloor_resp_le. }
  destruct (Z.eq_dec (Qfloor m) k) as [E|N].
  - assert (M : m == inject_Z (Qfloor m)).
    { pose proof (Qfloor_le m). rewrite E in *. lra. }
    unfold round_half_even.
    assert (C : Qcompare (m - inject_Z (Qfloor m)) (1 # 2) = Lt).
    { rewrite <- Qlt_alt. lra. }
    rewrite C. lia.
  - pose proof (round_half_even_floor m). lia.
Qed.

Lemma round_half_even_ge m k : inject_Z k <= m -> (k <= round_half_even m)%Z.
Proof.
  intros H.
  assert (F : (k <= Qfloor m)%Z).
  { rewrite <- (Qfloor_Z k). now apply Qfloor_resp_le. }
  pose proof (round_half_even_floor m). lia.
Qed.

Lemma round_half_even_Z m k : m == inject_Z k -> round_half_even m = k.
Proof.
  intros H. apply Z.le_antisymm.
  - apply round_half_even_le. lra.
  - apply round_half_even_ge. lra.
Qed.

Lemma ulp_pos a : 0 < ulp a.
Proof. apply Qpow2_pos. Qed.

(** The rounded magnitude of a positive rational below [2^k]. *)
Lemma rounded_magnitude a k :
  0 < a -> a < Qpow2 k -> (-1074 <= k)%Z ->
  0 <= inject_Z (round_half_even (a / ulp a)) * ulp a <= Qpow2 k.
Proof.
  intros Ha Hk Hmin.
  destruct (Qlog2_spec a Ha) as [L U].
  assert (E : (Qlog2 a < k)%Z) by (apply Qpow2_lt_inv; lra).
  unfold ulp. set (u := Z.max (Qlog2 a - 52) (-1074)).
  assert (Hu : (u <= k)%Z) by (unfold u; lia).
  pose proof (Qpow2_pos u) as Pu.
  split.
  - apply Qmult_le_0_compat; [|lra].
    change 0 with (inject_Z 0). rewrite <- Zle_Qle.
    apply round_half_even_ge.
    apply Qle_shift_div_l; [exact Pu | change (inject_Z 0) with 0; lra].
  - assert (N : (round_half_even (a / Qpow2 u) <= 2 ^ (k - u))%Z).
    { apply round_half_even_le. rewrite <- Qpow2_inject by lia.
      rewrite Qpow2_sub. apply Qlt_le_weak.
      unfold Qdiv. apply Qmult_lt_r; [apply Qinv_lt_0_compat; exact Pu | exact Hk]. }
    rewrite Zle_Qle in N. rewrite <- Qpow2_inject in N by lia.
    assert (K : Qpow2 k == Qpow2 (k - u) * Qpow2 u).
    { rewrite <- Qpow2_add. replace (k - u + u)%Z with k by lia. reflexivity. }
    rewrite K. apply Qmult_le_r; [exact Pu | exact N].
Qed.

Lemma round_double_unfold q :
  ~ q == 0 ->
  round_double q
  = let r := inject_Z (round_half_even (Qabs q / ulp (Qabs q))) * ulp (Qabs q) in
    if Qle_bool (Qpow2 1024) r then Inf (Qle_bool q 0)
    else Fin (Qred (if Qle_bool q 0 then - r else r)).
Proof.
  intros H. unfold round_double.
  destruct (Qeq_bool q 0) eqn:E; [|reflexivity].
  apply Qeq_bool_iff in E. contradiction.
Qed.

Lemma Qabs_pos_nonzero q : ~ q == 0 -> 0 < Qabs q.
Proof.
  intros H. apply Qabs_case; intros G; lra.
Qed.

Lemma Qle_bool_above a b : b < a -> Qle_bool a b = false.
Proof.
  intros H. destruct (Qle_bool a b) eqn:E; [|reflexivity].
  apply Qle_bool_iff in E. lra.
Qed.

Lemma Qabs_signed q r :
  0 <= r -> Qabs q == r -> (if Qle_bool q 0 then - r else r) == q.
Proof.
  intros Hr H. destruct (Qle_bool q 0) eqn:E.
  - apply Qle_bool_iff in E. rewrite (Qabs_neg q E) in H. lra.
  - assert (P : 0 < q).
    { destruct (Qlt_le_dec 0 q) as [L|G]; [exact L|].
      apply Qle_bool_iff in G. congruence. }
    rewrite (Qabs_pos q) in H by lra. lra.
Qed.

Lemma Qabs_of_signed q r :
  0 <= r -> Qabs (Qred (if Qle_bool q 0 then - r else r)) == r.
Proof.
  intros Hr. rewrite Qred_correct.
  destruct (Qle_bool q 0).
  - rewrite Qabs_opp. now apply Qabs_pos.
  - now apply Qabs_pos.
Qed.

Lemma round_double_bound q k :
  Qabs q < Qpow2 k -> (-1074 <= k <= 1023)%Z ->
  exists r, round_double q = Fin r /\ Qabs r <= Qpow2 k.
Proof.
  intros Hq Hk.
  destruct (Qeq_dec q 0) as [Z|NZ].
  - exists 0. split.
    + unfold round_double. apply Qeq_bool_iff in Z. now rewrite Z.
    + pose proof (Qpow2_pos k). change (Qabs 0) with 0. lra.
  - rewrite (round_double_unfold q NZ). cbv zeta.
    destruct (rounded_magnitude (Qabs q) k (Qabs_pos_nonzero q NZ) Hq
                ltac:(lia)) as [R0 R1].
    set (r := inject_Z (round_half_even (Qabs q / ulp (Qabs q)))
              * ulp (Qabs q)) in *.
    assert (P : Qpow2 k < Qpow2 1024) by (apply Qpow2_lt; lia).
    rewrite (Qle_bool_above (Qpow2 1024) r) by lra.
    eexists. split; [reflexivity|].
    rewrite (Qabs_of_signed q r R0). exact R1.
Qed.

(** What rounding returns: a multiple of a power of two with at most 53
    bits. *)
Lemma round_double_shape q x :
  round_double q = Fin x ->
  exists n u, (0 <= n <= 2 ^ 53)%Z /\ (-1074 <= u)%Z
              /\ Qabs x == inject_Z n * Qpow2 u
              /\ Qabs x < Qpow2 1024.
Proof.
  destruct (Qeq_dec q 0) as [Z|NZ].
  - unfold round_double. apply Qeq_bool_iff in Z. rewrite Z. intros [= <-].
    exists 0%Z, 0%Z. split; [lia|]. split; [lia|]. split; reflexivity.
  - rewrite (round_double_unfold q NZ). cbv zeta.
    pose proof (Qabs_pos_nonzero q NZ) as Ha.
    set (a := Qabs q) in *.
    destruct (Qlog2_spec a Ha) as [L U].
    set (u := Z.max (Qlog2 a - 52) (-1074)).
    assert (Eu : ulp a = Qpow2 u) by reflexivity.
    pose proof (Qpow2_pos u) as Pu.
    assert (N0 : (0 <= round_half_even (a / ulp a))%Z).
    { apply round_half_even_ge. rewrite Eu.
      apply Qle_shift_div_l; [exact Pu | change (inject_Z 0) with 0; lra]. }
    assert (N1 : (round_half_even (a / ulp a) <= 2 ^ 53)%Z).
    { apply round_half_even_le. rewrite Eu.
      rewrite <- Qpow2_inject by lia.
      apply Qle_shift_div_r; [exact Pu|].
      apply Qlt_le_weak. eapply Qlt_le_trans; [exact U|].
      rewrite <- Qpow2_add. apply Qpow2_le. unfold u. lia. }
    set (n := round_half_even (a / ulp a)) in *.
    destruct (Qle_bool (Qpow2 1024) (inject_Z n * ulp a)) eqn:E; [discriminate|].
    intros [= <-].
    assert (R0 : 0 <= inject_Z n * ulp a).
    { apply Qmult_le_0_compat; [|rewrite Eu; lra].
      change 0 with (inject_Z 0). now rewrite <- Zle_Qle. }
    exists n, u. rewrite (Qabs_of_signed q _ R0).
    split; [lia|]. split; [unfold u; lia|].
    split; [rewrite Eu; reflexivity|].
    destruct (Qlt_le_dec (inject_Z n * ulp a) (Qpow2 1024)) as [Lt|Ge];
      [exact Lt|].
    apply Qle_bool_iff in Ge. congruence.
Qed.

(** A value with at most 53 bits is its own rounding. *)
Lemma on_grid a m u0 :
  0 < a -> a == inject_Z m * Qpow2 u0 -> (m <= 2 ^ 53)%Z -> (-1074 <= u0)%Z ->
  inject_Z (round_half_even (a / ulp a)) * ulp a == a.
Proof.
  intros Ha Hm M Hu.
  destruct (Qlog2_spec a Ha) as [L U].
  unfold ulp. revert L U. generalize (Qlog2 a). intros e L U.
  assert (Hu' : (Z.max (e - 52) (-1074) <= u0
                 \/ Z.max (e - 52) (-1074) = e - 52 /\ u0 < e - 52)%Z) by lia.
  revert Hu'. generalize (Z.max (e - 52) (-1074)). intros u Hu'.
  pose proof (Qpow2_pos u) as Pu. pose proof (Qpow2_pos u0) as Pu0.
  assert (K : exists j, a / Qpow2 u == inject_Z j).
  { destruct Hu' as [Le | [Ue Gt]].
    - exists (m * 2 ^ (u0 - u))%Z.
      rewrite inject_Z_mult, <- Qpow2_inject by lia.
      rewrite Hm, Qpow2_sub. field. lra.
    - exists (2 ^ 52)%Z.
      assert (A : a <= Qpow2 e).
      { rewrite Hm. apply Qle_trans with (Qpow2 53 * Qpow2 u0).
        - apply Qmult_le_r; [exact Pu0|].
          rewrite Qpow2_inject by lia. now rewrite <- Zle_Qle.
        - rewrite <- Qpow2_add. apply Qpow2_le. lia. }
      rewrite <- Qpow2_inject by lia.
      assert (A' : a == Qpow2 e) by lra.
      rewrite A', Ue, <- Qpow2_sub.
      replace (e - (e - 52))%Z with 52%Z by lia. reflexivity. }
  destruct K as [j Hj].
  rewrite (round_half_even_Z _ j Hj), <- Hj. field. lra.
Qed.

Lemma round_double_idempotent q m u0 :
  Qabs q == inject_Z m * Qpow2 u0 -> (m <= 2 ^ 53)%Z -> (-1074 <= u0)%Z ->
  Qabs q < Qpow2 1024 ->
  round_double q = Fin (Qred q).
Proof.
  intros Hm M Hu Hr.
  destruct (Qeq_dec q 0) as [Z|NZ].
  - unfold round_double. pose proof Z as Z'. apply Qeq_bool_iff in Z'.
    rewrite Z'. f_equal. symmetry.
    change 0 with (Qred 0). now apply Qred_complete.
  - rewrite (round_double_unfold q NZ). cbv zeta.
    pose proof (Qabs_pos_nonzero q NZ) as Ha.
    pose proof (on_grid (Qabs q) m u0 Ha Hm M Hu) as G.
    set (r := inject_Z (round_half_even (Qabs q / ulp (Qabs q)))
              * ulp (Qabs q)) in *.
    rewrite (Qle_bool_above (Qpow2 1024) r) by lra.
    f_equal. apply Qred_complete. apply Qabs_signed; [lra | now symmetry].
Qed.

Lemma Qred_inject_Z z : Qred (inject_Z z) = inject_Z z.
Proof.
  unfold Qred, inject_Z.
  pose proof (Z.ggcd_gcd z 1) as G.
  pose proof (Z.ggcd_correct_divisors z 1) as D.
  destruct (Z.ggcd z 1) as (g, (a, b)). cbn [fst snd] in *.
  rewrite Z.gcd_1_r in G. subst g. destruct D as [D1 D2].
  rewrite Z.mul_1_l in D1, D2. now subst a b.
Qed.

(** [int(x)] is between 0 and [x]. *)
Lemma Qtrunc_abs x :
  Qabs (inject_Z (Qtrunc x)) <= Qabs x.
Proof.
  destruct (Qlt_le_dec x 0) as [N|P].
  - rewrite Qtrunc_ceiling by lra.
    assert (C : (Qceiling x <= 0)%Z).
    { rewrite <- (Qceiling_Z 0). apply Qceiling_resp_le.
      change (inject_Z 0) with 0. lra. }
    pose proof (Qle_ceiling x).
    rewrite Zle_Qle in C. change (inject_Z 0) with 0 in C.
    rewrite (Qabs_neg x) by lra. rewrite (Qabs_neg (inject_Z _)) by lra. lra.
  - rewrite Qtrunc_floor by lra.
    assert (C : (0 <= Qfloor x)%Z).
    { rewrite <- (Qfloor_Z 0). apply Qfloor_resp_le.
      change (inject_Z 0) with 0. lra. }
    pose proof (Qfloor_le x).
    rewrite Zle_Qle in C. change (inject_Z 0) with 0 in C.
    rewrite (Qabs_pos x) by lra. rewrite (Qabs_pos (inject_Z _)) by lra. lra.
Qed.

Lemma Qtrunc_integer x z : x == inject_Z z -> Qtrunc x = z.
Proof.
  intros H. destruct (Qlt_le_dec x 0) as [N|P].
  - rewrite Qtrunc_ceiling by lra. rewrite H. apply Qceiling_Z.
  - rewrite Qtrunc_floor by lra. rewrite H. apply Qfloor_Z.
Qed.

Lemma Qabs_inject_Z z : Qabs (inject_Z z) = inject_Z (Z.abs z).
Proof. reflexivity. Qed.

(** [int(x)] of a double [x] is a double. *)
Lemma round_double_trunc q x :
  round_double q = Fin x ->
  round_double (inject_Z (Qtrunc x)) = Fin (inject_Z (Qtrunc x)).
Proof.
  intros H. destruct (round_double_shape q x H) as (n & u & Hn & Hu & Hx & Hr).
  rewrite <- (Qred_inject_Z (Qtrunc x)) at 2.
  pose proof (Qtrunc_abs x) as T.
  destruct (Z.le_gt_cases 0 u) as [Pu|Nu].
  - (* an integer *)
    assert (I : exists z, x == inject_Z z).
    { assert (A : Qabs x == inject_Z (n * 2 ^ u)).
      { rewrite inject_Z_mult, <- Qpow2_inject by lia. exact Hx. }
      destruct (Qlt_le_dec x 0) as [N|P].
      - exists (- (n * 2 ^ u))%Z. rewrite inject_Z_opp, <- A.
        rewrite (Qabs_neg x) by lra. lra.
      - exists (n * 2 ^ u)%Z. rewrite <- A. rewrite (Qabs_pos x) by lra. lra. }
    destruct I as [z Hz]. rewrite (Qtrunc_integer x z Hz).
    apply (round_double_idempotent (inject_Z z) n u); try lia.
    + now rewrite <- Hz.
    + now rewrite <- Hz.
  - (* below 2^52 *)
    apply (round_double_idempotent _ (Z.abs (Qtrunc x)) 0); try lia.
    + rewrite Qabs_inject_Z. change (Qpow2 0) with 1. lra.
    + assert (B : Qabs x <= Qpow2 52).
      { rewrite Hx. apply Qle_trans with (Qpow2 53 * Qpow2 u).
        - apply Qmult_le_r; [apply Qpow2_pos|].
          rewrite Qpow2_inject by lia. rewrite <- Zle_Qle. lia.
        - rewrite <- Qpow2_add. apply Qpow2_le. lia. }
      assert (C : inject_Z (Z.abs (Qtrunc x)) <= inject_Z (2 ^ 52)).
      { rewrite <- Qabs_inject_Z, <- Qpow2_inject by lia. lra. }
      rewrite <- Zle_Qle in C. lia.
    + lra.
Qed.

(** ** The conversions *)

Lemma Qtrunc_toward_zero x : Qtrunc x = toward_zero x.
Proof.
  unfold toward_zero. destruct (Qle_bool 0 x) eqn:E.
  - apply Qle_bool_iff in E. now apply Qtrunc_floor.
  - assert (H : ~ 0 <= x) by (intros H; apply Qle_bool_iff in H; congruence).
    apply Qtrunc_ceiling. lra.
Qed.

(** Rounding gives a double or an infinity. *)
Lemma round_double_cases q :
  (exists r, round_double q = Fin r) \/ (exists s, round_double q = Inf s).
Proof.
  unfold round_double. destruct (Qeq_bool q 0); [left; eexists; reflexivity|].
  cbv zeta. destruct (Qle_bool (Qpow2 1024) _);
    [right | left]; eexists; reflexivity.
Qed.

Lemma round_double_not_nan q : round_double q <> NaN.
Proof.
  destruct (round_double_cases q) as [[r E] | [s E]]; rewrite E; discriminate.
Qed.

Lemma fmul_literal_not_nan x c :
  x <> NaN -> Qeq_bool c 0 = false -> fmul x (Fin c) <> NaN.
Proof.
  intros Hx Hc. destruct x as [a | s |]; cbn [fmul].
  - apply round_double_not_nan.
  - rewrite Hc. discriminate.
  - congruence.
Qed.

Lemma fadd_literal_not_nan x c : x <> NaN -> fadd x (Fin c) <> NaN.
Proof.
  intros Hx. destruct x as [a | s |]; cbn [fadd];
    [apply round_double_not_nan | discriminate | congruence].
Qed.

Lemma fdiv_not_nan x d : x <> NaN -> fdiv x d <> NaN.
Proof.
  intros Hx. destruct x as [a | s |]; cbn [fdiv];
    [apply round_double_not_nan | discriminate | congruence].
Qed.

Lemma scaled_F_to_C_not_nan t : scaled_F_to_C (Fin t) <> NaN.
Proof.
  unfold scaled_F_to_C, fsub.
  apply fmul_literal_not_nan; [|reflexivity].
  apply fdiv_not_nan. apply fmul_literal_not_nan; [|reflexivity].
  cbn [fneg]. now apply fadd_literal_not_nan.
Qed.

Lemma scaled_C_to_F_not_nan t : scaled_C_to_F (Fin t) <> NaN.
Proof.
  unfold scaled_C_to_F.
  apply fmul_literal_not_nan; [|reflexivity].
  apply fadd_literal_not_nan, fdiv_not_nan.
  now apply fmul_literal_not_nan.
Qed.

Lemma fmul_output y c x :
  fmul y (Fin c) = Fin x -> exists q, round_double q = Fin x.
Proof.
  destruct y as [a | s |]; cbn [fmul].
  - intros H. now exists (a * c).
  - destruct (Qeq_bool c 0); discriminate.
  - discriminate.
Qed.

Lemma float_of_int_trunc q x :
  round_double q = Fin x ->
  float_of_int (Qtrunc x) = Ok (Fin (inject_Z (Qtrunc x))).
Proof.
  intros H. unfold float_of_int. now rewrite (round_double_trunc q x H).
Qed.

Lemma Qabs_div_pos a d : 0 < d -> Qabs (a / d) == Qabs a / d.
Proof.
  intros Hd. unfold Qdiv. rewrite Qabs_Qmult.
  rewrite (Qabs_pos (/ d)); [reflexivity|].
  apply Qlt_le_weak, Qinv_lt_0_compat, Hd.
Qed.

(** A quotient by a literal of at least 2 does not overflow. *)
Lemma fdiv_finite a d :
  Qabs a < Qpow2 1024 -> 2 <= d -> exists r, fdiv (Fin a) d = Fin r.
Proof.
  intros Ha Hd. cbn [fdiv].
  destruct (round_double_bound (a / d) 1023) as (r & E & _); [|lia|].
  - rewrite Qabs_div_pos by lra.
    apply Qlt_shift_div_r; [lra|].
    apply Qlt_le_trans with (Qpow2 1023 * 2).
    + assert (P : Qpow2 1024 == Qpow2 1023 * 2).
      { change 1024%Z with (1023 + 1)%Z. rewrite Qpow2_add. reflexivity. }
      lra.
    + apply Qmult_le_l; [apply Qpow2_pos | exact Hd].
  - now exists r.
Qed.

(** Bounds that keep a computation away from overflow. *)
Lemma fadd_bound a c k :
  Qabs a <= Qpow2 k -> Qabs c <= Qpow2 k -> (-1074 <= k + 2 <= 1023)%Z ->
  exists r, fadd (Fin a) (Fin c) = Fin r /\ Qabs r <= Qpow2 (k + 2).
Proof.
  intros Ha Hc Hk. cbn [fadd]. apply round_double_bound; [|exact Hk].
  eapply Qle_lt_trans; [apply Qabs_triangle|].
  pose proof (Qpow2_pos k) as P.
  assert (E : Qpow2 (k + 2) == Qpow2 k * 4).
  { rewrite Qpow2_add. reflexivity. }
  rewrite E. lra.
Qed.

Lemma fmul_bound a c k j :
  Qabs a <= Qpow2 k -> Qabs c <= Qpow2 j ->
  (-1074 <= k + j + 1 <= 1023)%Z ->
  exists r, fmul (Fin a) (Fin c) = Fin r /\ Qabs r <= Qpow2 (k + j + 1).
Proof.
  intros Ha Hc Hk. cbn [fmul]. apply round_double_bound; [|exact Hk].
  rewrite Qabs_Qmult.
  pose proof (Qpow2_pos k) as Pk. pose proof (Qpow2_pos j) as Pj.
  pose proof (Qabs_nonneg a) as Na. pose proof (Qabs_nonneg c) as Nc.
  assert (E : Qpow2 (k + j + 1) == Qpow2 k * Qpow2 j * 2).
  { rewrite !Qpow2_add. reflexivity. }
  rewrite E.
  apply Qle_lt_trans with (Qpow2 k * Qpow2 j).
  - apply Qle_trans with (Qpow2 k * Qabs c).
    + apply Qmult_le_compat_r; assumption.
    + apply Qmult_le_l; assumption.
  - assert (0 < Qpow2 k * Qpow2 j) by (apply Qmult_lt_0_compat; assumption).
    lra.
Qed.

Lemma fdiv_bound a d k :
  Qabs a <= Qpow2 k -> 1 <= d -> (-1074 <= k + 1 <= 1023)%Z ->
  exists r, fdiv (Fin a) d = Fin r /\ Qabs r <= Qpow2 (k + 1).
Proof.
  intros Ha Hd Hk. cbn [fdiv]. apply round_double_bound; [|exact Hk].
  rewrite Qabs_div_pos by lra.
  apply Qlt_shift_div_r; [lra|].
  pose proof (Qpow2_pos k) as Pk.
  assert (E : Qpow2 (k + 1) == Qpow2 k * 2).
  { rewrite Qpow2_add. reflexivity. }
  apply Qle_lt_trans with (Qpow2 k); [exact Ha|].
  apply Qlt_le_trans with (Qpow2 (k + 1) * 1); [lra|].
  apply Qmult_le_l; [apply Qpow2_pos | exact Hd].
Qed.

Lemma Qpow2_literal (j : Z) (c : Q) :
  (0 <= j)%Z -> Qabs c <= inject_Z (2 ^ j) -> Qabs c <= Qpow2 j.
Proof. intros Hj H. now rewrite Qpow2_inject. Qed.

(** [int(x) / 100.0] for a double [x]: no step of it can fail. *)
Lemma hundredth_of_double q x :
  round_double q = Fin x ->
  exists c,
    (n <- int_of_float (Fin x) ;; y <- float_of_int n ;; Ok (fdiv y 100))
    = Ok (Fin c)
    /\ round_double (inject_Z (toward_zero x) / 100) = Fin c.
Proof.
  intros H. cbn [int_of_float bind].
  rewrite (float_of_int_trunc q x H). cbn [bind].
  destruct (round_double_shape q x H) as (_ & _ & _ & _ & _ & R).
  destruct (fdiv_finite (inject_Z (Qtrunc x)) 100) as [c E].
  - eapply Qle_lt_trans; [apply Qtrunc_abs | exact R].
  - discriminate.
  - exists c. rewrite E. split; [reflexivity|].
    rewrite <- Qtrunc_toward_zero. exact E.
Qed.

Lemma convert_F_to_C_finite t x :
  scaled_F_to_C (Fin t) = Fin x ->
  exists c, convert_F_to_C (Fin t) = Ok (Fin c)
            /\ round_double (inject_Z (toward_zero x) / 100) = Fin c.
Proof.
  intros E. unfold convert_F_to_C. rewrite E.
  destruct (fmul_output _ _ _ E) as [q Hq].
  exact (hundredth_of_double q x Hq).
Qed.

(** No temperature up to [2^1000] in magnitude overflows. *)
Lemma convert_F_to_C_in_range t :
  Qabs t <= Qpow2 1000 -> exists c, convert_F_to_C (Fin t) = Ok (Fin c).
Proof.
  intros Ht.
  assert (B32 : Qabs (- (32)) <= Qpow2 1000).
  { apply Qle_trans with (Qpow2 5); [|apply Qpow2_le; lia].
    apply Qpow2_literal; [lia|]. vm_compute. discriminate. }
  destruct (fadd_bound t (- (32)) 1000 Ht B32 ltac:(lia)) as (r1 & E1 & B1).
  assert (B5 : Qabs 5 <= Qpow2 3).
  { apply Qpow2_literal; [lia|]. vm_compute. discriminate. }
  destruct (fmul_bound r1 5 _ 3 B1 B5 ltac:(lia)) as (r2 & E2 & B2).
  destruct (fdiv_bound r2 9 _ B2 ltac:(discriminate) ltac:(lia))
    as (r3 & E3 & B3).
  assert (B100 : Qabs 100 <= Qpow2 7).
  { apply Qpow2_literal; [lia|]. vm_compute. discriminate. }
  destruct (fmul_bound r3 100 _ 7 B3 B100 ltac:(lia)) as (r4 & E4 & B4).
  assert (E : scaled_F_to_C (Fin t) = Fin r4).
  { unfold scaled_F_to_C, fsub. cbn [fneg]. now rewrite E1, E2, E3, E4. }
  destruct (convert_F_to_C_finite t r4 E) as (c & Hc & _).
  now exists c.
Qed.

Lemma convert_F_to_C_error x e :
  convert_F_to_C x = Raise e ->
  e = OverflowError "int" \/ e = ValueError "int".
Proof.
  unfold convert_F_to_C.
  destruct (scaled_F_to_C x) as [q | s |] eqn:E; cbn [int_of_float bind].
  - unfold scaled_F_to_C in E. destruct (fmul_output _ _ _ E) as [q' Hq'].
    rewrite (float_of_int_trunc q' q Hq'). discriminate.
  - intros [= <-]. now left.
  - intros [= <-]. now right.
Qed.

Lemma convert_C_to_F_finite t x :
  scaled_C_to_F (Fin t) = Fin x ->
  exists c, convert_C_to_F (Fin t) = Ok (Fin c)
            /\ round_double (inject_Z (toward_zero x) / 100) = Fin c.
Proof.
  intros E. unfold convert_C_to_F. rewrite E.
  destruct (fmul_output _ _ _ E) as [q Hq].
  exact (hundredth_of_double q x Hq).
Qed.

(** No temperature up to [2^1000] in magnitude overflows. *)
Lemma scaled_F_to_C_in_range t :
  Qabs t <= Qpow2 1000 -> exists x, scaled_F_to_C (Fin t) = Fin x.
Proof.
  intros Ht.
  assert (B32 : Qabs (- (32)) <= Qpow2 1000).
  { apply Qle_trans with (Qpow2 5); [|apply Qpow2_le; lia].
    apply Qpow2_literal; [lia|]. vm_compute. discriminate. }
  destruct (fadd_bound t (- (32)) 1000 Ht B32 ltac:(lia)) as (r1 & E1 & B1).
  assert (B5 : Qabs 5 <= Qpow2 3).
  { apply Qpow2_literal; [lia|]. vm_compute. discriminate. }
  destruct (fmul_bound r1 5 _ 3 B1 B5 ltac:(lia)) as (r2 & E2 & B2).
  destruct (fdiv_bound r2 9 _ B2 ltac:(discriminate) ltac:(lia))
    as (r3 & E3 & B3).
  assert (B100 : Qabs 100 <= Qpow2 7).
  { apply Qpow2_literal; [lia|]. vm_compute. discriminate. }
  destruct (fmul_bound r3 100 _ 7 B3 B100 ltac:(lia)) as (r4 & E4 & B4).
  exists r4. unfold scaled_F_to_C, fsub. cbn [fneg]. now rewrite E1, E2, E3, E4.
Qed.

Lemma scaled_C_to_F_in_range t :
  Qabs t <= Qpow2 1000 -> exists x, scaled_C_to_F (Fin t) = Fin x.
Proof.
  intros Ht.
  assert (B9 : Qabs 9 <= Qpow2 4).
  { apply Qpow2_literal; [lia|]. vm_compute. discriminate. }
  destruct (fmul_bound t 9 _ 4 Ht B9 ltac:(lia)) as (r1 & E1 & B1).
  destruct (fdiv_bound r1 5 _ B1 ltac:(discriminate) ltac:(lia))
    as (r2 & E2 & B2).
  assert (B32 : Qabs 32 <= Qpow2 (1000 + 4 + 1 + 1)).
  { apply Qle_trans with (Qpow2 5); [|apply Qpow2_le; lia].
    apply Qpow2_literal; [lia|]. vm_compute. discriminate. }
  destruct (fadd_bound r2 32 _ B2 B32 ltac:(lia)) as (r3 & E3 & B3).
  assert (B100 : Qabs 100 <= Qpow2 7).
  { apply Qpow2_literal; [lia|]. vm_compute. discriminate. }
  destruct (fmul_bound r3 100 _ 7 B3 B100 ltac:(lia)) as (r4 & E4 & B4).
  exists r4. unfold scaled_C_to_F. now rewrite E1, E2, E3, E4.
Qed.

Lemma convert_C_to_F_in_range t :
  Qabs t <= Qpow2 1000 -> exists f, convert_C_to_F (Fin t) = Ok (Fin f).
Proof.
  intros Ht. destruct (scaled_C_to_F_in_range t Ht) as [x E].
  destruct (convert_C_to_F_finite t x E) as (f & Hf & _).
  now exists f.
Qed.

(** C5, as amended: each conversion first evaluates its scaled value
    [X] in double arithmetic, [((f - 32) * 5/9) * 100.0] or
    [((c * 9.0/5.0) + 32) * 100], every operation rounded.  When [X] is
    finite the result is [trunc(X) / 100.0] rounded to a double, where
    [trunc] rounds toward zero as [int()] does: the floor of an [X] that
    is not negative, the ceiling of a negative one.  When [X] has
    overflowed to an infinity the conversion raises [OverflowError]; it
    is finite for every input up to [2^1000] in magnitude. *)
Theorem C5_conversions_truncate_toward_zero (t : Q) :
  (forall x,
     scaled_F_to_C (Fin t) = Fin x ->
     exists c, convert_F_to_C (Fin t) = Ok (Fin c)
               /\ round_double (inject_Z (toward_zero x) / 100) = Fin c)
  /\ (forall s,
     scaled_F_to_C (Fin t) = Inf s ->
     convert_F_to_C (Fin t) = Raise (OverflowError "int"))
  /\ scaled_F_to_C (Fin t) <> NaN
  /\ (Qabs t <= Qpow2 1000 -> exists x, scaled_F_to_C (Fin t) = Fin x)
  /\ (forall x,
     scaled_C_to_F (Fin t) = Fin x ->
     exists c, convert_C_to_F (Fin t) = Ok (Fin c)
               /\ round_double (inject_Z (toward_zero x) / 100) = Fin c)
  /\ (forall s,
     scaled_C_to_F (Fin t) = Inf s ->
     convert_C_to_F (Fin t) = Raise (OverflowError "int"))
  /\ scaled_C_to_F (Fin t) <> NaN
  /\ (Qabs t <= Qpow2 1000 -> exists x, scaled_C_to_F (Fin t) = Fin x).
Proof.
  split; [apply convert_F_to_C_finite|].
  split; [intros s E; unfold convert_F_to_C; now rewrite E|].
  split; [apply scaled_F_to_C_not_nan|].
  split; [apply scaled_F_to_C_in_range|].
  split; [apply convert_C_to_F_finite|].
  split; [intros s E; unfold convert_C_to_F; now rewrite E|].
  split; [apply scaled_C_to_F_not_nan|].
  apply scaled_C_to_F_in_range.
Qed.

Lemma C5_conversions_truncate_toward_zero_witness :
  exists c, convert_F_to_C (Fin 50) = Ok (Fin c) /\ c == 10.
Proof.
  assert (E : scaled_F_to_C (Fin 50) = Fin 1000) by (vm_compute; reflexivity).
  destruct (proj1 (C5_conversions_truncate_toward_zero 50) 1000 E)
    as (c & Hc & Hr).
  exists c. split; [exact Hc|].
  vm_compute in Hr. injection Hr as <-. reflexivity.
Defined.

(** C5, as stated, fails at 0 degrees Fahrenheit, where the code answers
    -17.77 and the floor formula gives -17.78; and at 1 degree Celsius,
    where the code answers 33.79 and the formula gives 33.80, the scaled
    value being a rounded 3379.9999999999995. *)
Lemma C5_floor_counterexample :
  (exists c, convert_F_to_C (Fin 0) = Ok (Fin c)
             /\ round_double (-1777 # 100) = Fin c
             /\ floor_2dp ((0 - 32) * 5 / 9) == -1778 # 100
             /\ 9 # 1000 < c - floor_2dp ((0 - 32) * 5 / 9))
  /\ (exists f, convert_C_to_F (Fin 1) = Ok (Fin f)
                /\ round_double (3379 # 100) = Fin f
                /\ floor_2dp (1 * 9 / 5 + 32) == 3380 # 100
                /\ 9 # 1000 < floor_2dp (1 * 9 / 5 + 32) - f).
Proof.
  split; eexists; (split; [vm_compute; reflexivity|]);
    (split; [vm_compute; reflexivity|]); split; reflexivity.
Qed.

(* ===================================================================== *)
(** * TimeCodec *)
(* ===================================================================== *)

Lemma timedelta_in_range s :
  (0 <= s < 86400 * 1000000000)%Z -> timedelta s = Ok s.
Proof.
  intros H. unfold timedelta.
  assert (0 <= s / 86400 < 1000000000)%Z.
  { split; [apply Z.div_pos; lia | apply Z.div_lt_upper_bound; lia]. }
  destruct (Z.leb_spec (- timedelta_max_days) (s / 86400));
    destruct (Z.leb_spec (s / 86400) timedelta_max_days);
    try reflexivity; unfold timedelta_max_days in *; lia.
Qed.

Lemma small_below_digit_limit n :
  (Z.of_N n < 86400 * 1000000000)%Z ->
  (Z.of_N n < 10 ^ Z.of_nat max_str_digits)%Z.
Proof.
  intros H.
  assert (10 ^ 14 <= 10 ^ Z.of_nat max_str_digits)%Z.
  { apply Z.pow_le_mono_r; unfold max_str_digits; lia. }
  assert (86400 * 1000000000 < 10 ^ 14)%Z by reflexivity.
  lia.
Qed.

Lemma contains_absent_split s : contains "/PT" s = false -> re_split_PT s = None.
Proof.
  induction s as [|c s IH]; [reflexivity|].
  intros H. rewrite re_split_PT_cons.
  cbn [contains] in H. apply orb_false_iff in H as [_ H].
  rewrite (IH H). destruct s; cbn [contains] in H.
  - reflexivity.
  - apply orb_false_iff in H as [-> _]. reflexivity.
Qed.

Lemma starts_with_drop_last p : forall s,
  starts_with p (drop_last s) = true -> starts_with p s = true.
Proof.
  induction p as [|a p IH]; intros s; [reflexivity|].
  destruct s as [|b [|c s]]; try discriminate.
  change (drop_last (String b (String c s)))
    with (String b (drop_last (String c s))).
  cbn [starts_with]. intros H. apply andb_true_iff in H as [-> H].
  apply (IH (String c s)) in H. exact H.
Qed.

Lemma contains_drop_last p s :
  contains p s = false -> contains p (drop_last s) = false.
Proof.
  induction s as [|b s IH]; [auto|].
  destruct s as [|c s].
  - intros H. destruct p; [discriminate | reflexivity].
  - change (drop_last (String b (String c s)))
      with (String b (drop_last (String c s))).
    intros H. cbn [contains] in H. apply orb_false_iff in H as [H1 H2].
    change (contains p (String b (drop_last (String c s))))
      with (starts_with p (String b (drop_last (String c s)))
            || contains p (drop_last (String c s))).
    rewrite (IH H2), orb_false_r.
    destruct (starts_with p (String b (drop_last (String c s)))) eqn:E; auto.
    apply (starts_with_drop_last p (String b (String c s))) in E. congruence.
Qed.

(** A string without any [/PT] has no [/PT] suffix. *)
Lemma re_match_PT_absent s : contains "/PT" s = false -> re_match_PT s = None.
Proof.
  intros H. unfold re_match_PT.
  destruct (no_newline (re_body s)); [|reflexivity].
  apply contains_absent_split.
  unfold re_body. destruct (endswith_char s newline); [|exact H].
  now apply contains_drop_last.
Qed.

Section TimeCodecProperties.

Variable fromisoformat : string -> option Q.

(** What the function does once the regular expression has matched. *)
Lemma matched_interval t p r timezone e :
  t <> "" -> no_newline t = true -> fromisoformat t = Some e ->
  no_newline r = true -> has_char "/" r = false ->
  p <> "" -> r = p ->
  to_epoch_with_duration fromisoformat (VStr (t ++ "/PT" ++ r)) timezone =
  (time_period <-
     (if endswith_char p "H" then
        hours <- int_of_str (drop_last p) ;; timedelta (hours * 3600)
      else if endswith_char p "M" then
        minutes <- int_of_str (drop_last p) ;; timedelta (minutes * 60)
      else if endswith_char p "S" then
        seconds <- int_of_str (drop_last p) ;; timedelta seconds
      else timedelta 0) ;;
   Ok (e, inject_Z time_period)).
Proof.
  intros Ht Hnt He Hnr Hsr Hp ->.
  unfold to_epoch_with_duration, iso_to_float_time_and_delta.
  rewrite (re_match_PT_app _ _ Ht Hnt Hp Hnr Hsr).
  unfold iso_timestamp. rewrite He. cbn [bind].
  destruct p; [congruence | reflexivity].
Qed.

Lemma numeral_unit_shape n u :
  is_unit u = true ->
  let r := decimal n ++ String u "" in
  no_newline r = true /\ has_char "/" r = false /\ r <> "".
Proof.
  intros Hu r. subst r.
  assert (Hd : all_chars (fun c => is_digit c || is_unit c)
                         (decimal n ++ String u "") = true).
  { rewrite all_chars_app. apply andb_true_iff. split.
    - apply (all_chars_weaken is_digit); [|apply decimal_digits].
      intros c ->. reflexivity.
    - cbn. now rewrite Hu, orb_true_r. }
  assert (Hc : forall c, is_digit c || is_unit c = true ->
                         negb (Ascii.eqb c newline) = true
                         /\ negb (Ascii.eqb c "/") = true).
  { intros c H. split.
    - destruct (Ascii.eqb_spec c newline); [subst; discriminate | reflexivity].
    - destruct (Ascii.eqb_spec c "/"); [subst; discriminate | reflexivity]. }
  repeat split.
  - rewrite no_newline_all_chars.
    apply (all_chars_weaken (fun c => is_digit c || is_unit c)); auto.
    intros c H. apply (Hc c H).
  - apply has_char_all_chars.
    apply (all_chars_weaken (fun c => is_digit c || is_unit c)); auto.
    intros c H. apply (Hc c H).
  - destruct (decimal n); discriminate.
Qed.

Lemma numeral_interval t e timezone n u k :
  t <> "" -> no_newline t = true -> fromisoformat t = Some e ->
  is_unit u = true ->
  (endswith_char (decimal n ++ String u "") "H" = true -> k = 3600%Z) ->
  (endswith_char (decimal n ++ String u "") "H" = false ->
   endswith_char (decimal n ++ String u "") "M" = true -> k = 60%Z) ->
  (endswith_char (decimal n ++ String u "") "H" = false ->
   endswith_char (decimal n ++ String u "") "M" = false -> k = 1%Z) ->
  (0 <= Z.of_N n * k < 86400 * 1000000000)%Z ->
  (Z.of_N n < 86400 * 1000000000)%Z ->
  to_epoch_with_duration fromisoformat (VStr (t ++ "/PT" ++ decimal n ++ String u "")) timezone
  = Ok (e, inject_Z (Z.of_N n * k)).
Proof.
  intros Ht Hnt He Hu KH KM KS Hr Hn.
  destruct (numeral_unit_shape n u Hu) as (H1 & H2 & H3).
  rewrite (matched_interval t (decimal n ++ String u "") _ timezone e);
    auto.
  rewrite drop_last_app_last.
  rewrite (int_of_str_decimal n (small_below_digit_limit n Hn)).
  cbn [bind].
  destruct (endswith_char (decimal n ++ String u "") "H") eqn:EH.
  { rewrite (KH eq_refl) in *. now rewrite (timedelta_in_range _ Hr). }
  destruct (endswith_char (decimal n ++ String u "") "M") eqn:EM.
  { rewrite (KM eq_refl eq_refl) in *. now rewrite (timedelta_in_range _ Hr). }
  rewrite (KS eq_refl eq_refl) in *.
  rewrite endswith_char_app_last in *.
  unfold is_unit in Hu. rewrite EH, EM in Hu. cbn [orb] in Hu. rewrite Hu.
  rewrite Z.mul_1_r in *. now rewrite (timedelta_in_range _ Hr).
Qed.

(** C7, as amended: for an ISO time [t] and a decimal number [n] whose
    duration stays below the 10^9 days a [timedelta] can hold, the input
    [t/PT<n>H] (resp. M, S) yields the epoch of [t] paired with [n*3600]
    (resp. [n*60], [n]) seconds; an input [t/other] that the [/PT]
    pattern does not match yields the epoch of its first segment paired
    with 0.  In the first three cases [t] may itself contain slashes: the
    pattern is tried first, and the slash split is used only without a
    match. *)
Theorem C7_epoch_with_duration (t : string) (e : Q) (timezone : value) :
  t <> "" -> no_newline t = true -> fromisoformat t = Some e ->
  (forall n : N, (Z.of_N n * 3600 < 86400 * 1000000000)%Z ->
     to_epoch_with_duration fromisoformat (VStr (t ++ "/PT" ++ decimal n ++ "H")) timezone
     = Ok (e, inject_Z (Z.of_N n * 3600)))
  /\ (forall n : N, (Z.of_N n * 60 < 86400 * 1000000000)%Z ->
     to_epoch_with_duration fromisoformat (VStr (t ++ "/PT" ++ decimal n ++ "M")) timezone
     = Ok (e, inject_Z (Z.of_N n * 60)))
  /\ (forall n : N, (Z.of_N n < 86400 * 1000000000)%Z ->
     to_epoch_with_duration fromisoformat (VStr (t ++ "/PT" ++ decimal n ++ "S")) timezone
     = Ok (e, inject_Z (Z.of_N n)))
  /\ (forall other : string,
     has_char "/" t = false -> re_match_PT (t ++ "/" ++ other) = None ->
     to_epoch_with_duration fromisoformat (VStr (t ++ "/" ++ other)) timezone = Ok (e, 0)).
Proof.
  intros Ht Hnt He. repeat split.
  - intros n Hn.
    apply numeral_interval; auto; try lia;
      intros; rewrite ?endswith_char_app_last in *;
      try reflexivity; discriminate.
  - intros n Hn.
    apply numeral_interval; auto; try lia;
      intros; rewrite ?endswith_char_app_last in *;
      try reflexivity; discriminate.
  - intros n Hn.
    rewrite <- (Z.mul_1_r (Z.of_N n)).
    apply numeral_interval; auto; try lia;
      intros; rewrite ?endswith_char_app_last in *;
      try reflexivity; discriminate.
  - intros other Hs Hm.
    unfold to_epoch_with_duration, iso_to_float_time_and_delta.
    rewrite Hm. change (t ++ "/" ++ other) with (t ++ String "/" other).
    rewrite (split_first_app _ _ Hs). unfold iso_timestamp. rewrite He.
    reflexivity.
Qed.

Lemma digits_ok_stray s : forall b,
  all_chars (fun c => is_digit c || is_underscore c) s = false ->
  digits_ok b s = false.
Proof.
  induction s as [|c s IH]; intros b H; [discriminate|].
  cbn [all_chars] in H. cbn [digits_ok].
  destruct (is_digit c); cbn [orb andb] in H.
  - now apply IH.
  - destruct (is_underscore c); cbn [andb] in H; [|reflexivity].
    rewrite (IH false H). apply andb_false_r.
Qed.

Lemma unit_is_stray u : is_unit u = true -> is_digit u || is_underscore u = false.
Proof.
  unfold is_unit. intros H.
  destruct (Ascii.eqb_spec u "H"); [subst; reflexivity|].
  destruct (Ascii.eqb_spec u "M"); [subst; reflexivity|].
  destruct (Ascii.eqb_spec u "S"); [subst; reflexivity|discriminate].
Qed.

Lemma digit_or_unit_plain c :
  digit_or_unit c = true ->
  number_space c = false /\ Ascii.eqb c "+" = false /\ Ascii.eqb c "-" = false
  /\ Ascii.eqb c newline = false /\ Ascii.eqb c "/" = false.
Proof.
  unfold digit_or_unit. intros H. apply orb_true_iff in H as [H | H].
  - split; [now apply digit_not_space|].
    destruct (digit_not_sign c H) as [-> ->]. repeat split.
    + destruct (Ascii.eqb_spec c newline); [subst; discriminate | reflexivity].
    + destruct (Ascii.eqb_spec c "/"); [subst; discriminate | reflexivity].
  - unfold is_unit in H.
    destruct (Ascii.eqb_spec c "H"); [subst; now vm_compute|].
    destruct (Ascii.eqb_spec c "M"); [subst; now vm_compute|].
    destruct (Ascii.eqb_spec c "S"); [subst; now vm_compute|discriminate].
Qed.

(** [int()] refuses digits mixed with a unit letter. *)
Lemma int_of_str_composite a u b :
  all_chars digit_or_unit (a ++ b) = true -> is_unit u = true ->
  int_of_str (a ++ String u b) = Raise (ValueError "int").
Proof.
  intros Hab Hu.
  assert (Hall : all_chars digit_or_unit (a ++ String u b) = true).
  { rewrite all_chars_app in *. apply andb_true_iff in Hab as [-> Hb].
    cbn [all_chars andb]. unfold digit_or_unit at 1. now rewrite Hu, orb_true_r. }
  assert (Hstray : all_chars (fun c => is_digit c || is_underscore c)
                             (a ++ String u b) = false).
  { rewrite all_chars_app. cbn [all_chars]. rewrite (unit_is_stray u Hu).
    apply andb_false_r. }
  unfold int_of_str, strip.
  assert (Hsp : all_chars (fun c => negb (number_space c)) (a ++ String u b) = true).
  { apply (all_chars_weaken digit_or_unit); auto.
    intros c H. now destruct (digit_or_unit_plain c H) as (-> & _). }
  rewrite (lstrip_no_space _ _ Hsp), (rstrip_no_space _ _ Hsp).
  destruct (a ++ String u b) as [|c r] eqn:E.
  - destruct a; discriminate.
  - cbn [all_chars] in Hall. apply andb_true_iff in Hall as [Hc _].
    destruct (digit_or_unit_plain c Hc) as (_ & -> & -> & _).
    unfold int_unsigned. now rewrite (digits_ok_stray _ false Hstray).
Qed.

(** C10: a composite duration after [/PT], several numbers each followed
    by one of H, M, S, makes the integer parsing raise [ValueError]; a
    text after [/PT] that ends in none of H, M, S yields the epoch with
    duration 0. *)
Theorem C10_composite_and_unknown_units (t : string) (e : Q) (timezone : value) :
  t <> "" -> no_newline t = true -> fromisoformat t = Some e ->
  (forall (a b : string) (u1 u2 : ascii),
     all_chars digit_or_unit (a ++ b) = true ->
     is_unit u1 = true -> is_unit u2 = true ->
     to_epoch_with_duration fromisoformat
       (VStr (t ++ "/PT" ++ a ++ String u1 (b ++ String u2 ""))) timezone
     = Raise (ValueError "int"))
  /\ (forall p : string,
     p <> "" -> no_newline p = true -> has_char "/" p = false ->
     endswith_char p "H" = false -> endswith_char p "M" = false ->
     endswith_char p "S" = false ->
     to_epoch_with_duration fromisoformat (VStr (t ++ "/PT" ++ p)) timezone = Ok (e, 0)).
Proof.
  intros Ht Hnt He. split.
  - intros a b u1 u2 Hab Hu1 Hu2.
    set (p := a ++ String u1 (b ++ String u2 "")).
    assert (Hp : all_chars digit_or_unit p = true).
    { subst p. rewrite all_chars_app in *. apply andb_true_iff in Hab as [-> Hb].
      cbn [all_chars andb]. rewrite all_chars_app, Hb. cbn [all_chars].
      unfold digit_or_unit at 1 2. now rewrite Hu1, Hu2, !orb_true_r. }
    assert (Hshape : no_newline p = true /\ has_char "/" p = false).
    { split.
      - rewrite no_newline_all_chars.
        apply (all_chars_weaken digit_or_unit); auto.
        intros c H. now destruct (digit_or_unit_plain c H) as (_ & _ & _ & -> & _).
      - apply has_char_all_chars.
        apply (all_chars_weaken digit_or_unit); auto.
        intros c H. now destruct (digit_or_unit_plain c H) as (_ & _ & _ & _ & ->). }
    destruct Hshape as [Hn Hs].
    rewrite (matched_interval t p p timezone e); auto.
    2:{ subst p. destruct a; discriminate. }
    assert (Hlast : p = (a ++ String u1 b) ++ String u2 "").
    { subst p. clear. induction a; simpl; [reflexivity | now f_equal]. }
    rewrite Hlast, !endswith_char_app_last, drop_last_app_last.
    rewrite (int_of_str_composite a u1 b Hab Hu1).
    unfold is_unit in Hu2.
    destruct (Ascii.eqb u2 "H"); [reflexivity|].
    destruct (Ascii.eqb u2 "M"); [reflexivity|].
    destruct (Ascii.eqb u2 "S"); [reflexivity|discriminate].
  - intros p Hp Hn Hs HH HM HS.
    rewrite (matched_interval t p p timezone e); auto.
    rewrite HH, HM, HS. reflexivity.
Qed.

End TimeCodecProperties.

Lemma C7_epoch_with_duration_witness :
  to_epoch_with_duration sample_fromisoformat
    (VStr ("2024-01-01T00:00:00+00:00" ++ "/PT" ++ decimal 6 ++ "H")) VNone
  = Ok (1704067200, inject_Z (Z.of_N 6 * 3600)).
Proof.
  apply (proj1 (C7_epoch_with_duration sample_fromisoformat
                  "2024-01-01T00:00:00+00:00" 1704067200 VNone
                  ltac:(discriminate) eq_refl eq_refl)).
  reflexivity.
Defined.

(** C7, as stated, fails for a duration of 10^9 days: [timedelta]
    refuses it. *)
Lemma C7_overflow_counterexample :
  to_epoch_with_duration sample_fromisoformat
    (VStr ("2024-01-01T00:00:00+00:00" ++ "/PT" ++ decimal 24000000000 ++ "H"))
    VNone
  = Raise (OverflowError "timedelta")
  /\ to_epoch_with_duration sample_fromisoformat
       (VStr ("2024-01-01T00:00:00+00:00" ++ "/PT" ++ decimal 24000000000 ++ "H"))
       VNone
     <> Ok (1704067200, inject_Z (Z.of_N 24000000000 * 3600)).
Proof.
  assert (H : to_epoch_with_duration sample_fromisoformat
    (VStr ("2024-01-01T00:00:00+00:00" ++ "/PT" ++ decimal 24000000000 ++ "H"))
    VNone = Raise (OverflowError "timedelta")) by (vm_compute; reflexivity).
  split; [exact H | rewrite H; discriminate].
Qed.

Lemma C10_composite_and_unknown_units_witness :
  to_epoch_with_duration sample_fromisoformat
    (VStr ("2024-01-01T00:00:00+00:00" ++ "/PT" ++ "1" ++ String "H" ("30" ++ String "M" "")))
    VNone
  = Raise (ValueError "int")
  /\ to_epoch_with_duration sample_fromisoformat
       (VStr ("2024-01-01T00:00:00+00:00" ++ "/PT" ++ "5D")) VNone
     = Ok (1704067200, 0).
Proof.
  pose proof (C10_composite_and_unknown_units sample_fromisoformat
                "2024-01-01T00:00:00+00:00" 1704067200 VNone
                ltac:(discriminate) eq_refl eq_refl) as [H1 H2].
  split.
  - apply (H1 "1" "30" "H"%char "M"%char); reflexivity.
  - apply (H2 "5D"); try reflexivity. discriminate.
Defined.

(* ===================================================================== *)
(** * UnitConverter: speed *)
(* ===================================================================== *)

Lemma float_unsigned_error s e :
  float_unsigned s = Raise e -> is_ValueError e = true.
Proof.
  unfold float_unsigned. destruct (float_decimal s); [discriminate|].
  destruct (_ || _); [discriminate|].
  destruct (String.eqb _ _); [discriminate|].
  intros [= <-]. reflexivity.
Qed.

(** [float(str)] raises nothing but [ValueError]. *)
Lemma float_of_str_error s e :
  float_of_str s = Raise e -> is_ValueError e = true.
Proof.
  unfold float_of_str.
  destruct (float_underscores_ok _ _); [|intros [= <-]; reflexivity].
  destruct (remove_underscores _) as [|c r].
  - apply float_unsigned_error.
  - destruct (Ascii.eqb c "+"); [apply float_unsigned_error|].
    destruct (Ascii.eqb c "-"); [|apply float_unsigned_error].
    destruct (float_unsigned r) eqn:E; [discriminate|].
    intros [= <-]. now apply float_unsigned_error in E.
Qed.

(** A finite [float(str)] is within the range of the doubles. *)
Lemma float_unsigned_range s q :
  float_unsigned s = Ok (Fin q) -> Qabs q < Qpow2 1024.
Proof.
  unfold float_unsigned. destruct (float_decimal s) as [d|].
  - intros [= H].
    now destruct (round_double_shape d q H) as (_ & _ & _ & _ & _ & R).
  - destruct (_ || _); [discriminate|].
    destruct (String.eqb _ _); discriminate.
Qed.

Lemma float_of_str_range s q :
  float_of_str s = Ok (Fin q) -> Qabs q < Qpow2 1024.
Proof.
  unfold float_of_str.
  destruct (float_underscores_ok _ _); [|discriminate].
  destruct (remove_underscores _) as [|c r].
  - apply float_unsigned_range.
  - destruct (Ascii.eqb c "+"); [apply float_unsigned_range|].
    destruct (Ascii.eqb c "-"); [|apply float_unsigned_range].
    destruct (float_unsigned r) as [[q' | |]|] eqn:E; cbn [bind fneg];
      try discriminate.
    intros [= <-]. rewrite Qabs_opp. exact (float_unsigned_range r q' E).
Qed.

Lemma round_double_zero q : q == 0 -> round_double q = Fin 0.
Proof.
  intros H. unfold round_double. apply Qeq_bool_iff in H. now rewrite H.
Qed.

(** ** [float(int)] *)

Lemma float_of_int_error z e : float_of_int z = Raise e -> e = int_too_large.
Proof.
  unfold float_of_int. destruct (round_double (inject_Z z)); try discriminate.
  now intros [= <-].
Qed.

(** An int of at most 53 bits converts exactly. *)
Lemma float_of_int_small z :
  (Z.abs z <= 2 ^ 53)%Z -> float_of_int z = Ok (Fin (inject_Z z)).
Proof.
  intros H. unfold float_of_int.
  rewrite (round_double_idempotent (inject_Z z) (Z.abs z) 0); try lia.
  - now rewrite Qred_inject_Z.
  - rewrite Qabs_inject_Z. change (Qpow2 0) with 1. lra.
  - rewrite Qabs_inject_Z, Qpow2_inject by lia. rewrite <- Zlt_Qlt.
    apply Z.le_lt_trans with (2 ^ 53)%Z; [exact H|].
    apply Z.pow_lt_mono_r; lia.
Qed.

(** An int below [2^1023] in magnitude converts. *)
Lemma float_of_int_in_range z :
  (Z.abs z < 2 ^ 1023)%Z ->
  exists r, float_of_int z = Ok (Fin r) /\ Qabs r < Qpow2 1024.
Proof.
  intros H. unfold float_of_int.
  destruct (round_double_bound (inject_Z z) 1023) as (r & E & B); [|lia|].
  - rewrite Qabs_inject_Z, Qpow2_inject by lia. now rewrite <- Zlt_Qlt.
  - rewrite E. exists r. split; [reflexivity|].
    eapply Qle_lt_trans; [exact B|]. apply Qpow2_lt. lia.
Qed.

(** ** The speed conversions *)

Lemma mph_per_mps_above_2 : 2 <= mph_per_mps.
Proof. vm_compute. discriminate. Qed.

Lemma speed_miph_to_mps_float x : exists y, speed_miph_to_mps (VFloat x) = Ok y.
Proof.
  unfold speed_miph_to_mps.
  destruct (negb (truthy (VFloat x))); eexists; reflexivity.
Qed.

(** What [speed_miph_to_mps] does, input by input. *)
Lemma speed_miph_to_mps_cases speed :
  (exists x, speed_miph_to_mps speed = Ok x)
  \/ (exists z, speed = VInt z
                /\ float_of_int z = Raise int_too_large
                /\ speed_miph_to_mps speed = Raise int_too_large).
Proof.
  unfold speed_miph_to_mps.
  destruct (negb (truthy speed)); [left; eexists; reflexivity|].
  destruct speed as [| b | z | x | s | l | m]; cbn [bind];
    try (left; eexists; reflexivity).
  - left. destruct b; eexists; reflexivity.
  - destruct (float_of_int z) as [x|e] eqn:E; cbn [bind].
    + left. eexists; reflexivity.
    + pose proof (float_of_int_error z e E) as ->.
      right. exists z. now repeat split.
  - left. destruct (float_of_str s) as [x|e] eqn:E; cbn [bind try_except].
    + eexists; reflexivity.
    + rewrite (float_of_str_error s e E). cbn [bind]. eexists; reflexivity.
Qed.

(** C9, as amended: [speed_miph_to_mps] returns for every input but an
    int too large for a double, for which it raises [OverflowError]; no
    int below [2^1023] in magnitude is too large.  A falsy input and a
    string that is not a number give 0.0; an int, a float or a numeric
    string gives the speed divided by 2.237 in double arithmetic; 10 mph
    is 4.470 m/s to three decimal places. *)
Theorem C9_speed_miph_to_mps_tolerant :
  (forall speed : value,
     (exists x, speed_miph_to_mps speed = Ok x)
     \/ (exists z, speed = VInt z
                   /\ float_of_int z = Raise int_too_large
                   /\ speed_miph_to_mps speed = Raise int_too_large))
  /\ (forall speed : value,
        truthy speed = false -> speed_miph_to_mps speed = Ok (Fin 0))
  /\ (forall (s : string) (e : exn),
        float_of_str s = Raise e -> speed_miph_to_mps (VStr s) = Ok (Fin 0))
  /\ (forall (z : Z) (x : pyfloat),
        z <> 0%Z -> float_of_int z = Ok x ->
        speed_miph_to_mps (VInt z) = Ok (fdiv x mph_per_mps))
  /\ (forall z : Z,
        (Z.abs z < 2 ^ 1023)%Z ->
        exists r, speed_miph_to_mps (VInt z) = Ok (Fin r))
  /\ (forall x : pyfloat,
        truthy (VFloat x) = true ->
        speed_miph_to_mps (VFloat x) = Ok (fdiv x mph_per_mps))
  /\ (forall (s : string) (x : pyfloat),
        s <> "" -> float_of_str s = Ok x ->
        speed_miph_to_mps (VStr s) = Ok (fdiv x mph_per_mps))
  /\ speed_miph_to_mps (VInt 0) = Ok (Fin 0)
  /\ speed_miph_to_mps (VStr "") = Ok (Fin 0)
  /\ speed_miph_to_mps VNone = Ok (Fin 0)
  /\ speed_miph_to_mps (VStr "garbage") = Ok (Fin 0)
  /\ (exists q, speed_miph_to_mps (VInt 10) = Ok (Fin q)
                /\ Qabs (q - 4.470) < 0.001).
Proof.
  split; [apply speed_miph_to_mps_cases|].
  split; [intros speed H; unfold speed_miph_to_mps; now rewrite H|].
  split.
  { intros s e E. unfold speed_miph_to_mps.
    destruct (negb (truthy (VStr s))); [reflexivity|].
    rewrite E. cbn [bind try_except]. rewrite (float_of_str_error s e E).
    reflexivity. }
  split.
  { intros z x Hz E. unfold speed_miph_to_mps. cbn [truthy].
    destruct (Z.eqb_spec z 0); [congruence|]. cbn [negb bind].
    now rewrite E. }
  split.
  { intros z Hz. unfold speed_miph_to_mps. cbn [truthy].
    destruct (Z.eqb_spec z 0); [eexists; reflexivity|]. cbn [negb bind].
    destruct (float_of_int_in_range z Hz) as (r & E & R). rewrite E.
    cbn [bind].
    destruct (fdiv_finite r mph_per_mps R mph_per_mps_above_2) as [y Y].
    exists y. now rewrite Y. }
  split.
  { intros x H. unfold speed_miph_to_mps. now rewrite H. }
  split.
  { intros s x Hs E. unfold speed_miph_to_mps. cbn [truthy].
    destruct (String.eqb_spec s ""); [congruence|].
    cbn [negb]. rewrite E. reflexivity. }
  split; [reflexivity|]. split; [reflexivity|]. split; [reflexivity|].
  split; [vm_compute; reflexivity|].
  eexists. split; [vm_compute; reflexivity | reflexivity].
Qed.

Lemma C9_speed_miph_to_mps_tolerant_witness :
  speed_miph_to_mps (VInt 10) = Ok (fdiv (Fin 10) mph_per_mps)
  /\ speed_miph_to_mps (VList []) = Ok (Fin 0).
Proof.
  destruct C9_speed_miph_to_mps_tolerant as (_ & H2 & _ & H4 & _).
  split.
  - apply H4; [discriminate | apply float_of_int_small; vm_compute; discriminate].
  - apply H2. reflexivity.
Defined.

(** C9, as stated, fails for the int [10**400]: it cannot be converted
    to a double and the division raises [OverflowError]. *)
Lemma C9_overflow_counterexample :
  speed_miph_to_mps (VInt (10 ^ 400)) = Raise int_too_large.
Proof. vm_compute. reflexivity. Qed.

(* ===================================================================== *)
(** * GridSeriesReader *)
(* ===================================================================== *)

Section GridProperties.

Variable fromisoformat : string -> option Q.
Variable now : Q.

Lemma one_hour_interval t e timezone :
  t <> "" -> no_newline t = true -> fromisoformat t = Some e ->
  iso_to_float_time_and_delta fromisoformat (VStr (t ++ "/PT1H")) timezone
  = Ok (e, 3600).
Proof.
  intros Ht Hn He.
  apply (numeral_interval fromisoformat t e timezone 1%N "H"%char 3600%Z
           Ht Hn He eq_refl).
  - reflexivity.
  - intros H. vm_compute in H. discriminate.
  - intros H. vm_compute in H. discriminate.
  - lia.
  - reflexivity.
Qed.

Lemma Qle_bool_false a b : b < a -> Qle_bool a b = false.
Proof.
  intros H. destruct (Qle_bool a b) eqn:E; [|reflexivity].
  apply Qle_bool_iff in E. lra.
Qed.

Lemma Qle_bool_true a b : a <= b -> Qle_bool a b = true.
Proof. intros H. now apply Qle_bool_iff. Qed.

Lemma Qeq_bool_false a b : ~ a == b -> Qeq_bool a b = false.
Proof.
  intros H. destruct (Qeq_bool a b) eqn:E; [|reflexivity].
  apply Qeq_bool_iff in E. contradiction.
Qed.

(** C1, on the code: with the series [(t0, 3600, "5"), (t0+3600, 3600,
    "7")], the scan stops at the interval that covers the query instant
    before it records it.  Half an hour into the first interval the
    answer is null, not "5"; one second into the second interval it is
    "5", not "7"; before the first interval it is null. *)
Theorem C1_scan_stops_before_the_covering_interval (s0 s1 : string) (t0 : Q) :
  s0 <> "" -> no_newline s0 = true -> fromisoformat s0 = Some t0 ->
  s1 <> "" -> no_newline s1 = true -> fromisoformat s1 = Some (t0 + 3600) ->
  1 < t0 ->
  grid_forecast._find_in_gridpoints fromisoformat now
    (two_hour_grid s0 s1) "temperature" (Some (t0 + 1800)) = Ok VNone
  /\ grid_forecast._find_in_gridpoints fromisoformat now
       (two_hour_grid s0 s1) "temperature" (Some (t0 + 3600 + 1))
     = Ok (VStr "5")
  /\ grid_forecast._find_in_gridpoints fromisoformat now
       (two_hour_grid s0 s1) "temperature" (Some (t0 - 1)) = Ok VNone.
Proof.
  intros H0 N0 E0 H1 N1 E1 Ht.
  unfold grid_forecast._find_in_gridpoints, two_hour_grid.
  cbn [get item dict_lookup String.eqb Ascii.eqb Bool.eqb bind iter
       grid_forecast.META_PROPERTIES grid_forecast.META_VALUES].
  repeat split.
  - rewrite Qeq_bool_false by lra.
    cbn [grid_forecast.find_loop get item dict_lookup bind grid_forecast.META_TIME
         grid_forecast.META_VALUE String.eqb Ascii.eqb Bool.eqb].
    rewrite (one_hour_interval s0 t0 _ H0 N0 E0). cbn [bind].
    rewrite (Qle_bool_false (t0 + 1800) t0) by lra.
    rewrite (Qle_bool_false (t0 + 3600) (t0 + 1800)) by lra.
    reflexivity.
  - rewrite Qeq_bool_false by lra.
    cbn [grid_forecast.find_loop get item dict_lookup bind grid_forecast.META_TIME
         grid_forecast.META_VALUE String.eqb Ascii.eqb Bool.eqb].
    rewrite (one_hour_interval s0 t0 _ H0 N0 E0). cbn [bind].
    rewrite (Qle_bool_false (t0 + 3600 + 1) t0) by lra.
    rewrite (Qle_bool_true (t0 + 3600) (t0 + 3600 + 1)) by lra.
    cbn [negb orb bind].
    rewrite (one_hour_interval s1 (t0 + 3600) _ H1 N1 E1). cbn [bind].
    rewrite (Qle_bool_false (t0 + 3600 + 1) (t0 + 3600)) by lra.
    rewrite (Qle_bool_false (t0 + 3600 + 3600) (t0 + 3600 + 1)) by lra.
    reflexivity.
  - rewrite Qeq_bool_false by lra.
    cbn [grid_forecast.find_loop get item dict_lookup bind grid_forecast.META_TIME
         grid_forecast.META_VALUE String.eqb Ascii.eqb Bool.eqb].
    rewrite (one_hour_interval s0 t0 _ H0 N0 E0). cbn [bind].
    rewrite (Qle_bool_true (t0 - 1) t0) by lra.
    reflexivity.
Qed.

End GridProperties.

Lemma C1_scan_stops_before_the_covering_interval_witness :
  grid_forecast._find_in_gridpoints sample_fromisoformat 0
    (two_hour_grid "2024-01-01T00:00:00+00:00" "2024-01-01T01:00:00+00:00")
    "temperature" (Some (1704067200 + 1800)) = Ok VNone.
Proof.
  apply (C1_scan_stops_before_the_covering_interval sample_fromisoformat 0
           "2024-01-01T00:00:00+00:00" "2024-01-01T01:00:00+00:00" 1704067200
           ltac:(discriminate) eq_refl eq_refl
           ltac:(discriminate) eq_refl eq_refl eq_refl).
Defined.

(* ===================================================================== *)
(** * PeriodForecastParser *)
(* ===================================================================== *)

Section ParserProperties.

Variable fromisoformat : string -> option Q.

(** [float(v)] raises [ValueError] or [TypeError], or [OverflowError]
    for an int too large. *)
Lemma py_float_error v e :
  py_float v = Raise e ->
  is_ValueError_or_TypeError e = true \/ e = int_too_large.
Proof.
  destruct v as [| b | z | x | s | l | m]; cbn [py_float]; try discriminate;
    try (intros [= <-]; now left).
  - intros H. right. exact (float_of_int_error z e H).
  - intros H. left. apply float_of_str_error in H. now destruct e.
Qed.

(** C2, on the code: a period without the precipitation field makes
    [_parse_period] raise [AttributeError], which the handler for
    [ValueError] and [TypeError] lets through: no record is produced. *)
Theorem C2_missing_precipitation_raises (forecast_at : Q)
    (m : list (string * value)) :
  item m "probabilityOfPrecipitation" = VNone ->
  daily_forecast.parse_precipitation_probability (VDict m)
  = Raise (AttributeError "get")
  /\ (forall r : daily_forecast.Forecast,
        daily_forecast._parse_period fromisoformat forecast_at (VDict m)
        <> Ok r)
  /\ daily_forecast._data
       (daily_forecast.new fromisoformat
          (VDict [("properties", VDict [("periods", VList [VDict m])])])
          forecast_at) = [].
Proof.
  intros H.
  assert (E : daily_forecast.parse_precipitation_probability (VDict m)
              = Raise (AttributeError "get")).
  { unfold daily_forecast.parse_precipitation_probability.
    cbn [get bind]. rewrite H. reflexivity. }
  assert (R : forall r, daily_forecast._parse_period fromisoformat forecast_at
                          (VDict m) <> Ok r).
  { intros r. unfold daily_forecast._parse_period. cbn [get bind].
    destruct (iso_to_float_time _ _ _); [|discriminate]. cbn [bind].
    destruct (daily_forecast.parse_temperature _); [|discriminate]. cbn [bind].
    rewrite E. discriminate. }
  repeat split; auto.
  unfold daily_forecast.new, daily_forecast._parse.
  cbn [daily_forecast._forecast daily_forecast._forecast_at truthy negb
       get item dict_lookup String.eqb Ascii.eqb Bool.eqb bind iter
       daily_forecast._data daily_forecast.parse_loop].
  destruct (daily_forecast._parse_period _ _ _) as [r|] eqn:P; [|reflexivity].
  exfalso. now apply (R r).
Qed.

Lemma str_in_error needle v e :
  str_in needle v = Raise e -> is_ValueError_or_TypeError e = true.
Proof. destruct v; cbn [str_in]; try discriminate; now intros [= <-]. Qed.

(** The temperature block, once the value has been read as a float. *)
Lemma parse_temperature_value m x :
  py_float (item m "temperature") = Ok x ->
  daily_forecast.parse_temperature (VDict m)
  = try_except
      (is_F <- str_in daily_forecast.NOAA_UNIT_TEMP_F
                 (item m "temperatureUnit") ;;
       value <- (if is_F : bool then convert_F_to_C x else Ok x) ;;
       Ok (VFloat value))
      is_ValueError_or_TypeError (Ok VNone).
Proof.
  intros H. unfold daily_forecast.parse_temperature. cbn [get bind].
  now rewrite H.
Qed.

Lemma parse_temperature_refused m e :
  py_float (item m "temperature") = Raise e ->
  daily_forecast.parse_temperature (VDict m)
  = if is_ValueError_or_TypeError e then Ok VNone else Raise e.
Proof.
  intros H. unfold daily_forecast.parse_temperature. cbn [get bind].
  now rewrite H.
Qed.

(** Whatever the temperature block raises is an [OverflowError]: of
    [float()] on an int too large, or of the conversion. *)
Lemma parse_temperature_error m e :
  daily_forecast.parse_temperature (VDict m) = Raise e ->
  (e = int_too_large /\ py_float (item m "temperature") = Raise e)
  \/ (e = OverflowError "int"
      /\ exists x, py_float (item m "temperature") = Ok x
                   /\ convert_F_to_C x = Raise e).
Proof.
  destruct (py_float (item m "temperature")) as [x|e0] eqn:E.
  - rewrite (parse_temperature_value m x E).
    destruct (str_in _ _) as [[|]|e'] eqn:EU; cbn [bind try_except].
    + destruct (convert_F_to_C x) as [c|e1] eqn:C; cbn [bind try_except];
        [discriminate|].
      destruct (convert_F_to_C_error x e1 C) as [-> | ->];
        cbn [is_ValueError_or_TypeError]; [|discriminate].
      intros [= <-]. right. split; [reflexivity|]. now exists x.
    + discriminate.
    + now rewrite (str_in_error _ _ _ EU).
  - rewrite (parse_temperature_refused m e0 E).
    destruct (py_float_error _ _ E) as [V | ->].
    + now rewrite V.
    + cbn [is_ValueError_or_TypeError int_too_large]. intros [= <-].
      now left.
Qed.

(** C6, as amended: the parsed temperature is the Fahrenheit-to-Celsius
    conversion of the numeric value when the unit is a string that
    contains "F"; the value itself when the unit is a string without
    "F"; null when the value is missing or unparsable, and null when the
    unit field is absent.  The extraction raises nothing but
    [OverflowError], and that only when the value is an int too large
    for a double or when the conversion overflows: it returns for every
    number up to [2^1000] in magnitude. *)
Theorem C6_temperature_extraction (m : list (string * value)) :
  let period := VDict m in
  let raw := item m "temperature" in
  let unit := item m "temperatureUnit" in
  (forall (x c : pyfloat) (u : string),
     py_float raw = Ok x -> unit = VStr u -> contains "F" u = true ->
     convert_F_to_C x = Ok c ->
     daily_forecast.parse_temperature period = Ok (VFloat c))
  /\ (forall (x : pyfloat) (u : string),
     py_float raw = Ok x -> unit = VStr u -> contains "F" u = false ->
     daily_forecast.parse_temperature period = Ok (VFloat x))
  /\ (forall x : pyfloat,
     py_float raw = Ok x -> unit = VNone ->
     daily_forecast.parse_temperature period = Ok VNone)
  /\ (forall e : exn,
     py_float raw = Raise e -> is_ValueError_or_TypeError e = true ->
     daily_forecast.parse_temperature period = Ok VNone)
  /\ (raw = VNone -> daily_forecast.parse_temperature period = Ok VNone)
  /\ (forall (s : string) (e : exn),
     raw = VStr s -> float_of_str s = Raise e ->
     daily_forecast.parse_temperature period = Ok VNone)
  /\ (forall e : exn,
     daily_forecast.parse_temperature period = Raise e ->
     (e = int_too_large /\ py_float raw = Raise e)
     \/ (e = OverflowError "int"
         /\ exists x, py_float raw = Ok x /\ convert_F_to_C x = Raise e))
  /\ (forall q : Q,
     py_float raw = Ok (Fin q) -> Qabs q <= Qpow2 1000 ->
     exists v, daily_forecast.parse_temperature period = Ok v)
  /\ (forall (forecast_at : Q) (r : daily_forecast.Forecast),
     daily_forecast._parse_period fromisoformat forecast_at period = Ok r ->
     daily_forecast.parse_temperature period
     = Ok (daily_forecast.native_temperature r)).
Proof.
  intros period raw unit. subst period raw unit.
  split; [|split; [|split; [|split; [|split; [|split; [|split; [|split]]]]]]].
  - intros x c u Hx Hu Hc Hv. rewrite (parse_temperature_value m x Hx), Hu.
    cbn [str_in bind]. unfold daily_forecast.NOAA_UNIT_TEMP_F.
    rewrite Hc, Hv. reflexivity.
  - intros x u Hx Hu Hc. rewrite (parse_temperature_value m x Hx), Hu.
    cbn [str_in bind]. unfold daily_forecast.NOAA_UNIT_TEMP_F.
    rewrite Hc. reflexivity.
  - intros x Hx Hu. rewrite (parse_temperature_value m x Hx), Hu. reflexivity.
  - intros e He V. now rewrite (parse_temperature_refused m e He), V.
  - intros H. apply (parse_temperature_refused m (TypeError "float")).
    now rewrite H.
  - intros s e H E.
    rewrite (parse_temperature_refused m e) by (rewrite H; exact E).
    apply float_of_str_error in E. now destruct e.
  - apply parse_temperature_error.
  - intros q Hq B. rewrite (parse_temperature_value m _ Hq).
    destruct (str_in _ _) as [[|]|e'] eqn:EU; cbn [bind try_except].
    + destruct (convert_F_to_C_in_range q B) as [c ->]. eexists; reflexivity.
    + eexists; reflexivity.
    + rewrite (str_in_error _ _ _ EU). eexists; reflexivity.
  - intros forecast_at r. unfold daily_forecast._parse_period. cbn [get bind].
    destruct (iso_to_float_time _ _ _); [|discriminate]. cbn [bind].
    destruct (daily_forecast.parse_temperature (VDict m)) as [v|]; [|discriminate].
    cbn [bind].
    destruct (daily_forecast.parse_precipitation_probability _); [|discriminate].
    cbn [bind].
    destruct (daily_forecast.parse_wind_speed _); [|discriminate].
    cbn [bind]. intros [= <-]. reflexivity.
Qed.

(** ** Well-formed periods *)

Lemma start_time_ok_spec v :
  start_time_ok fromisoformat v = true <->
  exists t, iso_to_float_time fromisoformat v VNone = Ok t.
Proof.
  unfold start_time_ok, iso_to_float_time, iso_timestamp.
  destruct (truthy v); cbn [negb orb].
  - destruct v; try (split; [discriminate | intros [t [=]]]).
    destruct (fromisoformat s).
    + split; [eexists; reflexivity | reflexivity].
    + split; [discriminate | intros [t [=]]].
  - split; [eexists; reflexivity | reflexivity].
Qed.

Lemma temperature_ok_spec m :
  temperature_ok (item m "temperature") (item m "temperatureUnit") = true <->
  exists v, daily_forecast.parse_temperature (VDict m) = Ok v.
Proof.
  unfold temperature_ok.
  destruct (py_float (item m "temperature")) as [x|e] eqn:E.
  - rewrite (parse_temperature_value m x E).
    destruct (str_in daily_forecast.NOAA_UNIT_TEMP_F (item m "temperatureUnit"))
      as [[|]|e'] eqn:EU; cbn [bind try_except].
    + destruct (convert_F_to_C x) as [c|e1]; cbn [bind try_except].
      * split; [eexists|]; reflexivity.
      * destruct (is_ValueError_or_TypeError e1).
        -- split; [eexists|]; reflexivity.
        -- split; [discriminate | intros [v [=]]].
    + split; [eexists|]; reflexivity.
    + rewrite (str_in_error _ _ _ EU). split; [eexists|]; reflexivity.
  - rewrite (parse_temperature_refused m e E).
    destruct (is_ValueError_or_TypeError e).
    + split; [eexists|]; reflexivity.
    + split; [discriminate | intros [v [=]]].
Qed.

Lemma int_unsigned_error s e :
  int_unsigned s = Raise e -> is_ValueError_or_TypeError e = true.
Proof.
  unfold int_unsigned. destruct (digits_ok false s); [|now intros [= <-]].
  destruct (_ <=? _)%nat; [discriminate | now intros [= <-]].
Qed.

Lemma int_of_str_error s e :
  int_of_str s = Raise e -> is_ValueError_or_TypeError e = true.
Proof.
  unfold int_of_str. destruct (strip number_space s) as [|c r].
  - apply int_unsigned_error.
  - destruct (Ascii.eqb c "+"); [apply int_unsigned_error|].
    destruct (Ascii.eqb c "-"); [|apply int_unsigned_error].
    destruct (int_unsigned r) eqn:E; [discriminate|].
    intros [= <-]. now apply int_unsigned_error in E.
Qed.

Lemma precipitation_ok_spec m :
  precipitation_ok (item m "probabilityOfPrecipitation") = true <->
  exists v, daily_forecast.parse_precipitation_probability (VDict m) = Ok v.
Proof.
  unfold precipitation_ok, daily_forecast.parse_precipitation_probability.
  cbn [get bind].
  destruct (item m "probabilityOfPrecipitation") as [| | | | | | pm];
    cbn [get bind try_except is_ValueError_or_TypeError];
    try (split; [discriminate | intros [v [=]]]).
  destruct (item pm "value") as [| b | z | x | s | l | d];
    cbn [py_int bind try_except is_ValueError_or_TypeError];
    try (split; [eexists|]; reflexivity).
  - destruct x as [q | sg |];
      cbn [int_of_float bind try_except is_ValueError_or_TypeError].
    + split; [eexists|]; reflexivity.
    + split; [discriminate | intros [v [=]]].
    + split; [eexists|]; reflexivity.
  - destruct (int_of_str s) as [z|e] eqn:E; cbn [bind try_except].
    + split; [eexists|]; reflexivity.
    + rewrite (int_of_str_error _ _ E). split; [eexists|]; reflexivity.
Qed.

Lemma wind_speed_ok_spec m :
  wind_speed_ok (item m "windSpeed") = true <->
  exists v, daily_forecast.parse_wind_speed (VDict m) = Ok v.
Proof.
  unfold wind_speed_ok, daily_forecast.parse_wind_speed. cbn [get bind].
  destruct (item m "windSpeed") as [| | | | s | |];
    cbn [split bind try_except is_ValueError_or_TypeError];
    try (split; [discriminate | intros [v [=]]]).
  destruct (split_ws s) as [|head rest];
    cbn [first_item bind try_except is_ValueError_or_TypeError].
  { split; [discriminate | intros [v [=]]]. }
  destruct (float_of_str head) as [x|e] eqn:E; cbn [bind try_except].
  2:{ apply float_of_str_error in E. destruct e; try discriminate.
      split; [eexists|]; reflexivity. }
  destruct (existsb _ _).
  - destruct (speed_miph_to_mps_float x) as [y ->].
    split; [eexists|]; reflexivity.
  - split; [eexists|]; reflexivity.
Qed.

(** The well-formed periods are those [_parse_period] turns into a
    record. *)
Lemma well_formed_period_spec forecast_at p :
  well_formed_period fromisoformat p = true <->
  exists r, daily_forecast._parse_period fromisoformat forecast_at p = Ok r.
Proof.
  destruct p as [| | | | | | m];
    try (split; [discriminate | intros [r [=]]]).
  unfold well_formed_period, daily_forecast._parse_period. cbn [get bind].
  rewrite !andb_true_iff.
  rewrite start_time_ok_spec, temperature_ok_spec, precipitation_ok_spec,
    wind_speed_ok_spec.
  destruct (iso_to_float_time _ _ _) as [t|]; cbn [bind].
  2:{ split; [intros [[[[? [=]] _] _] _] | intros [r [=]]]. }
  destruct (daily_forecast.parse_temperature _) as [v1|]; cbn [bind].
  2:{ split; [intros [[[_ [? [=]]] _] _] | intros [r [=]]]. }
  destruct (daily_forecast.parse_precipitation_probability _) as [v2|]; cbn [bind].
  2:{ split; [intros [[_ [? [=]]] _] | intros [r [=]]]. }
  destruct (daily_forecast.parse_wind_speed _) as [v3|]; cbn [bind].
  2:{ split; [intros [_ [? [=]]] | intros [r [=]]]. }
  split; intros _; [eexists; reflexivity|].
  repeat split; eexists; reflexivity.
Qed.

Lemma parse_period_stamp forecast_at p r :
  daily_forecast._parse_period fromisoformat forecast_at p = Ok r ->
  daily_forecast.last_api_update r = forecast_at.
Proof.
  unfold daily_forecast._parse_period.
  repeat match goal with
         | |- context [bind ?m _] =>
             destruct m; cbn [bind]; [|discriminate]
         end.
  intros [= <-]. reflexivity.
Qed.

Lemma parse_loop_well_formed forecast_at periods : forall data,
  Forall (fun p => well_formed_period fromisoformat p = true) periods ->
  exists records,
    daily_forecast.parse_loop fromisoformat forecast_at periods data
    = (data ++ records)%list
    /\ Forall2 (fun p r => daily_forecast._parse_period fromisoformat
                             forecast_at p = Ok r) periods records.
Proof.
  induction periods as [|p periods IH]; intros data H.
  - exists []. split; [now rewrite List.app_nil_r | constructor].
  - inversion H as [|? ? Hp Hrest]; subst.
    apply (well_formed_period_spec forecast_at) in Hp as [r Hr].
    cbn [daily_forecast.parse_loop]. rewrite Hr.
    destruct (IH (data ++ [r])%list Hrest) as (records & E & F).
    exists (r :: records). split.
    + rewrite E, <- List.app_assoc. reflexivity.
    + now constructor.
Qed.

(** C8: when every period of the payload is well formed, the parser
    yields one record per period, in the order of the payload, so as
    many records as [properties.periods] has entries; every record
    carries the timestamp the parser was given. *)
Theorem C8_one_record_per_period (payload : value) (periods : list value)
    (forecast_at : Q) :
  (props <- get payload "properties" ;; get props "periods")
  = Ok (VList periods) ->
  Forall (fun p => well_formed_period fromisoformat p = true) periods ->
  let data := daily_forecast.get_forecast
                (daily_forecast.new fromisoformat payload forecast_at) in
  List.length data = List.length periods
  /\ Forall2 (fun p r => daily_forecast._parse_period fromisoformat
                           forecast_at p = Ok r) periods data
  /\ Forall (fun r => daily_forecast.last_api_update r = forecast_at) data.
Proof.
  intros Hpayload Hwf data.
  assert (Htruthy : truthy payload = true).
  { destruct payload as [| | | | | | m]; try discriminate.
    destruct m; [discriminate | reflexivity]. }
  destruct (parse_loop_well_formed forecast_at periods [] Hwf)
    as (records & E & F).
  assert (Hdata : data = records).
  { subst data. unfold daily_forecast.get_forecast, daily_forecast.new,
      daily_forecast._parse.
    cbn [daily_forecast._forecast daily_forecast._forecast_at
         daily_forecast._data].
    rewrite Htruthy. cbn [negb daily_forecast._data].
    destruct (get payload "properties") as [props|]; [|discriminate].
    cbn [bind] in *. rewrite Hpayload. cbn [iter]. exact E. }
  rewrite Hdata. repeat split.
  - symmetry. exact (Forall2_length F).
  - exact F.
  - clear -F. induction F; constructor; auto.
    now apply (parse_period_stamp forecast_at x).
Qed.

End ParserProperties.

(** ** Worked examples *)

Lemma C2_missing_precipitation_raises_witness :
  daily_forecast.parse_precipitation_probability
    (VDict period_without_precipitation)
  = Raise (AttributeError "get")
  /\ daily_forecast._data
       (daily_forecast.new sample_fromisoformat
          (VDict [("properties",
                   VDict [("periods",
                           VList [VDict period_without_precipitation])])])
          1704067000) = [].
Proof.
  destruct (C2_missing_precipitation_raises sample_fromisoformat 1704067000
              period_without_precipitation eq_refl) as (H1 & _ & H3).
  split; [exact H1 | exact H3].
Defined.

Lemma C6_temperature_extraction_witness :
  daily_forecast.parse_temperature (VDict sample_period)
  = Ok (VFloat (Fin 10))
  /\ daily_forecast.parse_temperature (VDict period_without_unit) = Ok VNone.
Proof.
  split.
  - apply (proj1 (C6_temperature_extraction sample_fromisoformat sample_period)
             (Fin 50) (Fin 10) "F"); vm_compute; reflexivity.
  - destruct (C6_temperature_extraction sample_fromisoformat period_without_unit)
      as (_ & _ & H & _).
    apply (H (Fin 20)); vm_compute; reflexivity.
Defined.

(** C6, as stated, fails for a period that has a temperature and no unit
    field: the parsed temperature is null, not the value 20.  It fails
    too for the temperature [10**400], an int no double holds, and for
    [1e308] degrees Fahrenheit, whose conversion overflows: both raise
    [OverflowError], which the extraction does not handle. *)
Lemma C6_absent_unit_counterexample :
  (exists r : daily_forecast.Forecast,
     daily_forecast._parse_period sample_fromisoformat 1704067000
       (VDict period_without_unit) = Ok r
     /\ item period_without_unit "temperature" = VInt 20
     /\ item period_without_unit "temperatureUnit" = VNone
     /\ daily_forecast.native_temperature r = VNone
     /\ daily_forecast.native_temperature r <> VFloat (Fin (inject_Z 20)))
  /\ daily_forecast.parse_temperature
       (VDict [("temperature", VInt (10 ^ 400)); ("temperatureUnit", VStr "C")])
     = Raise int_too_large
  /\ daily_forecast.parse_temperature
       (VDict [("temperature", VStr "1e308"); ("temperatureUnit", VStr "F")])
     = Raise (OverflowError "int").
Proof.
  split.
  - eexists. split; [vm_compute; reflexivity|].
    repeat split. cbn. discriminate.
  - split; vm_compute; reflexivity.
Qed.

Lemma C8_one_record_per_period_witness :
  List.length (daily_forecast.get_forecast
                 (daily_forecast.new sample_fromisoformat sample_payload
                                     1704067000))
  = 2%nat.
Proof.
  apply (C8_one_record_per_period sample_fromisoformat sample_payload
           [VDict sample_period; VDict period_without_unit] 1704067000
           eq_refl).
  repeat constructor.
Defined.

(* ===================================================================== *)
(** * ForecastClient *)
(* ===================================================================== *)

Section ClientProperties.

Variable fromisoformat : string -> option Q.
Variable format_url : string -> Q -> Q -> option string.

(** ** Stepwise invariants *)

Section Steps.

Variable R : State -> State -> Prop.
Hypothesis R_refl : forall s, R s s.
Hypothesis R_trans : forall a b c, R a b -> R b c -> R a c.

Lemma step_ret {A} (a : A) : step_ok R (ret a).
Proof. intros s. apply R_refl. Qed.

Lemma step_lift {A} (r : result A) : step_ok R (lift r).
Proof. intros s. apply R_refl. Qed.

Lemma step_self_get {A} (f : NOAAApiForHA -> A) : step_ok R (self_get f).
Proof. intros s. apply R_refl. Qed.

Lemma step_time_time : step_ok R time_time.
Proof. intros s. apply R_refl. Qed.

Lemma step_mbind {A B} (m : M A) (k : A -> M B) :
  step_ok R m -> (forall a, step_ok R (k a)) -> step_ok R (mbind m k).
Proof.
  intros Hm Hk s. unfold mbind. specialize (Hm s).
  destruct (m s) as [[a|e] s']; cbn [snd] in *.
  - eapply R_trans; [exact Hm | apply Hk].
  - exact Hm.
Qed.

Lemma step_try_except_all {A} (m h : M A) :
  step_ok R m -> step_ok R h -> step_ok R (try_except_all m h).
Proof.
  intros Hm Hh s. unfold try_except_all. specialize (Hm s).
  destruct (m s) as [[a|e] s']; cbn [snd] in *.
  - exact Hm.
  - eapply R_trans; [exact Hm | apply Hh].
Qed.

Lemma step_if {A} (b : bool) (m1 m2 : M A) :
  step_ok R m1 -> step_ok R m2 -> step_ok R (if b then m1 else m2).
Proof. destruct b; auto. Qed.

End Steps.

Lemma forecasts_frame_refl s : forecasts_frame s s.
Proof.
  unfold forecasts_frame. repeat split; auto.
  - now exists [].
  - apply Qle_refl.
Qed.

Lemma forecasts_frame_trans a b c :
  forecasts_frame a b -> forecasts_frame b c -> forecasts_frame a c.
Proof.
  unfold forecasts_frame.
  intros (A1 & A2 & A3 & A4 & A5 & [l1 A7] & A6)
         (B1 & B2 & B3 & B4 & B5 & [l2 B7] & B6).
  repeat split; try congruence.
  - exists (l2 ++ l1)%list. rewrite B7, A7. apply List.app_assoc.
  - now apply B6, A6.
  - destruct (A6 H) as [H1 H2]. destruct (B6 H1) as [_ H3].
    eapply Qle_trans; eauto.
Qed.

Lemma http_get_clock u w :
  nonneg_latencies w ->
  nonneg_latencies (snd (http_get u w)) /\ clock w <= clock (snd (http_get u w)).
Proof.
  unfold nonneg_latencies, http_get. intros H.
  destruct (pending w) as [|[latency outcome] rest] eqn:E; cbn [snd clock pending].
  - split; [constructor | apply Qle_refl].
  - inversion H as [|? ? H1 H2]; subst. cbn [fst] in H1.
    split; [exact H2 | lra].
Qed.

Lemma url_response_requests url w :
  exists later,
    requests (snd (url_response url w)) = (later ++ requests w)%list.
Proof.
  unfold url_response.
  destruct (negb (truthy url)); [now exists []|].
  destruct url; try now exists [].
  unfold http_get.
  destruct (pending w) as [|[latency outcome] rest]; cbn [snd requests];
    now exists [s].
Qed.

Lemma url_response_clock url w :
  nonneg_latencies w ->
  nonneg_latencies (snd (url_response url w))
  /\ clock w <= clock (snd (url_response url w)).
Proof.
  intros H. unfold url_response.
  destruct (negb (truthy url)); [split; [exact H | apply Qle_refl]|].
  destruct url; try (split; [exact H | apply Qle_refl]).
  pose proof (http_get_clock s w H) as Hg.
  destruct (http_get s w) as [r w']. exact Hg.
Qed.

Lemma step_async_get_url_frame url : step_ok forecasts_frame (_async_get_url url).
Proof.
  intros [o w]. unfold _async_get_url. cbn [snd fst].
  pose proof (url_response_clock url w) as H.
  pose proof (url_response_requests url w) as H'.
  destruct (url_response url w) as [r w']. cbn [snd fst] in *.
  unfold forecasts_frame. cbn [snd fst]. intuition.
Qed.

Lemma step_self_set_frame f :
  (forall o, _refresh_interval (f o) = _refresh_interval o
             /\ _all_data_ok (f o) = _all_data_ok o
             /\ _all_data_ok_at (f o) = _all_data_ok_at o
             /\ _metadata (f o) = _metadata o
             /\ _metadata_at (f o) = _metadata_at o) ->
  step_ok forecasts_frame (self_set f).
Proof.
  intros Hf [o w]. unfold self_set, forecasts_frame. cbn [snd fst].
  destruct (Hf o) as (H1 & H2 & H3 & H4 & H5).
  repeat split; auto.
  - now exists [].
  - apply Qle_refl.
Qed.

Ltac step_frame :=
  repeat first
    [ apply (step_mbind _ forecasts_frame_trans)
    | apply (step_ret _ forecasts_frame_refl)
    | apply (step_lift _ forecasts_frame_refl)
    | apply (step_self_get _ forecasts_frame_refl)
    | apply (step_time_time _ forecasts_frame_refl)
    | apply step_async_get_url_frame
    | apply step_self_set_frame; intros; repeat split; reflexivity
    | apply step_if
    | match goal with |- forall _, _ => intro end ].

Lemma async_get_forecasts_frame :
  step_ok forecasts_frame (_async_get_forecasts fromisoformat).
Proof.
  unfold _async_get_forecasts, metadata_link. step_frame.
Qed.

(** ** A run of [_async_get_forecasts] *)

Lemma metadata_store_daily r t o : _metadata (store_daily fromisoformat r t o) = _metadata o.
Proof. unfold store_daily. destruct (truthy r); reflexivity. Qed.

Lemma metadata_store_hourly r t o : _metadata (store_hourly fromisoformat r t o) = _metadata o.
Proof. unfold store_hourly. destruct (truthy r); reflexivity. Qed.

Lemma async_get_forecasts_run o w mm pm :
  _metadata o = VDict mm -> mm <> [] ->
  get_default (VDict mm) META_PROPERTIES (VDict []) = Ok (VDict pm) ->
  let r1 := fst (url_response (item pm META_FORECAST) w) in
  let w1 := snd (url_response (item pm META_FORECAST) w) in
  let r2 := fst (url_response (item pm META_FORECAST_HOURLY) w1) in
  let w2 := snd (url_response (item pm META_FORECAST_HOURLY) w1) in
  let r3 := fst (url_response (item pm META_FORECAST_GRID_DATA) w2) in
  let w3 := snd (url_response (item pm META_FORECAST_GRID_DATA) w2) in
  _async_get_forecasts fromisoformat (o, w)
  = (Ok (truthy r1 && truthy r2 && truthy r3),
     (store_grid r3 (clock w3)
        (store_hourly fromisoformat r2 (clock w2) (store_daily fromisoformat r1 (clock w1) o)),
      w3)).
Proof.
  intros Hm Hne Hp r1 w1 r2 w2 r3 w3.
  subst r1 w1 r2 w2 r3 w3.
  unfold _async_get_forecasts, metadata_link.
  cbv [mbind self_get self_set time_time lift ret _async_get_url fst snd].
  rewrite Hm.
  replace (truthy (VDict mm)) with true by (destruct mm; [congruence | reflexivity]).
  cbn [negb]. rewrite Hm, Hp. cbn [bind get].
  destruct (url_response (item pm META_FORECAST) w) as [r1 w1].
  unfold store_daily.
  destruct (truthy r1);
    cbn [with_daily with_forecast_at with_forecast _metadata]; rewrite Hm, Hp;
    cbn [bind get];
    destruct (url_response (item pm META_FORECAST_HOURLY) w1) as [r2 w2];
    unfold store_hourly;
    destruct (truthy r2);
    cbn [with_hourly with_forecast_hourly_at with_forecast_hourly
         with_daily with_forecast_at with_forecast _metadata];
    rewrite Hm, Hp; cbn [bind get];
    destruct (url_response (item pm META_FORECAST_GRID_DATA) w2) as [r3 w3];
    unfold store_grid;
    destruct (truthy r3); reflexivity.
Qed.

(** ** A run of [async_get_for_location] *)

Lemma get_for_location_failed o w :
  truthy (fst (discover_response format_url o w)) = false ->
  async_get_for_location fromisoformat format_url None None (o, w)
  = (Ok false, (o, snd (discover_response format_url o w))).
Proof.
  unfold discover_response, async_get_for_location.
  cbv [try_except_all mbind self_get self_set time_time lift ret
       _async_get_url fst snd or_default].
  destruct (format_url (_url o) (_lat o) (_lon o)) as [u|]; [|reflexivity].
  destruct (url_response (VStr u) w) as [meta w0].
  intros ->. reflexivity.
Qed.

Lemma get_for_location_run o w :
  let meta := fst (discover_response format_url o w) in
  let w0 := snd (discover_response format_url o w) in
  truthy meta = true ->
  async_get_for_location fromisoformat format_url None None (o, w)
  = match _async_get_forecasts fromisoformat
            (store_metadata meta (clock w0) o, w0) with
    | (Ok ok, (o', w')) =>
        (Ok ok,
         (if ok : bool
          then with_all_data_ok_at (clock w') (with_all_data_ok true o')
          else with_all_data_ok false o',
          w'))
    | (Raise _, s') => (Ok false, s')
    end.
Proof.
  unfold discover_response, async_get_for_location, store_metadata.
  cbv [try_except_all mbind self_get self_set time_time lift ret
       _async_get_url fst snd or_default].
  destruct (format_url (_url o) (_lat o) (_lon o)) as [u|]; [|discriminate].
  destruct (url_response (VStr u) w) as [meta w0].
  cbv zeta. intros ->.
  destruct (_async_get_forecasts fromisoformat _) as [[[|]|e] [o' w']];
    reflexivity.
Qed.

(** A refresh that reports success has just stamped [_all_data_ok_at]
    or was a no-op. *)
Lemma get_for_location_true o w o1 w1 :
  nonneg_latencies w ->
  async_get_for_location fromisoformat format_url None None (o, w)
  = (Ok true, (o1, w1)) ->
  _all_data_ok o1 = true
  /\ clock w <= _all_data_ok_at o1
  /\ _refresh_interval o1 = _refresh_interval o.
Proof.
  intros Hw H.
  destruct (truthy (fst (discover_response format_url o w))) eqn:E.
  2:{ rewrite (get_for_location_failed o w E) in H. discriminate. }
  rewrite (get_for_location_run o w E) in H.
  pose proof (async_get_forecasts_frame
                (store_metadata (fst (discover_response format_url o w))
                   (clock (snd (discover_response format_url o w))) o,
                 snd (discover_response format_url o w))) as F.
  destruct (_async_get_forecasts fromisoformat _) as [[[|]|e] [o' w']];
    try discriminate.
  injection H as <- <-.
  destruct F as (F1 & _ & _ & _ & _ & _ & F6). cbn [fst snd] in *.
  assert (Hd : nonneg_latencies (snd (discover_response format_url o w))
               /\ clock w <= clock (snd (discover_response format_url o w))).
  { unfold discover_response.
    destruct (format_url _ _ _); [now apply url_response_clock|].
    split; [exact Hw | apply Qle_refl]. }
  destruct Hd as [Hd1 Hd2]. destruct (F6 Hd1) as [_ Hc].
  repeat split.
  - cbn. eapply Qle_trans; eauto.
  - cbn. exact F1.
Qed.

Lemma refresh_fresh o w :
  _all_data_ok o = true ->
  clock w - _all_data_ok_at o < _refresh_interval o ->
  async_refresh fromisoformat format_url (o, w) = (Ok true, (o, w)).
Proof.
  intros Hok Hlt. unfold async_refresh.
  cbv [mbind self_get time_time ret fst snd].
  rewrite Hok, (Qle_bool_false _ _ Hlt). reflexivity.
Qed.

Lemma refresh_stale o w :
  stale o w ->
  async_refresh fromisoformat format_url (o, w)
  = async_get_for_location fromisoformat format_url None None (o, w).
Proof.
  intros Hs. unfold async_refresh.
  cbv [mbind self_get time_time ret fst snd].
  destruct Hs as [-> | Hle]; [reflexivity|].
  rewrite (Qle_bool_true _ _ Hle), andb_false_r. reflexivity.
Qed.

Lemma fresh_or_stale o w :
  (_all_data_ok o = true /\ clock w - _all_data_ok_at o < _refresh_interval o)
  \/ stale o w.
Proof.
  unfold stale. destruct (_all_data_ok o); [|now right; left].
  destruct (Qlt_le_dec (clock w - _all_data_ok_at o) (_refresh_interval o)).
  - now left.
  - now right; right.
Qed.

(** A lookup that reports failure leaves the object due for a refresh:
    it has cleared the flag, or it has left the flag, its timestamp and
    the interval as they were. *)
Lemma get_for_location_false o w o1 w1 :
  async_get_for_location fromisoformat format_url None None (o, w)
  = (Ok false, (o1, w1)) ->
  _all_data_ok o1 = false
  \/ (_all_data_ok o1 = _all_data_ok o
      /\ _all_data_ok_at o1 = _all_data_ok_at o
      /\ _refresh_interval o1 = _refresh_interval o).
Proof.
  intros H.
  destruct (truthy (fst (discover_response format_url o w))) eqn:E.
  2:{ rewrite (get_for_location_failed o w E) in H. injection H as <- <-.
      now right. }
  rewrite (get_for_location_run o w E) in H.
  pose proof (async_get_forecasts_frame
                (store_metadata (fst (discover_response format_url o w))
                   (clock (snd (discover_response format_url o w))) o,
                 snd (discover_response format_url o w))) as F.
  destruct (_async_get_forecasts fromisoformat _) as [[[|]|e] [o' w']];
    try discriminate.
  - injection H as <- <-. now left.
  - injection H as <- <-.
    destruct F as (F1 & F2 & F3 & _). cbn [fst snd] in *.
    right. repeat split; assumption.
Qed.

Lemma stale_after_failure o w o1 w1 w2 :
  async_refresh fromisoformat format_url (o, w) = (Ok false, (o1, w1)) ->
  clock w <= clock w2 ->
  stale o1 w2.
Proof.
  intros H Hc.
  destruct (fresh_or_stale o w) as [[Hok Hlt] | Hs].
  { rewrite (refresh_fresh o w Hok Hlt) in H. discriminate. }
  rewrite (refresh_stale o w Hs) in H.
  destruct (get_for_location_false o w o1 w1 H) as [F | (F1 & F2 & F3)].
  - now left.
  - unfold stale in *. rewrite F1, F2, F3.
    destruct Hs as [Hs | Hs]; [now left | right; lra].
Qed.

(** C3, as amended: [set_refresh_interval(v)] leaves the interval
    [max(v, 1800)]; [refresh()] is a no-op that reports success while
    [all_ok] holds and [now - all_ok_at < refresh_interval]; otherwise it
    runs the metadata lookup, which requests the location's URL whenever
    the template formats to one.  Of two [refresh()] calls less than
    1800 seconds apart, on an object whose interval respects the floor
    and with a clock that does not run backwards, at most one fetches
    when the first reports success: the first made no request or the
    second is a no-op.  When the first reports failure the object stays
    due for a refresh, so the next call runs the lookup again. *)
Theorem C3_refresh_policy :
  (forall (v : Q) (o : NOAAApiForHA),
     _refresh_interval (set_refresh_interval v o)
     == Qmax v MIN_REFRESH_INTERVAL
     /\ MIN_REFRESH_INTERVAL <= _refresh_interval (set_refresh_interval v o))
  /\ (forall (o : NOAAApiForHA) (w : World),
     _all_data_ok o = true ->
     clock w - _all_data_ok_at o < _refresh_interval o ->
     async_refresh fromisoformat format_url (o, w) = (Ok true, (o, w)))
  /\ (forall (o : NOAAApiForHA) (w : World) (u : string),
     stale o w ->
     format_url (_url o) (_lat o) (_lon o) = Some u -> u <> "" ->
     exists later,
       requests (snd (snd (async_refresh fromisoformat format_url (o, w))))
       = (later ++ u :: requests w)%list)
  /\ (forall (o o1 : NOAAApiForHA) (w w1 w2 : World),
     MIN_REFRESH_INTERVAL <= _refresh_interval o ->
     nonneg_latencies w ->
     async_refresh fromisoformat format_url (o, w) = (Ok true, (o1, w1)) ->
     clock w2 - clock w < MIN_REFRESH_INTERVAL ->
     requests w1 = requests w
     \/ async_refresh fromisoformat format_url (o1, w2) = (Ok true, (o1, w2)))
  /\ (forall (o o1 : NOAAApiForHA) (w w1 w2 : World),
     async_refresh fromisoformat format_url (o, w) = (Ok false, (o1, w1)) ->
     clock w <= clock w2 ->
     stale o1 w2
     /\ async_refresh fromisoformat format_url (o1, w2)
        = async_get_for_location fromisoformat format_url None None (o1, w2)).
Proof.
  split; [|split; [|split; [|split]]].
  - intros v o. unfold set_refresh_interval, py_max.
    cbn [with_refresh_interval _refresh_interval].
    destruct (Qle_bool MIN_REFRESH_INTERVAL v) eqn:E.
    + apply Qle_bool_iff in E. split; [|exact E].
      symmetry. now apply Q.max_l.
    + assert (H : v <= MIN_REFRESH_INTERVAL).
      { destruct (Qlt_le_dec MIN_REFRESH_INTERVAL v) as [H|H]; [|exact H].
        apply Qlt_le_weak, Qle_bool_iff in H. congruence. }
      split; [|apply Qle_refl]. symmetry. now apply Q.max_r.
  - apply refresh_fresh.
  - intros o w u Hs Hu Hne. rewrite (refresh_stale o w Hs).
    assert (Hd : discover_response format_url o w = url_response (VStr u) w).
    { unfold discover_response. now rewrite Hu. }
    assert (Hreq : requests (snd (discover_response format_url o w)) = u :: requests w).
    { rewrite Hd. unfold url_response. cbn [truthy].
      destruct (String.eqb_spec u ""); [congruence|]. cbn [negb].
      unfold http_get.
      destruct (pending w) as [|[latency outcome] rest]; reflexivity. }
    destruct (truthy (fst (discover_response format_url o w))) eqn:E.
    + rewrite (get_for_location_run o w E).
      pose proof (async_get_forecasts_frame
                    (store_metadata (fst (discover_response format_url o w))
                       (clock (snd (discover_response format_url o w))) o,
                     snd (discover_response format_url o w))) as F.
      destruct F as (_ & _ & _ & _ & _ & [later F] & _). cbn [fst snd] in F.
      exists later.
      destruct (_async_get_forecasts fromisoformat _) as [[ok|e] [o' w']];
        cbn [fst snd] in *; now rewrite F, Hreq.
    + rewrite (get_for_location_failed o w E). cbn [snd].
      exists []. exact Hreq.
  - intros o o1 w w1 w2 Hfloor Hw H1 Hnear.
    destruct (fresh_or_stale o w) as [[Hok Hlt] | Hs].
    + rewrite (refresh_fresh o w Hok Hlt) in H1. injection H1 as <- <-.
      now left.
    + right. rewrite (refresh_stale o w Hs) in H1.
      destruct (get_for_location_true o w o1 w1 Hw H1) as (Hok & Hat & Hint).
      apply refresh_fresh; [exact Hok|].
      rewrite Hint. unfold MIN_REFRESH_INTERVAL in *. lra.
  - intros o o1 w w1 w2 H Hc.
    pose proof (stale_after_failure o w o1 w1 w2 H Hc) as Hs.
    split; [exact Hs | exact (refresh_stale o1 w2 Hs)].
Qed.

(** ** Partial payloads and the failed lookup *)


End ClientProperties.

(** ** Worked examples *)

Lemma C3_refresh_policy_witness :
  async_refresh sample_fromisoformat sample_format_url
    (with_all_data_ok_at 1704067200 (with_all_data_ok true sample_client),
     offline 1704067300 [])
  = (Ok true,
     (with_all_data_ok_at 1704067200 (with_all_data_ok true sample_client),
      offline 1704067300 [])).
Proof.
  apply (proj1 (proj2 (C3_refresh_policy sample_fromisoformat sample_format_url)));
    reflexivity.
Defined.

(** C3, as stated, fails when the first call fails: with the network
    down, two [refresh()] calls one second apart both request the
    location's URL. *)
Lemma C3_failed_refresh_counterexample :
  let first := async_refresh sample_fromisoformat sample_format_url
                 (sample_client, offline 1704067200 []) in
  let second := async_refresh sample_fromisoformat sample_format_url
                  (fst (snd first),
                   offline (clock (snd (snd first)) + 1)
                           (requests (snd (snd first)))) in
  fst first = Ok false
  /\ requests (snd (snd first)) = [sample_url]
  /\ fst second = Ok false
  /\ requests (snd (snd second)) = [sample_url; sample_url]
  /\ clock (snd (snd first)) + 1 - 1704067200 < MIN_REFRESH_INTERVAL.
Proof. vm_compute. repeat split. Qed.



(* ===================================================================== *)
(** * Further properties: unit conversions *)
(* ===================================================================== *)

(** ** Rounding is monotone *)

Lemma round_half_even_mono m1 m2 :
  m1 <= m2 -> (round_half_even m1 <= round_half_even m2)%Z.
Proof.
  intros H. pose proof (Qfloor_resp_le m1 m2 H) as F.
  destruct (Z.eq_dec (Qfloor m1) (Qfloor m2)) as [E|NE].
  - unfold round_half_even. rewrite E.
    destruct (Qcompare_spec (m1 - inject_Z (Qfloor m2)) (1 # 2)) as [A|A|A];
      destruct (Qcompare_spec (m2 - inject_Z (Qfloor m2)) (1 # 2)) as [B|B|B];
      try lia; try (exfalso; lra); destruct (Z.even (Qfloor m2)); lia.
  - pose proof (round_half_even_floor m1). pose proof (round_half_even_floor m2).
    lia.
Qed.

Lemma Qlog2_mono a b : 0 < a -> a <= b -> (Qlog2 a <= Qlog2 b)%Z.
Proof.
  intros Ha Hab. assert (Hb : 0 < b) by lra.
  destruct (Qlog2_spec a Ha) as [A1 _]. destruct (Qlog2_spec b Hb) as [_ B2].
  assert (L : Qpow2 (Qlog2 a) < Qpow2 (Qlog2 b + 1)) by lra.
  apply Qpow2_lt_inv in L. lia.
Qed.

Lemma nearest_mono a b : 0 < a -> a <= b -> nearest a <= nearest b.
Proof.
  intros Ha Hab. assert (Hb : 0 < b) by lra.
  pose proof (Qlog2_mono a b Ha Hab) as L.
  destruct (Qlog2_spec a Ha) as [A1 A2]. destruct (Qlog2_spec b Hb) as [B1 B2].
  destruct (Z.eq_dec (Z.max (Qlog2 a - 52) (-1074)) (Z.max (Qlog2 b - 52) (-1074)))
    as [E|NE].
  - unfold nearest, ulp. rewrite E.
    pose proof (Qpow2_pos (Z.max (Qlog2 b - 52) (-1074))) as U.
    apply Qmult_le_compat_r; [|lra].
    rewrite <- Zle_Qle. apply round_half_even_mono.
    apply Qmult_le_compat_r; [exact Hab|].
    apply Qlt_le_weak, Qinv_lt_0_compat, U.
  - apply Qle_trans with (Qpow2 (Qlog2 b)).
    + assert (K : a < Qpow2 (Z.max (Qlog2 a + 1) (-1074))).
      { apply Qlt_le_trans with (Qpow2 (Qlog2 a + 1)); [exact A2|].
        apply Qpow2_le. lia. }
      destruct (rounded_magnitude a _ Ha K ltac:(lia)) as [_ R].
      apply Qle_trans with (1 := R). apply Qpow2_le. lia.
    + unfold nearest, ulp.
      replace (Z.max (Qlog2 b - 52) (-1074)) with (Qlog2 b - 52)%Z by lia.
      pose proof (Qpow2_pos (Qlog2 b - 52)) as U.
      assert (S : Qpow2 (Qlog2 b) == inject_Z (2 ^ 52) * Qpow2 (Qlog2 b - 52)).
      { rewrite <- Qpow2_inject by lia. rewrite <- Qpow2_add.
        replace (52 + (Qlog2 b - 52))%Z with (Qlog2 b) by lia. reflexivity. }
      rewrite S. apply Qmult_le_compat_r; [|lra].
      rewrite <- Zle_Qle. apply round_half_even_ge.
      apply Qle_shift_div_l; [exact U|]. rewrite <- S. exact B1.
Qed.

Lemma nearest_nonneg a : 0 < a -> 0 <= nearest a.
Proof.
  intros Ha. destruct (Qlog2_spec a Ha) as [_ A2].
  assert (K : a < Qpow2 (Z.max (Qlog2 a + 1) (-1074))).
  { apply Qlt_le_trans with (Qpow2 (Qlog2 a + 1)); [exact A2|].
    apply Qpow2_le. lia. }
  exact (proj1 (rounded_magnitude a _ Ha K ltac:(lia))).
Qed.

Lemma Qabs_of_pos q : 0 < q -> Qabs q = q.
Proof.
  destruct q as [[|p|p] d]; unfold Qlt; cbn; intros H; try lia; reflexivity.
Qed.

Lemma Qabs_of_neg q : q < 0 -> Qabs q = - q.
Proof.
  destruct q as [[|p|p] d]; unfold Qlt; cbn; intros H; try lia; reflexivity.
Qed.

Lemma round_double_pos q :
  0 < q ->
  round_double q
  = if Qle_bool (Qpow2 1024) (nearest q) then Inf false
    else Fin (Qred (nearest q)).
Proof.
  intros H. rewrite round_double_unfold by lra. cbv zeta.
  rewrite (Qabs_of_pos q H). fold (nearest q).
  rewrite (Qle_bool_above q 0 H). reflexivity.
Qed.

Lemma round_double_neg q :
  q < 0 ->
  round_double q
  = if Qle_bool (Qpow2 1024) (nearest (- q)) then Inf true
    else Fin (Qred (- nearest (- q))).
Proof.
  intros H. rewrite round_double_unfold by lra. cbv zeta.
  rewrite (Qabs_of_neg q H). fold (nearest (- q)).
  assert (L : Qle_bool q 0 = true) by (apply Qle_bool_iff; lra).
  rewrite L. reflexivity.
Qed.

Lemma fle_refl x : x <> NaN -> fle x x.
Proof. destruct x as [q|[|]|]; cbn; intros H; try exact I; [lra | congruence]. Qed.

Lemma fle_neg_inf x : x <> NaN -> fle (Inf true) x.
Proof. destruct x as [q|[|]|]; cbn; intros H; try exact I; congruence. Qed.

Lemma fle_pos_inf x : x <> NaN -> fle x (Inf false).
Proof. destruct x as [q|[|]|]; cbn; intros H; try exact I; congruence. Qed.

Lemma round_double_mono q1 q2 :
  q1 <= q2 -> fle (round_double q1) (round_double q2).
Proof.
  intros H.
  destruct (Q_dec q1 0) as [[N1|P1]|Z1]; destruct (Q_dec q2 0) as [[N2|P2]|Z2];
    try (exfalso; lra).
  - rewrite (round_double_neg q1 N1), (round_double_neg q2 N2).
    assert (M : nearest (- q2) <= nearest (- q1))
      by (apply nearest_mono; lra).
    destruct (Qle_bool (Qpow2 1024) (nearest (- q1))) eqn:O1;
      destruct (Qle_bool (Qpow2 1024) (nearest (- q2))) eqn:O2; cbn [fle];
      try exact I.
    + apply Qle_bool_iff in O2.
      assert (F : ~ Qpow2 1024 <= nearest (- q1)).
      { intros C. apply Qle_bool_iff in C. congruence. }
      apply F. lra.
    + rewrite !Qred_correct. lra.
  - rewrite (round_double_neg q1 N1), (round_double_pos q2 P2).
    pose proof (nearest_nonneg (- q1) ltac:(lra)).
    pose proof (nearest_nonneg q2 P2).
    destruct (Qle_bool _ (nearest (- q1))); destruct (Qle_bool _ (nearest q2));
      cbn [fle]; try exact I.
    rewrite !Qred_correct. lra.
  - rewrite (round_double_neg q1 N1), (round_double_zero q2 Z2).
    pose proof (nearest_nonneg (- q1) ltac:(lra)).
    destruct (Qle_bool _ (nearest (- q1))); cbn [fle]; try exact I.
    rewrite !Qred_correct. lra.
  - rewrite (round_double_pos q1 P1), (round_double_pos q2 P2).
    assert (M : nearest q1 <= nearest q2) by (apply nearest_mono; lra).
    destruct (Qle_bool (Qpow2 1024) (nearest q1)) eqn:O1;
      destruct (Qle_bool (Qpow2 1024) (nearest q2)) eqn:O2; cbn [fle];
      try exact I.
    + apply Qle_bool_iff in O1.
      assert (F : ~ Qpow2 1024 <= nearest q2).
      { intros C. apply Qle_bool_iff in C. congruence. }
      apply F. lra.
    + rewrite !Qred_correct. lra.
  - rewrite (round_double_zero q1 Z1), (round_double_pos q2 P2).
    pose proof (nearest_nonneg q2 P2).
    destruct (Qle_bool _ (nearest q2)); cbn [fle]; try exact I.
    rewrite !Qred_correct. lra.
  - rewrite (round_double_zero q1 Z1), (round_double_zero q2 Z2). cbn [fle]. lra.
Qed.

(** ** The operations are monotone *)

Lemma fadd_mono x y c : fle x y -> fle (fadd x (Fin c)) (fadd y (Fin c)).
Proof.
  destruct x as [a|[|]|], y as [b|[|]|]; cbn [fle fadd]; intros H;
    try contradiction; try exact I.
  - apply round_double_mono. lra.
  - apply fle_pos_inf, round_double_not_nan.
  - apply fle_neg_inf, round_double_not_nan.
Qed.

Lemma fmul_mono x y c :
  0 < c -> fle x y -> fle (fmul x (Fin c)) (fmul y (Fin c)).
Proof.
  intros Hc.
  assert (Z : Qeq_bool c 0 = false).
  { destruct (Qeq_bool c 0) eqn:E; [|reflexivity].
    apply Qeq_bool_iff in E. lra. }
  pose proof (Qle_bool_above c 0 Hc) as L.
  destruct x as [a|[|]|], y as [b|[|]|]; cbn [fle fmul]; rewrite ?Z, ?L;
    cbn [xorb fle]; intros H; try contradiction; try exact I.
  - apply round_double_mono. apply Qmult_le_compat_r; lra.
  - apply fle_pos_inf, round_double_not_nan.
  - apply fle_neg_inf, round_double_not_nan.
Qed.

Lemma fdiv_mono x y d : 0 < d -> fle x y -> fle (fdiv x d) (fdiv y d).
Proof.
  intros Hd.
  destruct x as [a|[|]|], y as [b|[|]|]; cbn [fle fdiv]; intros H;
    try contradiction; try exact I.
  - apply round_double_mono. apply Qmult_le_compat_r; [exact H|].
    apply Qlt_le_weak, Qinv_lt_0_compat, Hd.
  - apply fle_pos_inf, round_double_not_nan.
  - apply fle_neg_inf, round_double_not_nan.
Qed.

Lemma scaled_F_to_C_mono x y :
  fle x y -> fle (scaled_F_to_C x) (scaled_F_to_C y).
Proof.
  intros H. unfold scaled_F_to_C, fsub. cbn [fneg].
  apply fmul_mono; [reflexivity|]. apply fdiv_mono; [reflexivity|].
  apply fmul_mono; [reflexivity|]. apply fadd_mono, H.
Qed.

Lemma scaled_C_to_F_mono x y :
  fle x y -> fle (scaled_C_to_F x) (scaled_C_to_F y).
Proof.
  intros H. unfold scaled_C_to_F.
  apply fmul_mono; [reflexivity|]. apply fadd_mono.
  apply fdiv_mono; [reflexivity|]. apply fmul_mono; [reflexivity|]. exact H.
Qed.

Lemma toward_zero_mono x y : x <= y -> (toward_zero x <= toward_zero y)%Z.
Proof.
  intros H. unfold toward_zero.
  destruct (Qle_bool 0 x) eqn:X; destruct (Qle_bool 0 y) eqn:Y.
  - now apply Qfloor_resp_le.
  - apply Qle_bool_iff in X.
    assert (F : ~ 0 <= y) by (intros C; apply Qle_bool_iff in C; congruence).
    exfalso. apply F. lra.
  - apply Qle_bool_iff in Y.
    assert (F : ~ 0 <= x) by (intros C; apply Qle_bool_iff in C; congruence).
    assert (C0 : (Qceiling x <= Qceiling 0)%Z) by (apply Qceiling_resp_le; lra).
    assert (F0 : (Qfloor 0 <= Qfloor y)%Z) by (apply Qfloor_resp_le; exact Y).
    change (Qceiling 0) with 0%Z in C0. change (Qfloor 0) with 0%Z in F0. lia.
  - now apply Qceiling_resp_le.
Qed.

Lemma hundredths_mono x y cx cy :
  x <= y ->
  (n <- int_of_float (Fin x) ;; v <- float_of_int n ;; Ok (fdiv v 100))
  = Ok (Fin cx) ->
  (n <- int_of_float (Fin y) ;; v <- float_of_int n ;; Ok (fdiv v 100))
  = Ok (Fin cy) ->
  cx <= cy.
Proof.
  intros H. cbn [int_of_float bind]. rewrite !Qtrunc_toward_zero.
  pose proof (toward_zero_mono x y H) as T. rewrite Zle_Qle in T.
  pose proof (round_double_mono _ _ T) as R.
  unfold float_of_int.
  destruct (round_double (inject_Z (toward_zero x))) as [a|s|];
    destruct (round_double (inject_Z (toward_zero y))) as [b|t|];
    cbn [bind]; try discriminate; cbn [fle] in R; try contradiction.
  intros [= Ex] [= Ey].
  pose proof (fdiv_mono (Fin a) (Fin b) 100 eq_refl R) as D.
  cbn [fdiv] in D. rewrite Ex, Ey in D. exact D.
Qed.

Lemma convert_F_to_C_mono a b ca cb :
  a <= b ->
  convert_F_to_C (Fin a) = Ok (Fin ca) ->
  convert_F_to_C (Fin b) = Ok (Fin cb) ->
  ca <= cb.
Proof.
  intros H. unfold convert_F_to_C.
  pose proof (scaled_F_to_C_mono (Fin a) (Fin b) H) as S.
  destruct (scaled_F_to_C (Fin a)) as [x|s|]; try discriminate;
    destruct (scaled_F_to_C (Fin b)) as [y|t|]; try discriminate.
  cbn [fle] in S. now apply hundredths_mono.
Qed.

Lemma convert_C_to_F_mono a b ca cb :
  a <= b ->
  convert_C_to_F (Fin a) = Ok (Fin ca) ->
  convert_C_to_F (Fin b) = Ok (Fin cb) ->
  ca <= cb.
Proof.
  intros H. unfold convert_C_to_F.
  pose proof (scaled_C_to_F_mono (Fin a) (Fin b) H) as S.
  destruct (scaled_C_to_F (Fin a)) as [x|s|]; try discriminate;
    destruct (scaled_C_to_F (Fin b)) as [y|t|]; try discriminate.
  cbn [fle] in S. now apply hundredths_mono.
Qed.

(** ** The error of a rounding *)

Lemma round_half_even_error m :
  Qabs (inject_Z (round_half_even m) - m) <= 1 # 2.
Proof.
  pose proof (Qfloor_le m) as L. pose proof (Qlt_floor m) as U.
  rewrite inject_Z_plus in U. change (inject_Z 1) with 1 in U.
  apply Qabs_Qle_condition. unfold round_half_even.
  destruct (Qcompare_spec (m - inject_Z (Qfloor m)) (1 # 2)) as [A|A|A].
  - destruct (Z.even (Qfloor m)); rewrite ?inject_Z_plus;
      change (inject_Z 1) with 1; split; lra.
  - split; lra.
  - rewrite inject_Z_plus. change (inject_Z 1) with 1. split; lra.
Qed.

Lemma Qpow2_le_inv a b : Qpow2 a <= Qpow2 b -> (a <= b)%Z.
Proof.
  intros H. destruct (Z_le_gt_dec a b) as [L|G]; [exact L|].
  pose proof (Qpow2_lt b a ltac:(lia)). lra.
Qed.

Lemma Qpow2_half k : Qpow2 (k - 1) == (1 # 2) * Qpow2 k.
Proof.
  replace (k - 1)%Z with (-1 + k)%Z by lia. rewrite Qpow2_add. reflexivity.
Qed.

Lemma nearest_error a k :
  0 < a -> a <= Qpow2 k -> (-1022 <= k)%Z ->
  Qabs (nearest a - a) <= Qpow2 (k - 53).
Proof.
  intros Ha Hk K. destruct (Qlog2_spec a Ha) as [A1 _].
  assert (E : (Qlog2 a <= k)%Z) by (apply Qpow2_le_inv; lra).
  unfold nearest, ulp.
  set (u := Qpow2 (Z.max (Qlog2 a - 52) (-1074))).
  assert (U : 0 < u) by apply Qpow2_pos.
  assert (Uk : u <= Qpow2 (k - 52)) by (apply Qpow2_le; lia).
  pose proof (round_half_even_error (a / u)) as R.
  assert (S : inject_Z (round_half_even (a / u)) * u - a
              == (inject_Z (round_half_even (a / u)) - a / u) * u).
  { field. lra. }
  rewrite S, Qabs_Qmult, (Qabs_pos u) by lra.
  replace (k - 53)%Z with (k - 52 - 1)%Z by lia. rewrite Qpow2_half.
  apply Qle_trans with ((1 # 2) * u).
  - apply Qmult_le_compat_r; [exact R | lra].
  - lra.
Qed.

Lemma Fin_eq a b : Fin a = Fin b -> a = b.
Proof. congruence. Qed.

Lemma round_double_near q k :
  Qabs q <= Qpow2 k -> (-1022 <= k <= 1022)%Z ->
  exists r, round_double q = Fin r /\ Qabs (r - q) <= Qpow2 (k - 53).
Proof.
  intros B K.
  assert (B' : Qabs q < Qpow2 (k + 1)).
  { apply Qle_lt_trans with (1 := B). apply Qpow2_lt. lia. }
  destruct (round_double_bound q (k + 1) B' ltac:(lia)) as (r & E & _).
  exists r. split; [exact E|].
  pose proof (Qpow2_pos (k - 53)) as P.
  destruct (Q_dec q 0) as [[N|Pq]|Z].
  - rewrite (round_double_neg q N) in E.
    destruct (Qle_bool _ _); [discriminate|]. apply Fin_eq in E; subst r.
    rewrite (Qabs_of_neg q N) in B.
    pose proof (nearest_error (- q) k ltac:(lra) B ltac:(lia)) as R.
    rewrite Qred_correct.
    apply Qabs_Qle_condition in R. apply Qabs_Qle_condition. split; lra.
  - rewrite (round_double_pos q Pq) in E.
    destruct (Qle_bool _ _); [discriminate|]. apply Fin_eq in E; subst r.
    rewrite (Qabs_of_pos q Pq) in B.
    pose proof (nearest_error q k Pq B ltac:(lia)) as R.
    rewrite Qred_correct. exact R.
  - rewrite (round_double_zero q Z) in E. apply Fin_eq in E; subst r.
    apply Qabs_Qle_condition. split; lra.
Qed.

Lemma toward_zero_near x : Qabs (inject_Z (toward_zero x) - x) < 1.
Proof.
  unfold toward_zero. apply Qabs_Qlt_condition.
  destruct (Qle_bool 0 x).
  - pose proof (Qfloor_le x) as L. pose proof (Qlt_floor x) as U.
    rewrite inject_Z_plus in U. change (inject_Z 1) with 1 in U.
    set (f := inject_Z (Qfloor x)) in *. clearbody f. split; lra.
  - pose proof (Qle_ceiling x) as L. pose proof (Qceiling_lt x) as U.
    unfold Z.sub in U. rewrite inject_Z_plus in U.
    change (inject_Z (- (1))) with (- (1)) in U.
    set (f := inject_Z (Qceiling x)) in *. clearbody f. split; lra.
Qed.

(** ** The accuracy of the conversions *)

Ltac pow2_literals :=
  repeat match goal with
         | |- context [Qpow2 ?k] =>
             let v := eval vm_compute in (Qpow2 k) in change (Qpow2 k) with v
         | H : context [Qpow2 ?k] |- _ =>
             let v := eval vm_compute in (Qpow2 k) in
             change (Qpow2 k) with v in H
         end.

Ltac rounding_step q k r E B :=
  let H := fresh in
  assert (H : Qabs q <= Qpow2 k);
  [ pow2_literals; apply Qabs_Qle_condition; unfold Qdiv;
    repeat match goal with
           | |- context [/ ?d] =>
               let v := eval vm_compute in (/ d) in change (/ d) with v
           end;
    split; lra
  | destruct (round_double_near q k H ltac:(lia)) as (r & E & B);
    clear H; pow2_literals; apply Qabs_Qle_condition in B;
    unfold Qdiv in B;
    repeat match type of B with
           | context [/ ?d] =>
               let v := eval vm_compute in (/ d) in change (/ d) with v in B
           end ].

Lemma convert_F_to_C_accuracy t :
  Qabs t <= 4096 ->
  exists c, convert_F_to_C (Fin t) = Ok (Fin c)
            /\ Qabs (c - exact_F_to_C t) < (1 # 100) + (1 # 1000000000)
            /\ Qabs c <= 4096.
Proof.
  intros Ht. apply Qabs_Qle_condition in Ht.
  rounding_step (t + - (32)) 13%Z r1 E1 B1.
  rounding_step (r1 * 5) 15%Z r2 E2 B2.
  rounding_step (r2 / 9) 15%Z r3 E3 B3.
  rounding_step (r3 * 100) 18%Z r4 E4 B4.
  assert (E : scaled_F_to_C (Fin t) = Fin r4).
  { unfold scaled_F_to_C, fsub. cbn [fneg fadd]. rewrite E1. cbn [fmul].
    rewrite E2. cbn [fdiv]. rewrite E3. cbn [fmul]. exact E4. }
  destruct (convert_F_to_C_finite t r4 E) as (c & Hc & Hr).
  exists c. split; [exact Hc|].
  pose proof (toward_zero_near r4) as T. apply Qabs_Qlt_condition in T.
  set (n := inject_Z (toward_zero r4)) in *. clearbody n.
  rounding_step (n / 100) 12%Z c' E5 B5.
  rewrite Hr in E5. apply Fin_eq in E5. subst c'.
  unfold exact_F_to_C, Qdiv. change (/ 9) with (1 # 9).
  split; [apply Qabs_Qlt_condition | apply Qabs_Qle_condition]; split; lra.
Qed.

Lemma convert_C_to_F_accuracy t :
  Qabs t <= 4096 ->
  exists f, convert_C_to_F (Fin t) = Ok (Fin f)
            /\ Qabs (f - exact_C_to_F t) < (1 # 100) + (1 # 1000000000)
            /\ Qabs f <= 8192.
Proof.
  intros Ht. apply Qabs_Qle_condition in Ht.
  rounding_step (t * 9) 16%Z r1 E1 B1.
  rounding_step (r1 / 5) 16%Z r2 E2 B2.
  rounding_step (r2 + 32) 16%Z r3 E3 B3.
  rounding_step (r3 * 100) 20%Z r4 E4 B4.
  assert (E : scaled_C_to_F (Fin t) = Fin r4).
  { unfold scaled_C_to_F. cbn [fmul]. rewrite E1. cbn [fdiv]. rewrite E2.
    cbn [fadd]. rewrite E3. cbn [fmul]. exact E4. }
  destruct (convert_C_to_F_finite t r4 E) as (c & Hc & Hr).
  exists c. split; [exact Hc|].
  pose proof (toward_zero_near r4) as T. apply Qabs_Qlt_condition in T.
  set (n := inject_Z (toward_zero r4)) in *. clearbody n.
  rounding_step (n / 100) 14%Z c' E5 B5.
  rewrite Hr in E5. apply Fin_eq in E5. subst c'.
  unfold exact_C_to_F, Qdiv. change (/ 5) with (1 # 5).
  split; [apply Qabs_Qlt_condition | apply Qabs_Qle_condition]; split; lra.
Qed.

(** X1: for an input up to 4096 degrees in magnitude each temperature
    conversion returns a value less than [0.01 + 10^-9] away from the
    exact conversion: the truncation loses less than one hundredth of a
    degree, the roundings of double arithmetic less than a billionth. *)
Theorem X1_conversion_error (t : Q) :
  Qabs t <= 4096 ->
  (exists c, convert_F_to_C (Fin t) = Ok (Fin c)
             /\ Qabs (c - exact_F_to_C t) < (1 # 100) + (1 # 1000000000))
  /\ (exists f, convert_C_to_F (Fin t) = Ok (Fin f)
                /\ Qabs (f - exact_C_to_F t) < (1 # 100) + (1 # 1000000000)).
Proof.
  intros Ht. split.
  - destruct (convert_F_to_C_accuracy t Ht) as (c & Hc & B & _).
    exists c. now split.
  - destruct (convert_C_to_F_accuracy t Ht) as (f & Hf & B & _).
    exists f. now split.
Qed.

(** X2: both temperature conversions are monotone in double arithmetic:
    when both inputs convert, a warmer input never gives a colder
    output; and inputs up to [2^1000] in magnitude do convert. *)
Theorem X2_conversions_monotone (t1 t2 : Q) :
  t1 <= t2 ->
  (forall c1 c2,
     convert_F_to_C (Fin t1) = Ok (Fin c1) ->
     convert_F_to_C (Fin t2) = Ok (Fin c2) -> c1 <= c2)
  /\ (forall f1 f2,
     convert_C_to_F (Fin t1) = Ok (Fin f1) ->
     convert_C_to_F (Fin t2) = Ok (Fin f2) -> f1 <= f2)
  /\ (Qabs t1 <= Qpow2 1000 -> Qabs t2 <= Qpow2 1000 ->
      (exists c1 c2, convert_F_to_C (Fin t1) = Ok (Fin c1)
                     /\ convert_F_to_C (Fin t2) = Ok (Fin c2) /\ c1 <= c2)
      /\ (exists f1 f2, convert_C_to_F (Fin t1) = Ok (Fin f1)
                        /\ convert_C_to_F (Fin t2) = Ok (Fin f2) /\ f1 <= f2)).
Proof.
  intros H.
  split; [intros c1 c2; now apply convert_F_to_C_mono|].
  split; [intros f1 f2; now apply convert_C_to_F_mono|].
  intros B1 B2. split.
  - destruct (convert_F_to_C_in_range t1 B1) as [c1 E1].
    destruct (convert_F_to_C_in_range t2 B2) as [c2 E2].
    exists c1, c2. split; [exact E1|]. split; [exact E2|].
    exact (convert_F_to_C_mono t1 t2 c1 c2 H E1 E2).
  - destruct (convert_C_to_F_in_range t1 B1) as [f1 E1].
    destruct (convert_C_to_F_in_range t2 B2) as [f2 E2].
    exists f1, f2. split; [exact E1|]. split; [exact E2|].
    exact (convert_C_to_F_mono t1 t2 f1 f2 H E1 E2).
Qed.

(** X3: for a temperature up to 1024 degrees in magnitude, converting
    Fahrenheit to Celsius and back returns a value within 0.03 degrees
    Fahrenheit of the input; converting Celsius to Fahrenheit and back
    returns a value within 0.02 degrees Celsius. *)
Theorem X3_conversion_round_trips (t : Q) :
  Qabs t <= 1024 ->
  (exists c f, convert_F_to_C (Fin t) = Ok (Fin c)
               /\ convert_C_to_F (Fin c) = Ok (Fin f)
               /\ Qabs (f - t) < 3 / 100)
  /\ (exists f c, convert_C_to_F (Fin t) = Ok (Fin f)
                  /\ convert_F_to_C (Fin f) = Ok (Fin c)
                  /\ Qabs (c - t) < 2 / 100).
Proof.
  intros Ht.
  assert (Ht' : Qabs t <= 4096).
  { apply Qle_trans with (1 := Ht). discriminate. }
  apply Qabs_Qle_condition in Ht.
  split.
  - destruct (convert_F_to_C_accuracy t Ht') as (c & Hc & B & Bc).
    destruct (convert_C_to_F_accuracy c Bc) as (f & Hf & B' & _).
    exists c, f. split; [exact Hc|]. split; [exact Hf|].
    apply Qabs_Qlt_condition in B. apply Qabs_Qlt_condition in B'.
    unfold exact_F_to_C, exact_C_to_F, Qdiv in *.
    change (/ 9) with (1 # 9) in *. change (/ 5) with (1 # 5) in *.
    change (/ 100) with (1 # 100).
    apply Qabs_Qlt_condition. split; lra.
  - destruct (convert_C_to_F_accuracy t Ht') as (f & Hf & B & _).
    apply Qabs_Qlt_condition in B.
    unfold exact_C_to_F, Qdiv in B. change (/ 5) with (1 # 5) in B.
    assert (Bf : Qabs f <= 4096) by (apply Qabs_Qle_condition; split; lra).
    destruct (convert_F_to_C_accuracy f Bf) as (c & Hc & B' & _).
    exists f, c. split; [exact Hf|]. split; [exact Hc|].
    apply Qabs_Qlt_condition in B'.
    unfold exact_F_to_C, Qdiv in *.
    change (/ 9) with (1 # 9) in *. change (/ 100) with (1 # 100).
    apply Qabs_Qlt_condition. split; lra.
Qed.

Lemma speed_mps_to_miph_cases speed :
  (exists x, speed_mps_to_miph speed = Ok x)
  \/ (exists z, speed = VInt z
                /\ float_of_int z = Raise int_too_large
                /\ speed_mps_to_miph speed = Raise int_too_large).
Proof.
  unfold speed_mps_to_miph.
  destruct (negb (truthy speed)); [left; eexists; reflexivity|].
  destruct speed as [| b | z | x | s | l | m]; cbn [bind];
    try (left; eexists; reflexivity).
  - left. destruct b; eexists; reflexivity.
  - destruct (float_of_int z) as [x|e] eqn:E; cbn [bind].
    + left. eexists; reflexivity.
    + pose proof (float_of_int_error z e E) as ->.
      right. exists z. now repeat split.
  - left. destruct (float_of_str s) as [x|e] eqn:E; cbn [bind try_except].
    + eexists; reflexivity.
    + rewrite (float_of_str_error s e E). cbn [bind]. eexists; reflexivity.
Qed.

(** X4: [speed_mps_to_miph] returns for every input but an int too
    large for a double, for which it raises [OverflowError]; no int
    below [2^1023] in magnitude is too large.  A falsy input and a
    string that is not a number give 0.0; a number or a numeric string
    gives the speed multiplied by 2.237 in double arithmetic, an
    infinity when the product overflows; infinities and nan pass
    through. *)
Theorem X4_speed_mps_to_miph_tolerant :
  (forall speed : value,
     (exists x, speed_mps_to_miph speed = Ok x)
     \/ (exists z, speed = VInt z
                   /\ float_of_int z = Raise int_too_large
                   /\ speed_mps_to_miph speed = Raise int_too_large))
  /\ (forall speed : value,
        truthy speed = false -> speed_mps_to_miph speed = Ok (Fin 0))
  /\ (forall (s : string) (e : exn),
        float_of_str s = Raise e -> speed_mps_to_miph (VStr s) = Ok (Fin 0))
  /\ (forall (z : Z) (x : pyfloat),
        z <> 0%Z -> float_of_int z = Ok x ->
        speed_mps_to_miph (VInt z) = Ok (fmul x (Fin mph_per_mps)))
  /\ (forall z : Z,
        (Z.abs z < 2 ^ 1023)%Z ->
        exists x, speed_mps_to_miph (VInt z) = Ok x)
  /\ (forall x : pyfloat,
        truthy (VFloat x) = true ->
        speed_mps_to_miph (VFloat x) = Ok (fmul x (Fin mph_per_mps)))
  /\ (forall (s : string) (x : pyfloat),
        s <> "" -> float_of_str s = Ok x ->
        speed_mps_to_miph (VStr s) = Ok (fmul x (Fin mph_per_mps)))
  /\ (forall negative : bool,
        speed_mps_to_miph (VFloat (Inf negative)) = Ok (Inf negative))
  /\ speed_mps_to_miph (VFloat NaN) = Ok NaN.
Proof.
  split; [apply speed_mps_to_miph_cases|].
  split; [intros speed H; unfold speed_mps_to_miph; now rewrite H|].
  split.
  { intros s e E. unfold speed_mps_to_miph.
    destruct (negb (truthy (VStr s))); [reflexivity|].
    rewrite E. cbn [bind try_except]. rewrite (float_of_str_error s e E).
    reflexivity. }
  split.
  { intros z x Hz E. unfold speed_mps_to_miph. cbn [truthy].
    destruct (Z.eqb_spec z 0); [congruence|]. cbn [negb bind].
    now rewrite E. }
  split.
  { intros z Hz. unfold speed_mps_to_miph. cbn [truthy].
    destruct (Z.eqb_spec z 0); [eexists; reflexivity|]. cbn [negb bind].
    destruct (float_of_int_in_range z Hz) as (r & E & _). rewrite E.
    eexists; reflexivity. }
  split.
  { intros x H. unfold speed_mps_to_miph. now rewrite H. }
  split.
  { intros s x Hs E. unfold speed_mps_to_miph. cbn [truthy].
    destruct (String.eqb_spec s ""); [congruence|].
    cbn [negb]. rewrite E. reflexivity. }
  split; [intros negative; destruct negative; reflexivity | reflexivity].
Qed.

Lemma X1_conversion_error_witness :
  exists c, convert_F_to_C (Fin 50) = Ok (Fin c)
            /\ Qabs (c - exact_F_to_C 50) < (1 # 100) + (1 # 1000000000).
Proof.
  apply (proj1 (X1_conversion_error 50 ltac:(discriminate))).
Defined.

Lemma X2_conversions_monotone_witness :
  exists c1 c2, convert_F_to_C (Fin 31) = Ok (Fin c1)
                /\ convert_F_to_C (Fin 33) = Ok (Fin c2) /\ c1 <= c2.
Proof.
  apply (proj2 (proj2 (X2_conversions_monotone 31 33 ltac:(discriminate))));
    vm_compute; discriminate.
Defined.

Lemma X3_conversion_round_trips_witness :
  exists c f, convert_F_to_C (Fin 50) = Ok (Fin c)
              /\ convert_C_to_F (Fin c) = Ok (Fin f)
              /\ Qabs (f - 50) < 3 / 100.
Proof.
  apply (proj1 (X3_conversion_round_trips 50 ltac:(discriminate))).
Defined.

Lemma X4_speed_mps_to_miph_tolerant_witness :
  speed_mps_to_miph (VInt 10) = Ok (fmul (Fin 10) (Fin mph_per_mps))
  /\ speed_mps_to_miph (VStr "") = Ok (Fin 0).
Proof.
  destruct X4_speed_mps_to_miph_tolerant as (_ & H2 & _ & H4 & _).
  split.
  - apply H4; [discriminate | apply float_of_int_small; vm_compute; discriminate].
  - apply H2. reflexivity.
Defined.

(* ===================================================================== *)
(** * Further properties: the time codec *)
(* ===================================================================== *)

Section MoreTimeCodec.

Variable fromisoformat : string -> option Q.

Lemma contains_step needle a hay :
  contains needle (String a hay)
  = starts_with needle (String a hay) || contains needle hay.
Proof. reflexivity. Qed.

Lemma contains_PT_no_slash s : has_char "/" s = false -> contains "/PT" s = false.
Proof.
  induction s as [|a s IH]; [reflexivity|].
  intros H. pose proof H as H'. cbn [has_char] in H.
  apply orb_false_iff in H as [Ha Hs].
  rewrite contains_step, (IH Hs), orb_false_r.
  now apply (starts_with_slash_absent "PT").
Qed.

Lemma split_first_no_slash s : has_char "/" s = false -> split_first "/" s = s.
Proof.
  induction s as [|a s IH]; [reflexivity|].
  cbn [has_char split_first]. intros H.
  apply orb_false_iff in H as [Ha Hs]. now rewrite Ha, (IH Hs).
Qed.

(** What the function does when the pattern does not match. *)
Lemma unmatched_interval s timezone :
  re_match_PT s = None ->
  iso_to_float_time_and_delta fromisoformat (VStr s) timezone
  = (t <- iso_timestamp fromisoformat (split_first "/" s) ;; Ok (t, 0)).
Proof.
  intros H. unfold iso_to_float_time_and_delta. rewrite H.
  destruct (iso_timestamp fromisoformat (split_first "/" s)); reflexivity.
Qed.

Lemma contains_PT_designator t c rest :
  has_char "/" t = false -> has_char "/" (String c rest) = false ->
  Ascii.eqb c "T" = false ->
  contains "/PT" (t ++ String "/" (String "P" (String c rest))) = false.
Proof.
  intros Ht Hr Hc. induction t as [|a t IH].
  - change ("" ++ String "/" (String "P" (String c rest)))
      with (String "/" (String "P" (String c rest))).
    rewrite contains_step.
    rewrite (contains_PT_no_slash (String "P" (String c rest))).
    + rewrite orb_false_r.
      change (starts_with "/PT" (String "/" (String "P" (String c rest))))
        with (Ascii.eqb "/" "/" && (Ascii.eqb "P" "P" && (Ascii.eqb "T" c && true))).
      rewrite (Ascii.eqb_sym "T" c), Hc. reflexivity.
    + change (has_char "/" (String "P" (String c rest)))
        with (Ascii.eqb "P" "/" || has_char "/" (String c rest)).
      rewrite Hr. reflexivity.
  - cbn [has_char] in Ht. apply orb_false_iff in Ht as [Ha Ht'].
    change (String a t ++ String "/" (String "P" (String c rest)))
      with (String a (t ++ String "/" (String "P" (String c rest)))).
    rewrite contains_step, (IH Ht'), orb_false_r.
    change (starts_with "/PT" (String a (t ++ String "/" (String "P" (String c rest)))))
      with (Ascii.eqb "/" a && starts_with "PT" (t ++ String "/" (String "P" (String c rest)))).
    now rewrite (Ascii.eqb_sym "/" a), Ha.
Qed.

(** X5: an interval whose duration designator does not start with [PT]
    (for instance [P1DT6H] or [P7D], durations of a day or more) decodes
    to the epoch of its start paired with duration 0: the duration is
    discarded without error. *)
Theorem X5_day_durations_are_discarded (t rest : string) (c : ascii) (e : Q)
    (timezone : value) :
  has_char "/" t = false -> fromisoformat t = Some e ->
  Ascii.eqb c "T" = false -> has_char "/" (String c rest) = false ->
  iso_to_float_time_and_delta fromisoformat
    (VStr (t ++ "/P" ++ String c rest)) timezone
  = Ok (e, 0).
Proof.
  intros Ht He Hc Hr.
  change (t ++ "/P" ++ String c rest)
    with (t ++ String "/" (String "P" (String c rest))).
  rewrite unmatched_interval.
  - rewrite (split_first_app t _ Ht). unfold iso_timestamp. now rewrite He.
  - apply re_match_PT_absent. now apply contains_PT_designator.
Qed.

(** X6: [iso_to_float_time] answers 0.0 for an input that is empty or
    None, without reading it, and raises [TypeError] for any other
    input that is not a string; on a non-empty string without a slash it
    agrees with [iso_to_float_time_and_delta], which adds duration 0:
    both return the same epoch or raise the same error. *)
Theorem X6_time_decoders_agree :
  (forall v timezone : value,
     truthy v = false -> iso_to_float_time fromisoformat v timezone = Ok 0)
  /\ (forall v timezone : value,
     truthy v = true -> (forall s, v <> VStr s) ->
     iso_to_float_time fromisoformat v timezone
     = Raise (TypeError "fromisoformat"))
  /\ (forall (s : string) (tz tz' : value),
     s <> "" -> has_char "/" s = false ->
     iso_to_float_time_and_delta fromisoformat (VStr s) tz
     = (t <- iso_to_float_time fromisoformat (VStr s) tz' ;; Ok (t, 0))).
Proof.
  repeat split.
  - intros v timezone H. unfold iso_to_float_time. now rewrite H.
  - intros v timezone H Hs. unfold iso_to_float_time. rewrite H. cbn [negb].
    destruct v; try reflexivity. now destruct (Hs s).
  - intros s tz tz' Hne Hs.
    rewrite unmatched_interval
      by (apply re_match_PT_absent; now apply contains_PT_no_slash).
    rewrite (split_first_no_slash s Hs).
    unfold iso_to_float_time. cbn [truthy].
    destruct (String.eqb_spec s ""); [congruence | reflexivity].
Qed.

End MoreTimeCodec.

Lemma X5_day_durations_are_discarded_witness :
  iso_to_float_time_and_delta sample_fromisoformat
    (VStr ("2024-01-01T00:00:00+00:00" ++ "/P" ++ String "1" "DT6H")) VNone
  = Ok (1704067200, 0).
Proof.
  apply (X5_day_durations_are_discarded sample_fromisoformat
           "2024-01-01T00:00:00+00:00" "DT6H" "1"%char 1704067200 VNone);
    reflexivity.
Defined.

Lemma X6_time_decoders_agree_witness :
  iso_to_float_time sample_fromisoformat VNone VNone = Ok 0
  /\ iso_to_float_time_and_delta sample_fromisoformat
       (VStr "2024-01-01T00:00:00+00:00") (VStr "UTC")
     = (t <- iso_to_float_time sample_fromisoformat
               (VStr "2024-01-01T00:00:00+00:00") VNone ;; Ok (t, 0)).
Proof.
  destruct (X6_time_decoders_agree sample_fromisoformat) as (H1 & _ & H3).
  split.
  - apply H1. reflexivity.
  - apply H3; [discriminate | reflexivity].
Defined.

(* ===================================================================== *)
(** * Further properties: the grid scan *)
(* ===================================================================== *)

Section MoreGrid.

Variable fromisoformat : string -> option Q.
Variable now : Q.

Lemma find_loop_stop entry rest when r s d v :
  grid_entry_decodes fromisoformat entry (s, d, v) ->
  when <= s \/ when < s + d ->
  grid_forecast.find_loop fromisoformat (entry :: rest) when r = Ok r.
Proof.
  intros (time_str & Ht & Hd & _) H. cbn [fst snd] in Hd.
  cbn [grid_forecast.find_loop]. rewrite Ht. cbn [bind]. rewrite Hd. cbn [bind].
  destruct H as [H|H].
  - now rewrite (Qle_bool_true when s H).
  - rewrite (Qle_bool_false (s + d) when H). cbn [negb]. now rewrite orb_true_r.
Qed.

Lemma find_loop_next entry rest when r s d v :
  grid_entry_decodes fromisoformat entry (s, d, v) ->
  s < when -> s + d <= when ->
  grid_forecast.find_loop fromisoformat (entry :: rest) when r
  = grid_forecast.find_loop fromisoformat rest when v.
Proof.
  intros (time_str & Ht & Hd & Hv) H1 H2. cbn [fst snd] in Hd, Hv.
  cbn [grid_forecast.find_loop]. rewrite Ht. cbn [bind]. rewrite Hd. cbn [bind].
  rewrite (Qle_bool_false when s H1), (Qle_bool_true (s + d) when H2).
  cbn [negb orb]. rewrite Hv. reflexivity.
Qed.

Lemma last_cons {A} (a : A) l d : last (a :: l) d = last l a.
Proof.
  revert a d. induction l as [|b l IH]; intros a d; [reflexivity|].
  change (last (a :: b :: l) d) with (last (b :: l) d).
  now rewrite (IH b d), (IH b a).
Qed.

Lemma chronological_tail e series : chronological (e :: series) -> chronological series.
Proof. destruct e as [[s d] v]. now intros (_ & _ & H). Qed.

Lemma chronological_starts before s d v sk dk vk :
  chronological ((s, d, v) :: before ++ [(sk, dk, vk)]) ->
  0 < d /\ s + d <= sk.
Proof.
  revert s d v. induction before as [|[[s1 d1] v1] before IH]; intros s d v.
  - cbn. intros (H1 & H2 & _). now split.
  - intros (H1 & H2 & H3). split; [exact H1|].
    change (((s1, d1, v1) :: before) ++ [(sk, dk, vk)])%list
      with ((s1, d1, v1) :: before ++ [(sk, dk, vk)])%list in H2, H3.
    cbn beta iota in H2.
    destruct (IH s1 d1 v1 H3) as [P1 P2]. lra.
Qed.

Lemma find_loop_chronological when entry vafter sk dk vk :
  grid_entry_decodes fromisoformat entry (sk, dk, vk) ->
  sk <= when -> when < sk + dk ->
  forall vbefore before r,
    Forall2 (grid_entry_decodes fromisoformat) vbefore before ->
    chronological (before ++ [(sk, dk, vk)]) ->
    grid_forecast.find_loop fromisoformat (vbefore ++ entry :: vafter) when r
    = Ok (last (map snd before) r).
Proof.
  intros He H1 H2 vbefore before r F. revert r.
  induction F as [|x [[s d] v] xs ys Hx F IH]; intros r C.
  - cbn [app map last]. apply (find_loop_stop entry vafter when r sk dk vk He).
    now right.
  - change ((x :: xs) ++ entry :: vafter)%list
      with (x :: xs ++ entry :: vafter)%list.
    change (((s, d, v) :: ys) ++ [(sk, dk, vk)])%list
      with ((s, d, v) :: ys ++ [(sk, dk, vk)])%list in C.
    destruct (chronological_starts ys s d v sk dk vk C) as [P1 P2].
    rewrite (find_loop_next x _ when r s d v Hx) by lra.
    rewrite (IH v (chronological_tail _ _ C)).
    change (map snd ((s, d, v) :: ys)) with (v :: map snd ys).
    now rewrite last_cons.
Qed.

Lemma find_loop_past when :
  forall values series r,
    Forall2 (grid_entry_decodes fromisoformat) values series ->
    Forall (fun e => fst (fst e) < when /\ fst (fst e) + snd (fst e) <= when)
           series ->
    grid_forecast.find_loop fromisoformat values when r
    = Ok (last (map snd series) r).
Proof.
  intros values series r F. revert r.
  induction F as [|x [[s d] v] xs ys Hx F IH]; intros r P; [reflexivity|].
  inversion P as [|? ? [P1 P2] P']; subst. cbn [fst snd] in P1, P2.
  rewrite (find_loop_next x xs when r s d v Hx P1 P2), (IH v P').
  change (map snd ((s, d, v) :: ys)) with (v :: map snd ys).
  now rewrite last_cons.
Qed.

Lemma find_in_gridpoints_scan self what values (when : Q) :
  grid_values self what = Ok (VList values) ->
  ~ when == 0 ->
  grid_forecast._find_in_gridpoints fromisoformat now self what (Some when)
  = grid_forecast.find_loop fromisoformat values when VNone.
Proof.
  intros G W. unfold grid_forecast._find_in_gridpoints.
  rewrite (Qeq_bool_false when 0 W).
  unfold grid_values in G.
  destruct (get self grid_forecast.META_PROPERTIES) as [props|]; [|discriminate].
  cbn [bind] in *.
  destruct (get props what) as [quantity|]; [|discriminate].
  cbn [bind] in *. rewrite G. reflexivity.
Qed.

(** X7: for a series in time order with intervals of positive length,
    a query instant inside an interval gets the value of the last
    interval before it, and None when it is the first: never the value
    of the interval that holds the instant.  The entries after that
    interval are not read, whatever they are. *)
Theorem X7_scan_returns_the_previous_value (self : value) (what : string)
    (vbefore vafter : list value) (entry : value)
    (before : list (Q * Q * value)) (s d : Q) (v : value) (when : Q) :
  grid_values self what = Ok (VList (vbefore ++ entry :: vafter)) ->
  Forall2 (grid_entry_decodes fromisoformat) vbefore before ->
  grid_entry_decodes fromisoformat entry (s, d, v) ->
  chronological (before ++ [(s, d, v)]) ->
  ~ when == 0 -> s <= when -> when < s + d ->
  grid_forecast._find_in_gridpoints fromisoformat now self what (Some when)
  = Ok (last (map snd before) VNone).
Proof.
  intros G F E C W H1 H2.
  rewrite (find_in_gridpoints_scan self what _ when G W).
  exact (find_loop_chronological when entry vafter s d v E H1 H2
           vbefore before VNone F C).
Qed.

(** X8: a query instant at or after the end of every interval of the
    series gets the value of the last entry, however old it is; a query
    instant not after the start of the first entry gets None. *)
Theorem X8_scan_outside_the_series (self : value) (what : string)
    (values : list value) (series : list (Q * Q * value)) (when : Q) :
  grid_values self what = Ok (VList values) ->
  Forall2 (grid_entry_decodes fromisoformat) values series ->
  ~ when == 0 ->
  (Forall (fun e => fst (fst e) < when /\ fst (fst e) + snd (fst e) <= when)
          series ->
   grid_forecast._find_in_gridpoints fromisoformat now self what (Some when)
   = Ok (last (map snd series) VNone))
  /\ ((exists e rest, series = e :: rest /\ when <= fst (fst e)) ->
      grid_forecast._find_in_gridpoints fromisoformat now self what (Some when)
      = Ok VNone).
Proof.
  intros G F W.
  rewrite (find_in_gridpoints_scan self what _ when G W). split.
  - intros P. now apply find_loop_past.
  - intros ([[s d] v] & rest & -> & H). cbn [fst] in H.
    inversion F as [|x ? xs ? Hx F']; subst.
    apply (find_loop_stop x xs when VNone s d v Hx). now left.
Qed.

(** X9: the lookup is unguarded.  For a query instant other than 0, a
    payload without [properties], or whose properties lack the quantity,
    raises [AttributeError]; a quantity without [values] raises
    [TypeError]; an entry without [validTime] raises [TypeError]; an
    empty series gives None. *)
Theorem X9_scan_edge_cases (what : string) (when : Q) :
  ~ when == 0 ->
  (forall m,
     item m "properties" = VNone ->
     grid_forecast._find_in_gridpoints fromisoformat now (VDict m) what
       (Some when)
     = Raise (AttributeError "get"))
  /\ (forall pm,
     item pm what = VNone ->
     grid_forecast._find_in_gridpoints fromisoformat now
       (VDict [("properties", VDict pm)]) what (Some when)
     = Raise (AttributeError "get"))
  /\ (forall qm,
     item qm "values" = VNone ->
     grid_forecast._find_in_gridpoints fromisoformat now
       (VDict [("properties", VDict [(what, VDict qm)])]) what (Some when)
     = Raise (TypeError "iter"))
  /\ (forall em rest,
     item em "validTime" = VNone ->
     grid_forecast._find_in_gridpoints fromisoformat now
       (grid_of what (VList (VDict em :: rest))) what (Some when)
     = Raise (TypeError "re.match"))
  /\ grid_forecast._find_in_gridpoints fromisoformat now
       (grid_of what (VList [])) what (Some when)
     = Ok VNone.
Proof.
  intros W.
  assert (L : forall k v m, item ((k, v) :: m) k = v).
  { intros k v m. unfold item. cbn [dict_lookup]. now rewrite String.eqb_refl. }
  unfold grid_forecast._find_in_gridpoints, grid_of,
    grid_forecast.META_PROPERTIES, grid_forecast.META_VALUES.
  rewrite (Qeq_bool_false when 0 W).
  split; [|split; [|split; [|split]]].
  - intros m H. cbn [get bind]. rewrite H. reflexivity.
  - intros pm H. cbn [get bind]. rewrite L. cbn [get bind].
    rewrite H. reflexivity.
  - intros qm H. cbn [get bind]. rewrite L. cbn [get bind]. rewrite L.
    cbn [get bind]. rewrite H. reflexivity.
  - intros em rest H. cbn [get bind]. rewrite !L. cbn [get bind].
    rewrite L. cbn [get bind]. rewrite L.
    cbn [iter bind grid_forecast.find_loop get].
    unfold grid_forecast.META_TIME. rewrite H. reflexivity.
  - cbn [get bind]. rewrite !L. cbn [get bind]. rewrite L. cbn [get bind].
    rewrite L. reflexivity.
Qed.

End MoreGrid.

Lemma sample_grid_entry_decodes (s : string) (t : Q) (v : value) :
  sample_fromisoformat s = Some t -> no_newline s = true -> s <> "" ->
  grid_entry_decodes sample_fromisoformat (grid_entry (s ++ "/PT1H") v)
    (t, 3600, v).
Proof.
  intros E N H. exists (VStr (s ++ "/PT1H")). repeat split.
  cbn [fst snd].
  apply (one_hour_interval sample_fromisoformat s t _ H N E).
Qed.

Lemma X7_scan_returns_the_previous_value_witness :
  grid_forecast._find_in_gridpoints sample_fromisoformat 0
    (two_hour_grid "2024-01-01T00:00:00+00:00" "2024-01-01T01:00:00+00:00")
    "temperature" (Some (1704070800 + 60))
  = Ok (VStr "5").
Proof.
  apply (X7_scan_returns_the_previous_value sample_fromisoformat 0
           (two_hour_grid "2024-01-01T00:00:00+00:00"
              "2024-01-01T01:00:00+00:00")
           "temperature"
           [grid_entry ("2024-01-01T00:00:00+00:00" ++ "/PT1H") (VStr "5")]
           []
           (grid_entry ("2024-01-01T01:00:00+00:00" ++ "/PT1H") (VStr "7"))
           [(1704067200, 3600, VStr "5")]
           1704070800 3600 (VStr "7") (1704070800 + 60)).
  - reflexivity.
  - constructor; [|constructor].
    apply sample_grid_entry_decodes; try reflexivity. discriminate.
  - apply sample_grid_entry_decodes; try reflexivity. discriminate.
  - cbn. repeat split; vm_compute; discriminate.
  - vm_compute. discriminate.
  - vm_compute. discriminate.
  - reflexivity.
Defined.

Lemma X8_scan_outside_the_series_witness :
  grid_forecast._find_in_gridpoints sample_fromisoformat 0
    (two_hour_grid "2024-01-01T00:00:00+00:00" "2024-01-01T01:00:00+00:00")
    "temperature" (Some (1704070800 + 7200))
  = Ok (VStr "7").
Proof.
  refine (proj1 (X8_scan_outside_the_series sample_fromisoformat 0
           (two_hour_grid "2024-01-01T00:00:00+00:00"
              "2024-01-01T01:00:00+00:00")
           "temperature"
           [grid_entry ("2024-01-01T00:00:00+00:00" ++ "/PT1H") (VStr "5");
            grid_entry ("2024-01-01T01:00:00+00:00" ++ "/PT1H") (VStr "7")]
           [(1704067200, 3600, VStr "5"); (1704070800, 3600, VStr "7")]
           (1704070800 + 7200) _ _ _) _).
  - reflexivity.
  - constructor; [|constructor; [|constructor]];
      apply sample_grid_entry_decodes; try reflexivity; discriminate.
  - vm_compute. discriminate.
  - repeat constructor; vm_compute; discriminate.
Defined.

Lemma X9_scan_edge_cases_witness :
  grid_forecast._find_in_gridpoints sample_fromisoformat 0
    (VDict [("geometry", VNone)]) "temperature" (Some 1704067200)
  = Raise (AttributeError "get").
Proof.
  apply (proj1 (X9_scan_edge_cases sample_fromisoformat 0 "temperature"
                  1704067200 ltac:(discriminate))).
  reflexivity.
Defined.

(* ===================================================================== *)
(** * Further properties: the period parser *)
(* ===================================================================== *)

Section MoreParser.

Variable fromisoformat : string -> option Q.

Lemma payload_periods_truthy payload periods :
  payload_periods payload = Ok periods -> truthy payload = true.
Proof.
  destruct payload as [| | | | | | m]; try discriminate.
  destruct m as [|kv m]; [discriminate | reflexivity].
Qed.

(** What the constructor leaves in [_data]. *)
Lemma new_data payload forecast_at :
  daily_forecast.get_forecast
    (daily_forecast.new fromisoformat payload forecast_at)
  = if truthy payload
    then match payload_periods payload with
         | Ok l => daily_forecast.parse_loop fromisoformat forecast_at l []
         | Raise _ => []
         end
    else [].
Proof.
  unfold daily_forecast.get_forecast, daily_forecast.new, daily_forecast._parse.
  cbn [daily_forecast._forecast daily_forecast._forecast_at
       daily_forecast._data].
  destruct (truthy payload); reflexivity.
Qed.

Lemma new_data_periods payload periods forecast_at :
  payload_periods payload = Ok periods ->
  daily_forecast.get_forecast
    (daily_forecast.new fromisoformat payload forecast_at)
  = daily_forecast.parse_loop fromisoformat forecast_at periods [].
Proof.
  intros H.
  now rewrite new_data, H, (payload_periods_truthy payload periods H).
Qed.

Lemma parse_loop_prefix forecast_at bad rest e :
  daily_forecast._parse_period fromisoformat forecast_at bad = Raise e ->
  forall good records data,
    Forall2 (fun p r => daily_forecast._parse_period fromisoformat
                          forecast_at p = Ok r) good records ->
    daily_forecast.parse_loop fromisoformat forecast_at
      (good ++ bad :: rest) data
    = (data ++ records)%list.
Proof.
  intros Hbad good records data F. revert data.
  induction F as [|p r good records Hp F IH]; intros data.
  - cbn [app daily_forecast.parse_loop]. rewrite Hbad.
    now rewrite List.app_nil_r.
  - change ((p :: good) ++ bad :: rest)%list
      with (p :: good ++ bad :: rest)%list.
    cbn [daily_forecast.parse_loop]. rewrite Hp, IH, <- List.app_assoc.
    reflexivity.
Qed.

Lemma parse_loop_general forecast_at periods : forall data,
  exists k records,
    (k <= List.length periods)%nat
    /\ daily_forecast.parse_loop fromisoformat forecast_at periods data
       = (data ++ records)%list
    /\ Forall2 (fun p r => daily_forecast._parse_period fromisoformat
                             forecast_at p = Ok r) (firstn k periods) records.
Proof.
  induction periods as [|p periods IH]; intros data.
  - exists 0%nat, [].
    split; [cbn [List.length]; lia|].
    split; [cbn [daily_forecast.parse_loop]; now rewrite List.app_nil_r|].
    constructor.
  - cbn [daily_forecast.parse_loop].
    destruct (daily_forecast._parse_period fromisoformat forecast_at p)
      as [r|e] eqn:E.
    + destruct (IH (data ++ [r])%list) as (k & records & Hk & Hl & F).
      exists (S k), (r :: records). split; [|split].
      * cbn [List.length]. lia.
      * rewrite Hl, <- List.app_assoc. reflexivity.
      * cbn [firstn]. now constructor.
    + exists 0%nat, []. split; [|split].
      * cbn [List.length]. lia.
      * now rewrite List.app_nil_r.
      * constructor.
Qed.

Lemma parse_temperature_typed p v :
  daily_forecast.parse_temperature p = Ok v -> none_or_float v.
Proof.
  unfold daily_forecast.parse_temperature.
  match goal with
  | |- try_except ?m _ _ = _ -> _ => destruct m as [x|e] eqn:E
  end; cbn [try_except].
  - intros [= <-]. right.
    repeat match type of E with
           | bind ?m _ = _ => destruct m; cbn [bind] in E; [|discriminate]
           end.
    injection E as <-. eexists; reflexivity.
  - destruct (is_ValueError_or_TypeError e); [|discriminate].
    intros [= <-]. now left.
Qed.

Lemma parse_wind_speed_typed p v :
  daily_forecast.parse_wind_speed p = Ok v -> none_or_float v.
Proof.
  unfold daily_forecast.parse_wind_speed.
  match goal with
  | |- try_except ?m _ _ = _ -> _ => destruct m as [x|e] eqn:E
  end; cbn [try_except].
  - intros [= <-]. right.
    repeat match type of E with
           | bind ?m _ = _ => destruct m; cbn [bind] in E; [|discriminate]
           end.
    injection E as <-. eexists; reflexivity.
  - destruct (is_ValueError_or_TypeError e); [|discriminate].
    intros [= <-]. now left.
Qed.

Lemma parse_precipitation_typed p v :
  daily_forecast.parse_precipitation_probability p = Ok v -> exists n, v = VInt n.
Proof.
  unfold daily_forecast.parse_precipitation_probability.
  match goal with
  | |- try_except ?m _ _ = _ -> _ => destruct m as [x|e] eqn:E
  end; cbn [try_except].
  - intros [= <-].
    repeat match type of E with
           | bind ?m _ = _ => destruct m; cbn [bind] in E; [|discriminate]
           end.
    injection E as <-. eexists; reflexivity.
  - destruct (is_ValueError_or_TypeError e); [|discriminate].
    intros [= <-]. eexists; reflexivity.
Qed.

Lemma parse_period_typed forecast_at p r :
  daily_forecast._parse_period fromisoformat forecast_at p = Ok r ->
  record_typed r.
Proof.
  unfold daily_forecast._parse_period.
  destruct (get p "startTime"); cbn [bind]; [|discriminate].
  destruct (get p "number"); cbn [bind]; [|discriminate].
  destruct (get p "isDaytime"); cbn [bind]; [|discriminate].
  destruct (iso_to_float_time fromisoformat _ _); cbn [bind]; [|discriminate].
  destruct (get p "endTime"); cbn [bind]; [|discriminate].
  destruct (get p "name"); cbn [bind]; [|discriminate].
  destruct (get p "shortForecast"); cbn [bind]; [|discriminate].
  destruct (daily_forecast.parse_temperature p) as [t|] eqn:T;
    cbn [bind]; [|discriminate].
  destruct (daily_forecast.parse_precipitation_probability p) as [pr|] eqn:P;
    cbn [bind]; [|discriminate].
  destruct (daily_forecast.parse_wind_speed p) as [w|] eqn:W;
    cbn [bind]; [|discriminate].
  destruct (get p "windDirection"); cbn [bind]; [|discriminate].
  destruct (get p "icon"); cbn [bind]; [|discriminate].
  intros [= <-]. unfold record_typed.
  cbn [daily_forecast.precipitation_probability
       daily_forecast.native_temperature daily_forecast.native_wind_speed
       daily_forecast.native_temperature_unit daily_forecast.humidity].
  repeat split.
  - exact (parse_precipitation_typed p pr P).
  - exact (parse_temperature_typed p t T).
  - exact (parse_wind_speed_typed p w W).
Qed.

(** X10: parsing stops at the first period that cannot be parsed.  When
    the periods are [good ++ bad :: rest], every period of [good] parses
    and [bad] raises, the batch holds exactly the records of [good], in
    order: the periods after [bad] are dropped even when they are well
    formed, and no error reaches the caller. *)
Theorem X10_first_failure_ends_the_batch (payload : value)
    (good rest : list value) (bad : value) (e : exn)
    (records : list daily_forecast.Forecast) (forecast_at : Q) :
  payload_periods payload = Ok (good ++ bad :: rest)%list ->
  Forall2 (fun p r => daily_forecast._parse_period fromisoformat
                        forecast_at p = Ok r) good records ->
  daily_forecast._parse_period fromisoformat forecast_at bad = Raise e ->
  daily_forecast.get_forecast
    (daily_forecast.new fromisoformat payload forecast_at)
  = records.
Proof.
  intros H F Hbad.
  rewrite (new_data_periods payload _ forecast_at H).
  exact (parse_loop_prefix forecast_at bad rest e Hbad good records [] F).
Qed.

(** X11: whatever the payload, the batch is the parse of a prefix of its
    periods, so never longer than the period list; every record carries
    the timestamp given to the parser, an integer precipitation
    probability, a temperature and a wind speed that are null or a
    float, the Celsius unit and no humidity. *)
Theorem X11_batch_invariants (payload : value) (forecast_at : Q) :
  let data := daily_forecast.get_forecast
                (daily_forecast.new fromisoformat payload forecast_at) in
  Forall (fun r => daily_forecast.last_api_update r = forecast_at) data
  /\ Forall record_typed data
  /\ (forall periods,
        payload_periods payload = Ok periods ->
        exists k, (k <= List.length periods)%nat
          /\ List.length data = k
          /\ Forall2 (fun p r => daily_forecast._parse_period fromisoformat
                                   forecast_at p = Ok r)
                     (firstn k periods) data).
Proof.
  intros data.
  assert (G : forall periods,
            payload_periods payload = Ok periods ->
            exists k, (k <= List.length periods)%nat
              /\ Forall2 (fun p r => daily_forecast._parse_period fromisoformat
                                       forecast_at p = Ok r)
                         (firstn k periods) data).
  { intros periods H. subst data.
    rewrite (new_data_periods payload periods forecast_at H).
    destruct (parse_loop_general forecast_at periods [])
      as (k & records & Hk & -> & F).
    exists k. now split. }
  assert (A : Forall (fun r => daily_forecast.last_api_update r = forecast_at
                               /\ record_typed r) data).
  { destruct (payload_periods payload) as [periods|e] eqn:H.
    - destruct (G periods eq_refl) as (k & _ & F).
      clear -F. induction F as [|p r ps rs Hp F IH]; constructor; auto.
      split; [exact (parse_period_stamp fromisoformat forecast_at p r Hp)
             | exact (parse_period_typed forecast_at p r Hp)].
    - subst data. rewrite new_data, H.
      destruct (truthy payload); constructor. }
  split; [|split].
  - eapply Forall_impl; [|exact A]. now intros r [? _].
  - eapply Forall_impl; [|exact A]. now intros r [_ ?].
  - intros periods H. destruct (G periods H) as (k & Hk & F).
    exists k. repeat split; auto.
    rewrite <- (Forall2_length F). apply firstn_length_le. exact Hk.
Qed.

(** X12: the batch is empty, and nothing is raised, when the payload is
    null or an empty object, when [properties.periods] cannot be read or
    iterated, when the list of periods is empty and when the first
    period is not an object. *)
Theorem X12_empty_batches (payload : value) (forecast_at : Q) :
  let data := daily_forecast.get_forecast
                (daily_forecast.new fromisoformat payload forecast_at) in
  (truthy payload = false -> data = [])
  /\ (forall e, payload_periods payload = Raise e -> data = [])
  /\ (payload_periods payload = Ok [] -> data = [])
  /\ (forall p rest,
        payload_periods payload = Ok (p :: rest) ->
        (forall m, p <> VDict m) -> data = []).
Proof.
  intros data. subst data. split; [|split; [|split]].
  - intros H. now rewrite new_data, H.
  - intros e H. rewrite new_data, H. now destruct (truthy payload).
  - intros H. now rewrite (new_data_periods payload [] forecast_at H).
  - intros p rest H Hp.
    rewrite (new_data_periods payload _ forecast_at H).
    cbn [daily_forecast.parse_loop].
    destruct p as [| | | | | | m]; try reflexivity. now destruct (Hp m).
Qed.

(** X13: the wind speed of a period is read from the first
    blank-separated token of [windSpeed] alone.  When that token is a
    number and the token [mph] occurs, the number is divided by 2.237,
    the quotient rounded to a double;
    when no token is [mph] the number is kept as it is, whatever unit
    follows; when the first token is not a number the wind speed is
    null.  A blank [windSpeed] raises [IndexError] and a [windSpeed]
    that is not a string raises [AttributeError]: neither is handled. *)
Theorem X13_wind_speed_extraction (m : list (string * value)) :
  (forall s head rest q,
     item m "windSpeed" = VStr s -> split_ws s = head :: rest ->
     float_of_str head = Ok (Fin q) ->
     existsb (String.eqb "mph") (head :: rest) = true ->
     exists r, daily_forecast.parse_wind_speed (VDict m) = Ok (VFloat (Fin r))
               /\ round_double (q / mph_per_mps) = Fin r)
  /\ (forall s head rest x,
     item m "windSpeed" = VStr s -> split_ws s = head :: rest ->
     float_of_str head = Ok x ->
     existsb (String.eqb "mph") (head :: rest) = false ->
     daily_forecast.parse_wind_speed (VDict m) = Ok (VFloat x))
  /\ (forall s head rest e,
     item m "windSpeed" = VStr s -> split_ws s = head :: rest ->
     float_of_str head = Raise e ->
     daily_forecast.parse_wind_speed (VDict m) = Ok VNone)
  /\ (forall s,
     item m "windSpeed" = VStr s -> split_ws s = [] ->
     daily_forecast.parse_wind_speed (VDict m) = Raise (IndexError "list"))
  /\ ((forall s, item m "windSpeed" <> VStr s) ->
     daily_forecast.parse_wind_speed (VDict m)
     = Raise (AttributeError "split")).
Proof.
  unfold daily_forecast.parse_wind_speed, daily_forecast.NOAA_UNIT_MPH.
  cbn [get bind].
  split; [|split; [|split; [|split]]].
  - intros s head rest q -> Hs Hf Hm. cbn [split bind]. rewrite Hs.
    cbn [first_item bind]. rewrite Hf. cbn [bind]. rewrite Hm.
    unfold speed_miph_to_mps. cbn [truthy].
    destruct (Qeq_bool q 0) eqn:Z; cbn [negb bind try_except fdiv].
    + exists 0. split; [reflexivity|].
      apply round_double_zero. apply Qeq_bool_iff in Z. rewrite Z. reflexivity.
    + destruct (fdiv_finite q mph_per_mps (float_of_str_range head q Hf)
                  mph_per_mps_above_2) as [r R].
      cbn [fdiv] in R. exists r. now rewrite R.
  - intros s head rest x -> Hs Hf Hm. cbn [split bind]. rewrite Hs.
    cbn [first_item bind]. rewrite Hf. cbn [bind]. rewrite Hm. reflexivity.
  - intros s head rest e -> Hs Hf. cbn [split bind]. rewrite Hs.
    cbn [first_item bind]. rewrite Hf. cbn [bind try_except].
    pose proof (float_of_str_error head e Hf) as V.
    destruct e; try discriminate V. reflexivity.
  - intros s -> Hs. cbn [split bind]. rewrite Hs. reflexivity.
  - intros H. destruct (item m "windSpeed") as [| | | | s | |] eqn:E;
      try reflexivity.
    now destruct (H s).
Qed.

(** X14: when [probabilityOfPrecipitation] is an object, the
    precipitation probability of the period is its [value] as an
    integer: an integer as it is, a finite float truncated toward zero,
    a string that reads as an integer as that integer; a value that is
    absent, nan or a string that does not read as an integer gives 0;
    an infinite value raises [OverflowError], which is not handled. *)
Theorem X14_precipitation_extraction (m pm : list (string * value)) :
  item m "probabilityOfPrecipitation" = VDict pm ->
  (forall n, item pm "value" = VInt n ->
     daily_forecast.parse_precipitation_probability (VDict m) = Ok (VInt n))
  /\ (forall q, item pm "value" = VFloat (Fin q) ->
     daily_forecast.parse_precipitation_probability (VDict m)
     = Ok (VInt (Qtrunc q)))
  /\ (forall s n, item pm "value" = VStr s -> int_of_str s = Ok n ->
     daily_forecast.parse_precipitation_probability (VDict m) = Ok (VInt n))
  /\ (forall s e, item pm "value" = VStr s -> int_of_str s = Raise e ->
     daily_forecast.parse_precipitation_probability (VDict m) = Ok (VInt 0))
  /\ (item pm "value" = VNone \/ item pm "value" = VFloat NaN ->
     daily_forecast.parse_precipitation_probability (VDict m) = Ok (VInt 0))
  /\ (forall negative, item pm "value" = VFloat (Inf negative) ->
     daily_forecast.parse_precipitation_probability (VDict m)
     = Raise (OverflowError "int")).
Proof.
  intros H. unfold daily_forecast.parse_precipitation_probability.
  cbn [get bind]. rewrite H. cbn [get bind].
  split; [|split; [|split; [|split; [|split]]]].
  - intros n ->. reflexivity.
  - intros q ->. reflexivity.
  - intros s n -> E. cbn [py_int]. rewrite E. reflexivity.
  - intros s e -> E. cbn [py_int]. rewrite E. cbn [bind try_except].
    now rewrite (int_of_str_error s e E).
  - intros [-> | ->]; reflexivity.
  - intros negative ->. reflexivity.
Qed.

End MoreParser.

Lemma X10_first_failure_ends_the_batch_witness :
  exists r,
    daily_forecast._parse_period sample_fromisoformat 1704067000
      (VDict sample_period) = Ok r
    /\ daily_forecast.get_forecast
         (daily_forecast.new sample_fromisoformat
            (payload_of (VList [VDict sample_period;
                                VDict period_without_precipitation;
                                VDict sample_period]))
            1704067000)
       = [r].
Proof.
  eexists. split; [vm_compute; reflexivity|].
  apply (X10_first_failure_ends_the_batch sample_fromisoformat
           (payload_of (VList [VDict sample_period;
                               VDict period_without_precipitation;
                               VDict sample_period]))
           [VDict sample_period] [VDict sample_period]
           (VDict period_without_precipitation) (AttributeError "get")
           _ 1704067000).
  - reflexivity.
  - constructor; [vm_compute; reflexivity | constructor].
  - vm_compute. reflexivity.
Defined.

Lemma X11_batch_invariants_witness :
  exists k,
    (k <= 2)%nat
    /\ List.length (daily_forecast.get_forecast
                      (daily_forecast.new sample_fromisoformat sample_payload
                                          1704067000)) = k
    /\ Forall2 (fun p r => daily_forecast._parse_period sample_fromisoformat
                             1704067000 p = Ok r)
               (firstn k [VDict sample_period; VDict period_without_unit])
               (daily_forecast.get_forecast
                  (daily_forecast.new sample_fromisoformat sample_payload
                                      1704067000)).
Proof.
  exact (proj2 (proj2 (X11_batch_invariants sample_fromisoformat
                         sample_payload 1704067000))
           [VDict sample_period; VDict period_without_unit] eq_refl).
Defined.

Lemma X12_empty_batches_witness :
  daily_forecast.get_forecast
    (daily_forecast.new sample_fromisoformat (VDict []) 1704067000) = []
  /\ daily_forecast.get_forecast
       (daily_forecast.new sample_fromisoformat
          (payload_of (VStr "unavailable")) 1704067000) = [].
Proof.
  split.
  - apply (proj1 (X12_empty_batches sample_fromisoformat (VDict [])
                    1704067000)).
    reflexivity.
  - destruct (X12_empty_batches sample_fromisoformat
                (payload_of (VStr "unavailable")) 1704067000)
      as (_ & _ & _ & H).
    apply (H (VStr "u") (map (fun c => VStr (String c ""))
                             (list_ascii_of_string "navailable"))).
    + reflexivity.
    + discriminate.
Defined.

Lemma X13_wind_speed_extraction_witness :
  (exists r,
     daily_forecast.parse_wind_speed
       (VDict [("windSpeed", VStr "5 to 10 mph")]) = Ok (VFloat (Fin r))
     /\ round_double (5 / mph_per_mps) = Fin r)
  /\ daily_forecast.parse_wind_speed (VDict [("windSpeed", VStr "20 km/h")])
     = Ok (VFloat (Fin 20)).
Proof.
  split.
  - apply (proj1 (X13_wind_speed_extraction [("windSpeed", VStr "5 to 10 mph")])
             "5 to 10 mph" "5" ["to"; "10"; "mph"] 5); vm_compute; reflexivity.
  - destruct (X13_wind_speed_extraction [("windSpeed", VStr "20 km/h")])
      as (_ & H & _).
    apply (H "20 km/h" "20" ["km/h"] (Fin 20)); vm_compute; reflexivity.
Defined.

Lemma X14_precipitation_extraction_witness :
  daily_forecast.parse_precipitation_probability (VDict sample_period)
  = Ok (VInt 30).
Proof.
  apply (proj1 (X14_precipitation_extraction sample_period
                  [("unitCode", VStr "wmoUnit:percent"); ("value", VInt 30)]
                  eq_refl)).
  reflexivity.
Defined.

(* ===================================================================== *)
(** * Further properties: the client *)
(* ===================================================================== *)

Section MoreClient.

Variable fromisoformat : string -> option Q.
Variable format_url : string -> Q -> Q -> option string.

Lemma location_frame_refl s : location_frame s s.
Proof. unfold location_frame. now repeat split. Qed.

Lemma location_frame_trans a b c :
  location_frame a b -> location_frame b c -> location_frame a c.
Proof.
  unfold location_frame. intros (A1 & A2 & A3 & A4) (B1 & B2 & B3 & B4).
  repeat split; congruence.
Qed.

Lemma config_frame_refl s : config_frame s s.
Proof. unfold config_frame. now split. Qed.

Lemma step_async_get_url_location url :
  step_ok location_frame (_async_get_url url).
Proof.
  intros [o w]. unfold _async_get_url. cbn [snd fst].
  destruct (url_response url w) as [r w']. unfold location_frame.
  cbn [fst snd]. now repeat split.
Qed.

Lemma step_self_set_location f :
  (forall o, _lat (f o) = _lat o /\ _lon (f o) = _lon o
             /\ _url (f o) = _url o
             /\ _refresh_interval (f o) = _refresh_interval o) ->
  step_ok location_frame (self_set f).
Proof. intros Hf [o w]. exact (Hf o). Qed.

Lemma async_get_forecasts_location :
  step_ok location_frame (_async_get_forecasts fromisoformat).
Proof.
  unfold _async_get_forecasts, metadata_link.
  repeat first
    [ apply (step_mbind _ location_frame_trans)
    | apply (step_ret _ location_frame_refl)
    | apply (step_lift _ location_frame_refl)
    | apply (step_self_get _ location_frame_refl)
    | apply (step_time_time _ location_frame_refl)
    | apply step_async_get_url_location
    | apply step_self_set_location; intros; repeat split; reflexivity
    | apply step_if
    | match goal with |- forall _, _ => intro end ].
Qed.

(** ** The shapes of the metadata *)

Lemma metadata_shape (meta : value) :
  truthy meta = false
  \/ malformed_metadata meta
  \/ exists mm pm, meta = VDict mm /\ mm <> []
       /\ get_default (VDict mm) META_PROPERTIES (VDict []) = Ok (VDict pm).
Proof.
  destruct (truthy meta) eqn:T; [right | now left].
  destruct meta as [| | | | | | mm];
    try (left; split; [exact T | intros pm; discriminate]).
  destruct (get_default (VDict mm) META_PROPERTIES (VDict [])) as [x|e] eqn:G;
    [|discriminate].
  destruct x as [| | | | | | pm];
    try (left; split; [exact T | rewrite G; intros pm; discriminate]).
  right. exists mm, pm. repeat split; auto.
  intros ->. discriminate.
Qed.

Lemma async_get_forecasts_falsy o w :
  truthy (_metadata o) = false ->
  _async_get_forecasts fromisoformat (o, w) = (Ok false, (o, w)).
Proof.
  intros H. unfold _async_get_forecasts.
  cbv [mbind self_get ret fst snd]. now rewrite H.
Qed.

Lemma async_get_forecasts_raises o w :
  malformed_metadata (_metadata o) ->
  _async_get_forecasts fromisoformat (o, w)
  = (Raise (AttributeError "get"), (o, w)).
Proof.
  intros [T H]. unfold _async_get_forecasts, metadata_link.
  cbv [mbind self_get lift ret fst snd]. rewrite T. cbn [negb].
  destruct (_metadata o) as [| | | | | | mm]; try reflexivity.
  destruct (get_default (VDict mm) META_PROPERTIES (VDict [])) as [x|e] eqn:G;
    [|discriminate].
  cbn [bind].
  destruct x as [| | | | | | pm]; try reflexivity.
  now destruct (H pm).
Qed.

(** ** A run of [async_get_for_location] for any arguments *)

Lemma get_for_location_general lat lon o w :
  let lat' := or_default lat (_lat o) in
  let lon' := or_default lon (_lon o) in
  let meta := fst (location_response format_url lat' lon' o w) in
  let w0 := snd (location_response format_url lat' lon' o w) in
  async_get_for_location fromisoformat format_url lat lon (o, w)
  = if truthy meta
    then match _async_get_forecasts fromisoformat
                 (with_location lat' lon'
                    (with_metadata_at (clock w0) (with_metadata meta o)),
                  w0) with
         | (Ok ok, (o', w')) =>
             (Ok ok,
              (if ok : bool
               then with_all_data_ok_at (clock w') (with_all_data_ok true o')
               else with_all_data_ok false o',
               w'))
         | (Raise _, s') => (Ok false, s')
         end
    else (Ok false, (o, w0)).
Proof.
  cbv zeta. unfold location_response, async_get_for_location.
  cbv [try_except_all mbind self_get self_set time_time lift ret
       _async_get_url fst snd].
  destruct (format_url (_url o) (or_default lat (_lat o))
              (or_default lon (_lon o))) as [u|]; [|reflexivity].
  destruct (url_response (VStr u) w) as [meta w0].
  destruct (truthy meta); [|reflexivity].
  destruct (_async_get_forecasts fromisoformat _) as [[[|]|e] [o' w']];
    reflexivity.
Qed.

Lemma get_for_location_returns lat lon s :
  exists b s',
    async_get_for_location fromisoformat format_url lat lon s = (Ok b, s').
Proof.
  destruct s as [o w]. rewrite get_for_location_general. cbv zeta.
  destruct (truthy _); [|eexists; eexists; reflexivity].
  destruct (_async_get_forecasts fromisoformat _) as [[ok|e] [o' w']];
    eexists; eexists; reflexivity.
Qed.

Lemma get_for_location_config lat lon s :
  config_frame s
    (snd (async_get_for_location fromisoformat format_url lat lon s)).
Proof.
  destruct s as [o w]. rewrite get_for_location_general. cbv zeta.
  destruct (truthy _); [|split; reflexivity].
  match goal with
  | |- context [_async_get_forecasts fromisoformat ?S] =>
      pose proof (async_get_forecasts_location S) as F
  end.
  destruct (_async_get_forecasts fromisoformat _) as [[[|]|e] [o' w']];
    destruct F as (_ & _ & F3 & F4); cbn [fst snd] in *;
    split; assumption.
Qed.

Lemma refresh_returns s :
  exists b s',
    async_refresh fromisoformat format_url s = (Ok b, s')
    /\ config_frame s s'.
Proof.
  destruct s as [o w].
  destruct (fresh_or_stale o w) as [[Hok Hlt] | Hs].
  - exists true, (o, w). split; [now apply refresh_fresh|].
    apply config_frame_refl.
  - rewrite (refresh_stale fromisoformat format_url o w Hs).
    pose proof (get_for_location_config None None (o, w)) as C.
    destruct (get_for_location_returns None None (o, w)) as (b & s' & E).
    rewrite E in *. exists b, s'. now split.
Qed.

Lemma daily_after_refresh s b s' :
  async_refresh fromisoformat format_url s = (Ok b, s') ->
  async_get_daily_forecasts fromisoformat format_url s
  = (Ok (cached_daily (fst s')), s').
Proof.
  intros E. unfold async_get_daily_forecasts, cached_daily. cbv [mbind].
  rewrite E. cbv [self_get ret fst snd]. destruct s' as [o' w'].
  cbn [fst]. destruct (_daily o'); reflexivity.
Qed.

Lemma hourly_after_refresh s b s' :
  async_refresh fromisoformat format_url s = (Ok b, s') ->
  async_get_hourly_forecasts fromisoformat format_url s
  = (Ok (cached_hourly (fst s')), s').
Proof.
  intros E. unfold async_get_hourly_forecasts, cached_hourly. cbv [mbind].
  rewrite E. cbv [self_get ret fst snd]. destruct s' as [o' w'].
  cbn [fst]. destruct (_hourly o'); reflexivity.
Qed.

End MoreClient.

Section ClientRuns.

Variable fromisoformat : string -> option Q.
Variable format_url : string -> Q -> Q -> option string.

(** X15: the public calls of the client never raise, whatever the
    network answers and whatever shape the metadata have, and never
    change the URL template or the refresh interval; each of the two
    forecast calls returns what the object holds once its refresh is
    over. *)
Theorem X15_public_calls_never_raise (s : State) :
  (forall lat lon,
     exists b s',
       async_get_for_location fromisoformat format_url lat lon s = (Ok b, s')
       /\ config_frame s s')
  /\ (exists b s',
       async_refresh fromisoformat format_url s = (Ok b, s')
       /\ config_frame s s'
       /\ async_get_daily_forecasts fromisoformat format_url s
          = (Ok (cached_daily (fst s')), s')
       /\ async_get_hourly_forecasts fromisoformat format_url s
          = (Ok (cached_hourly (fst s')), s')).
Proof.
  split.
  - intros lat lon.
    pose proof (get_for_location_config fromisoformat format_url lat lon s)
      as C.
    destruct (get_for_location_returns fromisoformat format_url lat lon s)
      as (b & s' & E).
    rewrite E in C. exists b, s'. now split.
  - destruct (refresh_returns fromisoformat format_url s) as (b & s' & E & C).
    exists b, s'. repeat split; try apply C; auto.
    + exact (daily_after_refresh fromisoformat format_url s b s' E).
    + exact (hourly_after_refresh fromisoformat format_url s b s' E).
Qed.

(** X16: [async_get_for_location(lat, lon)] takes a latitude or a
    longitude of 0 as not given and uses the stored one.  When the
    metadata lookup fails the object is left as it was, location
    included; when it succeeds the object takes the location that was
    looked up and the metadata received, with the instant of the
    answer. *)
Theorem X16_location_update (lat lon : option Q) (o : NOAAApiForHA)
    (w : World) :
  let lat' := or_default lat (_lat o) in
  let lon' := or_default lon (_lon o) in
  let meta := fst (location_response format_url lat' lon' o w) in
  let w0 := snd (location_response format_url lat' lon' o w) in
  let run := async_get_for_location fromisoformat format_url lat lon (o, w) in
  (forall z, z == 0 ->
     async_get_for_location fromisoformat format_url (Some z) lon (o, w)
     = async_get_for_location fromisoformat format_url None lon (o, w)
     /\ async_get_for_location fromisoformat format_url lat (Some z) (o, w)
        = async_get_for_location fromisoformat format_url lat None (o, w))
  /\ (truthy meta = false -> run = (Ok false, (o, w0)))
  /\ (truthy meta = true ->
      _lat (fst (snd run)) = lat' /\ _lon (fst (snd run)) = lon'
      /\ _metadata (fst (snd run)) = meta
      /\ _metadata_at (fst (snd run)) = clock w0).
Proof.
  intros lat' lon' meta w0 run. split; [|split].
  - intros z Hz. apply Qeq_bool_iff in Hz.
    rewrite !get_for_location_general. cbv zeta.
    cbn [or_default]. rewrite Hz. split; reflexivity.
  - intros H. subst run. rewrite get_for_location_general. cbv zeta.
    fold lat' lon'. fold meta w0. now rewrite H.
  - intros H. subst run. rewrite get_for_location_general. cbv zeta.
    fold lat' lon'. fold meta w0. rewrite H.
    match goal with
    | |- context [_async_get_forecasts fromisoformat ?S] =>
        pose proof (async_get_forecasts_location fromisoformat S) as L;
        pose proof (async_get_forecasts_frame fromisoformat S) as F
    end.
    destruct (_async_get_forecasts fromisoformat _) as [[[|]|e] [o' w']];
      destruct L as (L1 & L2 & _); destruct F as (_ & _ & _ & F4 & F5 & _);
      cbn [fst snd] in *; repeat split; assumption.
Qed.

(** X17: metadata that arrive but whose [properties] is not an object
    (or that are not an object themselves) are stored all the same, with
    the location looked up; the call reports failure, requests no
    forecast, and leaves the flag [_all_data_ok] and the cached
    forecasts as they were.  An object that was up to date therefore
    still reports success on the next refresh, without fetching. *)
Theorem X17_malformed_metadata (lat lon : option Q) (o : NOAAApiForHA)
    (w : World) :
  let lat' := or_default lat (_lat o) in
  let lon' := or_default lon (_lon o) in
  let meta := fst (location_response format_url lat' lon' o w) in
  let w0 := snd (location_response format_url lat' lon' o w) in
  let o' := with_location lat' lon'
              (with_metadata_at (clock w0) (with_metadata meta o)) in
  malformed_metadata meta ->
  async_get_for_location fromisoformat format_url lat lon (o, w)
  = (Ok false, (o', w0))
  /\ _all_data_ok o' = _all_data_ok o
  /\ cached_daily o' = cached_daily o
  /\ cached_hourly o' = cached_hourly o
  /\ (forall w2,
        _all_data_ok o = true ->
        clock w2 - _all_data_ok_at o < _refresh_interval o ->
        async_refresh fromisoformat format_url (o', w2) = (Ok true, (o', w2))).
Proof.
  intros lat' lon' meta w0 o' M. split; [|repeat split].
  - rewrite get_for_location_general. cbv zeta.
    fold lat' lon'. fold meta w0. rewrite (proj1 M). fold o'.
    now rewrite (async_get_forecasts_raises fromisoformat o' w0 M).
  - intros w2 Hok Hlt. now apply refresh_fresh.
Qed.

Lemma url_response_scripted u w latency r rest :
  u <> "" -> pending w = (latency, Some r) :: rest ->
  url_response (VStr u) w
  = (r, {| clock := clock w + latency; pending := rest;
           requests := u :: requests w |}).
Proof.
  intros Hu Hp. unfold url_response. cbn [truthy].
  destruct (String.eqb_spec u ""); [congruence|]. cbn [negb].
  unfold http_get. now rewrite Hp.
Qed.

Lemma url_response_literal u c latency r rest log :
  u <> "" ->
  url_response (VStr u)
    {| clock := c; pending := (latency, Some r) :: rest; requests := log |}
  = (r, {| clock := c + latency; pending := rest; requests := u :: log |}).
Proof. intros Hu. now apply url_response_scripted. Qed.

(** X18: a refresh that is due and whose four requests are all
    answered, by well-shaped metadata and three payloads, requests the
    location, then the daily, the hourly and the grid link, in this
    order; the clock advances by the four latencies; the object is
    marked up to date at the instant of the last answer; and the daily
    call returns the parse of the daily payload, stamped with the
    instant that payload arrived. *)
Theorem X18_successful_refresh (o : NOAAApiForHA) (w : World)
    (u u1 u2 u3 : string) (l0 l1 l2 l3 : Q)
    (daily hourly grid : value) (mm pm : list (string * value))
    (rest : list (Q * option value)) :
  stale o w ->
  format_url (_url o) (_lat o) (_lon o) = Some u -> u <> "" ->
  pending w = (l0, Some (VDict mm)) :: (l1, Some daily)
              :: (l2, Some hourly) :: (l3, Some grid) :: rest ->
  mm <> [] ->
  get_default (VDict mm) META_PROPERTIES (VDict []) = Ok (VDict pm) ->
  item pm META_FORECAST = VStr u1 -> u1 <> "" ->
  item pm META_FORECAST_HOURLY = VStr u2 -> u2 <> "" ->
  item pm META_FORECAST_GRID_DATA = VStr u3 -> u3 <> "" ->
  truthy daily = true -> truthy hourly = true -> truthy grid = true ->
  let run := async_get_daily_forecasts fromisoformat format_url (o, w) in
  let o' := fst (snd run) in
  let w' := snd (snd run) in
  fst run = Ok (daily_forecast.get_forecast
                  (daily_forecast.new fromisoformat daily (clock w + l0 + l1)))
  /\ requests w' = u3 :: u2 :: u1 :: u :: requests w
  /\ pending w' = rest
  /\ clock w' = clock w + l0 + l1 + l2 + l3
  /\ _all_data_ok o' = true
  /\ _all_data_ok_at o' = clock w'
  /\ _metadata o' = VDict mm
  /\ _forecast_grid_data o' = grid
  /\ cached_hourly o'
     = hourly_forecast.get_forecast
         (hourly_forecast.new fromisoformat hourly (clock w + l0 + l1 + l2)).
Proof.
  intros Hs Hu Hne Hp Hmm Hpm H1 N1 H2 N2 H3 N3 T1 T2 T3.
  assert (D : discover_response format_url o w
              = (VDict mm,
                 {| clock := clock w + l0;
                    pending := (l1, Some daily) :: (l2, Some hourly)
                               :: (l3, Some grid) :: rest;
                    requests := u :: requests w |})).
  { unfold discover_response. rewrite Hu.
    exact (url_response_scripted u w l0 (VDict mm) _ Hne Hp). }
  assert (Tm : truthy (VDict mm) = true)
    by (destruct mm; [congruence | reflexivity]).
  assert (R : exists o',
            async_refresh fromisoformat format_url (o, w)
            = (Ok true,
               (o', {| clock := clock w + l0 + l1 + l2 + l3;
                       pending := rest;
                       requests := u3 :: u2 :: u1 :: u :: requests w |}))
            /\ _all_data_ok o' = true
            /\ _all_data_ok_at o' = clock w + l0 + l1 + l2 + l3
            /\ _metadata o' = VDict mm
            /\ _forecast_grid_data o' = grid
            /\ _daily o'
               = Some (daily_forecast.new fromisoformat daily
                         (clock w + l0 + l1))
            /\ _hourly o'
               = Some (hourly_forecast.new fromisoformat hourly
                         (clock w + l0 + l1 + l2))).
  { rewrite (refresh_stale fromisoformat format_url o w Hs).
    rewrite (get_for_location_run fromisoformat format_url o w)
      by (rewrite D; exact Tm).
    rewrite D. cbn [fst snd clock].
    rewrite (async_get_forecasts_run fromisoformat
               (store_metadata (VDict mm) (clock w + l0) o) _ mm pm
               eq_refl Hmm Hpm).
    cbv zeta. rewrite H1, H2, H3.
    rewrite (url_response_literal u1) by exact N1.
    cbn [fst snd clock requests pending].
    rewrite (url_response_literal u2) by exact N2.
    cbn [fst snd clock requests pending].
    rewrite (url_response_literal u3) by exact N3.
    cbn [fst snd clock requests pending].
    rewrite T1, T2, T3. cbn [andb].
    eexists. split; [reflexivity|].
    unfold store_grid, store_hourly, store_daily. rewrite T1, T2, T3.
    repeat split. }
  destruct R as (o' & E & R1 & R2 & R3 & R4 & R5 & R6).
  intros run o'' w'. subst o'' w' run.
  rewrite (daily_after_refresh fromisoformat format_url _ _ _ E).
  cbn [fst snd requests pending clock].
  unfold cached_daily, cached_hourly. rewrite R5, R6.
  repeat split; assumption.
Qed.

Lemma url_response_budget url w :
  exists later,
    requests (snd (url_response url w)) = (later ++ requests w)%list
    /\ (List.length later <= 1)%nat.
Proof.
  unfold url_response.
  destruct (negb (truthy url)); [exists []; split; [reflexivity | cbn; lia]|].
  destruct url as [| | | | u | |];
    try (exists []; split; [reflexivity | cbn; lia]).
  unfold http_get.
  destruct (pending w) as [|[latency outcome] rest]; cbn [snd requests];
    exists [u]; split; try reflexivity; cbn; lia.
Qed.

Lemma async_get_forecasts_budget o w :
  exists later,
    requests (snd (snd (_async_get_forecasts fromisoformat (o, w))))
    = (later ++ requests w)%list
    /\ (List.length later <= 3)%nat.
Proof.
  destruct (metadata_shape (_metadata o)) as [F | [M | (mm & pm & E & N & G)]].
  - rewrite (async_get_forecasts_falsy fromisoformat o w F).
    exists []. split; [reflexivity | cbn; lia].
  - rewrite (async_get_forecasts_raises fromisoformat o w M).
    exists []. split; [reflexivity | cbn; lia].
  - rewrite (async_get_forecasts_run fromisoformat o w mm pm E N G).
    cbv zeta. cbn [snd].
    destruct (url_response_budget (item pm META_FORECAST) w)
      as (k1 & E1 & B1).
    destruct (url_response_budget (item pm META_FORECAST_HOURLY)
                (snd (url_response (item pm META_FORECAST) w)))
      as (k2 & E2 & B2).
    destruct (url_response_budget (item pm META_FORECAST_GRID_DATA)
                (snd (url_response (item pm META_FORECAST_HOURLY)
                        (snd (url_response (item pm META_FORECAST) w)))))
      as (k3 & E3 & B3).
    exists (k3 ++ k2 ++ k1)%list. split.
    + rewrite E3, E2, E1, <- !List.app_assoc. reflexivity.
    + rewrite !List.length_app. lia.
Qed.

Lemma get_for_location_budget lat lon o w :
  exists later,
    requests (snd (snd (async_get_for_location fromisoformat format_url
                          lat lon (o, w))))
    = (later ++ requests w)%list
    /\ (List.length later <= 4)%nat.
Proof.
  rewrite get_for_location_general. cbv zeta.
  assert (B0 : exists k0,
            requests (snd (location_response format_url
                             (or_default lat (_lat o))
                             (or_default lon (_lon o)) o w))
            = (k0 ++ requests w)%list /\ (List.length k0 <= 1)%nat).
  { unfold location_response. destruct (format_url _ _ _).
    - apply url_response_budget.
    - exists []. split; [reflexivity | cbn; lia]. }
  destruct B0 as (k0 & E0 & B0).
  destruct (truthy _).
  - match goal with
    | |- context [_async_get_forecasts fromisoformat (?O, ?W)] =>
        destruct (async_get_forecasts_budget O W) as (k & E & B)
    end.
    destruct (_async_get_forecasts fromisoformat _) as [[[|]|e] [o' w']];
      cbn [fst snd] in *; exists (k ++ k0)%list;
      (split; [rewrite E, E0, <- List.app_assoc; reflexivity
              | rewrite List.length_app; lia]).
  - cbn [snd]. exists k0. split; [exact E0 | lia].
Qed.

(** X19: one call of [async_get_for_location], of [async_refresh] or of
    a forecast call makes at most four requests, whatever the network
    answers; a refresh of an object that is up to date makes none. *)
Theorem X19_request_budget (o : NOAAApiForHA) (w : World) :
  (forall lat lon,
     exists later,
       requests (snd (snd (async_get_for_location fromisoformat format_url
                             lat lon (o, w))))
       = (later ++ requests w)%list
       /\ (List.length later <= 4)%nat)
  /\ (exists later,
       requests (snd (snd (async_refresh fromisoformat format_url (o, w))))
       = (later ++ requests w)%list
       /\ (List.length later <= 4)%nat
       /\ snd (async_get_daily_forecasts fromisoformat format_url (o, w))
          = snd (async_refresh fromisoformat format_url (o, w))
       /\ snd (async_get_hourly_forecasts fromisoformat format_url (o, w))
          = snd (async_refresh fromisoformat format_url (o, w)))
  /\ (_all_data_ok o = true ->
      clock w - _all_data_ok_at o < _refresh_interval o ->
      snd (async_get_daily_forecasts fromisoformat format_url (o, w)) = (o, w)
      /\ snd (async_get_hourly_forecasts fromisoformat format_url (o, w))
         = (o, w)).
Proof.
  assert (S : snd (async_get_daily_forecasts fromisoformat format_url (o, w))
              = snd (async_refresh fromisoformat format_url (o, w))
              /\ snd (async_get_hourly_forecasts fromisoformat format_url
                        (o, w))
                 = snd (async_refresh fromisoformat format_url (o, w))).
  { destruct (refresh_returns fromisoformat format_url (o, w))
      as (b & s' & E & _).
    rewrite (daily_after_refresh fromisoformat format_url _ _ _ E),
      (hourly_after_refresh fromisoformat format_url _ _ _ E), E.
    split; reflexivity. }
  split; [|split].
  - intros lat lon. apply get_for_location_budget.
  - destruct (fresh_or_stale o w) as [[Hok Hlt] | Hs].
    + rewrite (refresh_fresh fromisoformat format_url o w Hok Hlt) in *.
      exists []. repeat split; try apply S. cbn. lia.
    + rewrite (refresh_stale fromisoformat format_url o w Hs) in *.
      destruct (get_for_location_budget None None o w) as (later & E & B).
      exists later. repeat split; auto; apply S.
  - intros Hok Hlt.
    rewrite (refresh_fresh fromisoformat format_url o w Hok Hlt) in S.
    exact S.
Qed.

(** X20: the proxy's current conditions are the first record of the
    list its hourly call returns in the same state, or nothing when that
    list is empty; its three calls never raise and return the lists the
    client holds after the refresh.  A new proxy has the default refresh
    interval, above the floor, and no data: with the network down its
    calls answer nothing and empty lists. *)
Theorem X20_proxy_calls (s : State) :
  (exists hourly s',
     noaa_proxy.async_get_hourly_forecast fromisoformat format_url s
     = (Ok hourly, s')
     /\ hourly = cached_hourly (fst s')
     /\ noaa_proxy.async_get_current_conditions fromisoformat format_url s
        = (Ok (hd_error hourly), s'))
  /\ (exists daily s',
     noaa_proxy.async_get_daily_forecast fromisoformat format_url s
     = (Ok daily, s')
     /\ daily = cached_daily (fst s'))
  /\ (forall lat lon url w,
     pending w = [] ->
     MIN_REFRESH_INTERVAL
     <= _refresh_interval (noaa_proxy.new lat lon url)
     /\ fst (noaa_proxy.async_get_current_conditions fromisoformat format_url
               (noaa_proxy.new lat lon url, w)) = Ok None
     /\ fst (noaa_proxy.async_get_hourly_forecast fromisoformat format_url
               (noaa_proxy.new lat lon url, w)) = Ok []
     /\ fst (noaa_proxy.async_get_daily_forecast fromisoformat format_url
               (noaa_proxy.new lat lon url, w)) = Ok []).
Proof.
  assert (P : forall s0,
            exists s',
              noaa_proxy.async_get_hourly_forecast fromisoformat format_url s0
              = (Ok (cached_hourly (fst s')), s')
              /\ noaa_proxy.async_get_current_conditions fromisoformat
                   format_url s0
                 = (Ok (hd_error (cached_hourly (fst s'))), s')
              /\ noaa_proxy.async_get_daily_forecast fromisoformat format_url
                   s0
                 = (Ok (cached_daily (fst s')), s')
              /\ snd (async_refresh fromisoformat format_url s0) = s').
  { intros s0.
    destruct (refresh_returns fromisoformat format_url s0) as (b & s' & E & _).
    exists s'.
    unfold noaa_proxy.async_get_hourly_forecast,
      noaa_proxy.async_get_current_conditions,
      noaa_proxy.async_get_daily_forecast.
    cbv [mbind].
    rewrite (daily_after_refresh fromisoformat format_url _ _ _ E),
      (hourly_after_refresh fromisoformat format_url _ _ _ E), E.
    cbv [ret snd]. repeat split.
    destruct (cached_hourly (fst s')); reflexivity. }
  split; [|split].
  - destruct (P s) as (s' & H1 & H2 & _).
    exists (cached_hourly (fst s')), s'. repeat split; assumption.
  - destruct (P s) as (s' & _ & _ & H3 & _).
    exists (cached_daily (fst s')), s'. split; [assumption | reflexivity].
  - intros lat lon url w Hp.
    split; [unfold MIN_REFRESH_INTERVAL; cbn; discriminate|].
    destruct (P (noaa_proxy.new lat lon url, w)) as (s' & H1 & H2 & H3 & H4).
    rewrite H1, H2, H3. cbn [fst].
    assert (O : fst s' = noaa_proxy.new lat lon url).
    { rewrite <- H4.
      rewrite (refresh_stale fromisoformat format_url _ w)
        by (left; reflexivity).
      rewrite get_for_location_general. cbv zeta.
      assert (F : truthy (fst (location_response format_url
                   (or_default None (_lat (noaa_proxy.new lat lon url)))
                   (or_default None (_lon (noaa_proxy.new lat lon url)))
                   (noaa_proxy.new lat lon url) w)) = false).
      { unfold location_response. destruct (format_url _ _ _) as [u|];
          [|reflexivity].
        unfold url_response. destruct (negb (truthy (VStr u))); [reflexivity|].
        unfold http_get. rewrite Hp. reflexivity. }
      rewrite F. reflexivity. }
    rewrite O. repeat split.
Qed.

End ClientRuns.

Lemma X16_location_update_witness :
  async_get_for_location sample_fromisoformat sample_format_url None None
    (sample_client, offline 1704067200 [])
  = (Ok false, (sample_client, offline 1704067200 [sample_url])).
Proof.
  apply (proj1 (proj2 (X16_location_update sample_fromisoformat
                         sample_format_url None None sample_client
                         (offline 1704067200 [])))).
  reflexivity.
Defined.

Lemma X17_malformed_metadata_witness :
  fst (async_get_for_location sample_fromisoformat sample_format_url
         None None (sample_client, garbled)) = Ok false
  /\ _metadata (fst (snd (async_get_for_location sample_fromisoformat
                            sample_format_url None None
                            (sample_client, garbled))))
     = VStr "Service Unavailable".
Proof.
  assert (M : malformed_metadata (VStr "Service Unavailable")).
  { split; [reflexivity | intros pm; discriminate]. }
  rewrite (proj1 (X17_malformed_metadata sample_fromisoformat
                    sample_format_url None None sample_client garbled M)).
  split; reflexivity.
Defined.

Lemma X18_successful_refresh_witness :
  requests (snd (snd (async_get_daily_forecasts sample_fromisoformat
                        sample_format_url (sample_client, all_up))))
  = ["https://api.weather.gov/gridpoints/MTR/97,82";
     "https://api.weather.gov/gridpoints/MTR/97,82/forecast/hourly";
     "https://api.weather.gov/gridpoints/MTR/97,82/forecast";
     sample_url].
Proof.
  destruct (X18_successful_refresh sample_fromisoformat sample_format_url
              sample_client all_up sample_url
              "https://api.weather.gov/gridpoints/MTR/97,82/forecast"
              "https://api.weather.gov/gridpoints/MTR/97,82/forecast/hourly"
              "https://api.weather.gov/gridpoints/MTR/97,82"
              1 1 1 1 sample_payload sample_payload
              (two_hour_grid "2024-01-01T00:00:00+00:00"
                 "2024-01-01T01:00:00+00:00")
              [("properties",
                VDict [("forecast", VStr "https://api.weather.gov/gridpoints/MTR/97,82/forecast");
                       ("forecastHourly", VStr "https://api.weather.gov/gridpoints/MTR/97,82/forecast/hourly");
                       ("forecastGridData", VStr "https://api.weather.gov/gridpoints/MTR/97,82")])]
              [("forecast", VStr "https://api.weather.gov/gridpoints/MTR/97,82/forecast");
               ("forecastHourly", VStr "https://api.weather.gov/gridpoints/MTR/97,82/forecast/hourly");
               ("forecastGridData", VStr "https://api.weather.gov/gridpoints/MTR/97,82")]
              []
              (or_introl eq_refl) eq_refl ltac:(discriminate) eq_refl
              ltac:(discriminate) eq_refl
              eq_refl ltac:(discriminate) eq_refl ltac:(discriminate)
              eq_refl ltac:(discriminate) eq_refl eq_refl eq_refl)
    as (_ & H & _).
  exact H.
Defined.

Lemma X19_request_budget_witness :
  snd (async_get_daily_forecasts sample_fromisoformat sample_format_url
         (with_all_data_ok_at 1704067200 (with_all_data_ok true sample_client),
          offline 1704067300 []))
  = (with_all_data_ok_at 1704067200 (with_all_data_ok true sample_client),
     offline 1704067300 []).
Proof.
  apply (proj2 (proj2 (X19_request_budget sample_fromisoformat
                         sample_format_url
                         (with_all_data_ok_at 1704067200
                            (with_all_data_ok true sample_client))
                         (offline 1704067300 []))));
    reflexivity.
Defined.

Lemma X20_proxy_calls_witness :
  fst (noaa_proxy.async_get_current_conditions sample_fromisoformat
         sample_format_url
         (noaa_proxy.new 37.3611 (-121.9278) None, offline 1704067200 []))
  = Ok None.
Proof.
  apply (proj2 (proj2 (X20_proxy_calls sample_fromisoformat sample_format_url
                         (sample_client, offline 0 []))) 
           37.3611 (-121.9278) None (offline 1704067200 []) eq_refl).
Defined.
